(** * ESP-NOW telemetry pipeline: collector and analyzer

    A shallow embedding of [python/collect.py] (class [ESP8266DataCollector])
    and [python/analyze.py] (class [ESP8266DataAnalyzer]), and the properties
    of the ingestion loop and of the statistics summary.

    Conventions of the embedding:
    - Python values are the inductive [pyval]; a [dict] is an association list
      in insertion order, a [list] object lives in a store and is named by its
      position there, so that [append] and [copy] keep their aliasing.
    - text is a [string] of 8-bit code points;
    - the local clock ([time.time()], [datetime.now()]) is an integer number of
      clock ticks; it advances while [readline] blocks;
    - [print] appends a message to the standard output of the world;
    - a Python exception is the result [Raise]; the [while True] loop runs on
      fuel and yields [Running] when the fuel is spent before it ends;
    - a numeric table cell is a rational ([Q]), the number the int64 or
      float64 cell holds; the arithmetic of the packet-loss estimate is
      numpy's: int64 with wrap-around, and binary64 floats rounded to the
      nearest, ties to even (module [Float64]);
    - the functions of the libraries that compute ([json.loads],
      [pd.to_datetime], the [mean], [std], [median] and [quantile] of pandas)
      are parameters of the functions that call them: a property is proved
      for every reading of the library, under the hypotheses it states. *)

From Stdlib Require Import Ascii String QArith Qround Qminmax Qpower Lia Lqa.
From stdpp Require Import gmap strings list sorting.

#[local] Set Warnings "-register-all".

Local Open Scope string_scope.
Local Open Scope list_scope.
Local Open Scope Z_scope.

(** ** Python values *)

Inductive pyval : Type :=
  | PNone
  | PBool (b : bool)
  | PInt (z : Z)
  | PFloat (repr : string)          (* a float, by its literal *)
  | PStr (s : string)
  | PIso (t : Z)                    (* the str datetime.isoformat() gives at clock reading t *)
  | PList (l : list pyval)
  | PDict (d : list (string * pyval)).

Inductive exn : Type :=
  | TypeError
  | RuntimeError (msg : string)
  | SerialException
  | UnicodeDecodeError
  | KeyError (key : string)
  | OSError
  | ValueError
  | KeyboardInterrupt.

Module Py.

(** [d.get(k)] *)
Fixpoint dict_get {V : Type} (k : string) (d : list (string * V)) : option V :=
  match d with
  | [] => None
  | (k', v) :: d' => if String.eqb k k' then Some v else dict_get k d'
  end.

(** [d[k] = v]: an existing key keeps its place, a new one goes last. *)
Fixpoint dict_set {V : Type} (k : string) (v : V) (d : list (string * V))
  : list (string * V) :=
  match d with
  | [] => [(k, v)]
  | (k', v') :: d' =>
      if String.eqb k k' then (k', v) :: d' else (k', v') :: dict_set k v d'
  end.

Definition dict_keys {V : Type} (d : list (string * V)) : list string := map fst d.

(** [dict(pairs)]: of a repeated key the last value is kept. *)
Definition dict_of_pairs {V : Type} (ps : list (string * V)) : list (string * V) :=
  fold_left (fun d kv => dict_set (fst kv) (snd kv) d) ps [].

(** The mantissa of a float literal: what comes before its exponent. *)
Fixpoint mantissa (r : string) : string :=
  match r with
  | String c r' =>
      if (Ascii.eqb c "e" || Ascii.eqb c "E")%char then EmptyString
      else String c (mantissa r')
  | EmptyString => EmptyString
  end.

Fixpoint all_chars (p : ascii -> bool) (s : string) : bool :=
  match s with
  | String c r => p c && all_chars p r
  | EmptyString => true
  end.

(** A float literal is zero when its mantissa has digits and all are [0]
    (nan and inf have none; underflow to zero is not modelled). *)
Definition float_is_zero (r : string) : bool :=
  let m := mantissa r in
  negb (all_chars (fun c => negb ((48 <=? nat_of_ascii c) && (nat_of_ascii c <=? 57))%nat) m)
  && all_chars (fun c => negb ((49 <=? nat_of_ascii c) && (nat_of_ascii c <=? 57))%nat) m.

(** Truth value of an object, as [if x:] tests it. *)
Definition truthy (v : pyval) : bool :=
  match v with
  | PNone => false
  | PBool b => b
  | PInt z => negb (z =? 0)
  | PFloat r => negb (float_is_zero r)
  | PStr s => negb (String.eqb s "")
  | PIso _ => true
  | PList l => match l with [] => false | _ => true end
  | PDict d => match d with [] => false | _ => true end
  end.

(** Truth value of an optional number ([None] and zero are false). *)
Definition truthy_num (o : option Z) : bool :=
  match o with
  | None => false
  | Some z => negb (z =? 0)
  end.

(** [data[key] = v]: only a dict takes a str key. *)
Definition setitem (data : pyval) (key : string) (v : pyval) : exn + pyval :=
  match data with
  | PDict d => inr (PDict (dict_set key v d))
  | _ => inl TypeError
  end.

(** Code points that [str.isspace] accepts, below 256. *)
Definition isspace (c : ascii) : bool :=
  let n := nat_of_ascii c in
  ((9 <=? n) && (n <=? 13) || (28 <=? n) && (n <=? 32)
   || (n =? 133) || (n =? 160))%nat.

Fixpoint lstrip (s : string) : string :=
  match s with
  | String c r => if isspace c then lstrip r else s
  | EmptyString => EmptyString
  end.

Fixpoint rstrip (s : string) : string :=
  match s with
  | String c r =>
      match rstrip r with
      | EmptyString => if isspace c then EmptyString else String c EmptyString
      | r' => String c r'
      end
  | EmptyString => EmptyString
  end.

Definition strip (s : string) : string := rstrip (lstrip s).

End Py.

(** ** The JSON decoder

    [json.loads] is a library function: the collector is stated over any
    decoder of this type.  [Json.loads] below is a decoder of the JSON grammar
    as the Python module reads it, used to run the collector on lines. *)

Inductive loads_result : Type :=
  | Loaded (v : pyval)
  | JSONDecodeError (msg : string).

Module Json.

Definition dq : ascii := ascii_of_nat 34.
Definition bs : ascii := ascii_of_nat 92.

Definition is_ws (c : ascii) : bool :=
  let n := nat_of_ascii c in ((n =? 32) || (n =? 9) || (n =? 10) || (n =? 13))%nat.

Definition is_digit (c : ascii) : bool :=
  let n := nat_of_ascii c in ((48 <=? n) && (n <=? 57))%nat.

Fixpoint skip_ws (s : string) : string :=
  match s with
  | String c r => if is_ws c then skip_ws r else s
  | EmptyString => EmptyString
  end.

(** Longest prefix of digits, and what follows it. *)
Fixpoint digits (s : string) : string * string :=
  match s with
  | String c r =>
      if is_digit c then let '(d, r') := digits r in (String c d, r')
      else (EmptyString, s)
  | EmptyString => (EmptyString, EmptyString)
  end.

Fixpoint Z_of_digits (acc : Z) (s : string) : Z :=
  match s with
  | String c r => Z_of_digits (10 * acc + (Z.of_nat (nat_of_ascii c) - 48)) r
  | EmptyString => acc
  end.

(** [prefix p s]: what follows [p] in [s], when [s] starts with [p]. *)
Fixpoint after (p s : string) : option string :=
  match p, s with
  | EmptyString, _ => Some s
  | String a p', String b s' => if Ascii.eqb a b then after p' s' else None
  | _, _ => None
  end.

(** The integer part of a number: [0] or a digit string with no leading zero. *)
Definition int_part (s : string) : option (string * string) :=
  match s with
  | String "0" r => Some ("0", r)
  | _ => match digits s with
         | (EmptyString, _) => None
         | (d, r) => Some (d, r)
         end
  end.

Definition frac_part (s : string) : string * string :=
  match s with
  | String "." r =>
      match digits r with
      | (EmptyString, _) => (EmptyString, s)
      | (d, r') => (String "." d, r')
      end
  | _ => (EmptyString, s)
  end.

Definition exp_part (s : string) : string * string :=
  match s with
  | String e r =>
      if (Ascii.eqb e "e" || Ascii.eqb e "E")%char then
        let '(sg, r1) :=
          match r with
          | String c r1 =>
              if (Ascii.eqb c "+" || Ascii.eqb c "-")%char
              then (String c EmptyString, r1) else (EmptyString, r)
          | EmptyString => (EmptyString, r)
          end in
        match digits r1 with
        | (EmptyString, _) => (EmptyString, s)
        | (d, r2) => (String e (sg +:+ d), r2)
        end
      else (EmptyString, s)
  | EmptyString => (EmptyString, s)
  end.

(** A number: an int when it has neither fraction nor exponent. *)
Definition number (s : string) : option (pyval * string) :=
  let '(neg, s1) := match s with
                    | String "-" r => (true, r)
                    | _ => (false, s)
                    end in
  match int_part s1 with
  | None => None
  | Some (ip, r) =>
      let '(fp, r1) := frac_part r in
      let '(ep, r2) := exp_part r1 in
      match fp, ep with
      | EmptyString, EmptyString =>
          let z := Z_of_digits 0 ip in Some (PInt (if neg then - z else z), r2)
      | _, _ => Some (PFloat ((if neg then "-" else "") +:+ ip +:+ fp +:+ ep), r2)
      end
  end.

Definition hex_val (c : ascii) : option nat :=
  let n := nat_of_ascii c in
  if ((48 <=? n) && (n <=? 57))%nat then Some (n - 48)%nat
  else if ((97 <=? n) && (n <=? 102))%nat then Some (n - 87)%nat
  else if ((65 <=? n) && (n <=? 70))%nat then Some (n - 55)%nat
  else None.

(** The text of a string literal after its opening quote.  A control
    character ends the decoding (strict mode); an escape [\uXXXX] is decoded
    when its code point is below 256, the range of the text modelled here. *)
Fixpoint string_body (s : string) : option (string * string) :=
  match s with
  | EmptyString => None
  | String c r =>
      if Ascii.eqb c dq then Some (EmptyString, r)
      else if (nat_of_ascii c <? 32)%nat then None
      else if Ascii.eqb c bs then
        match r with
        | String e r1 =>
            let simple (ch : ascii) :=
              match string_body r1 with
              | Some (t, r2) => Some (String ch t, r2)
              | None => None
              end in
            if Ascii.eqb e dq then simple dq
            else if Ascii.eqb e bs then simple bs
            else if Ascii.eqb e "/" then simple "/"%char
            else if Ascii.eqb e "b" then simple (ascii_of_nat 8)
            else if Ascii.eqb e "f" then simple (ascii_of_nat 12)
            else if Ascii.eqb e "n" then simple (ascii_of_nat 10)
            else if Ascii.eqb e "r" then simple (ascii_of_nat 13)
            else if Ascii.eqb e "t" then simple (ascii_of_nat 9)
            else if Ascii.eqb e "u" then
              match r1 with
              | String h1 (String h2 (String h3 (String h4 r2))) =>
                  match hex_val h1, hex_val h2, hex_val h3, hex_val h4 with
                  | Some 0%nat, Some 0%nat, Some a, Some b =>
                      match string_body r2 with
                      | Some (t, r3) => Some (String (ascii_of_nat (16 * a + b)) t, r3)
                      | None => None
                      end
                  | _, _, _, _ => None
                  end
              | _ => None
              end
            else None
        | EmptyString => None
        end
      else
        match string_body r with
        | Some (t, r') => Some (String c t, r')
        | None => None
        end
  end.

(** One value at the head of [s]; [elements] and [members] read what follows
    the first item of an array and of an object. *)
Fixpoint value (fuel : nat) (s : string) {struct fuel} : option (pyval * string) :=
  match fuel with
  | O => None
  | S f =>
      match s with
      | String c r =>
          if Ascii.eqb c dq then
            match string_body r with
            | Some (t, r') => Some (PStr t, r')
            | None => None
            end
          else if Ascii.eqb c "[" then
            match skip_ws r with
            | String "]" r' => Some (PList [], r')
            | r0 =>
                match value f r0 with
                | Some (v, r1) =>
                    match elements f (skip_ws r1) [v] with
                    | Some (vs, r2) => Some (PList vs, r2)
                    | None => None
                    end
                | None => None
                end
            end
          else if Ascii.eqb c "{" then
            match skip_ws r with
            | String "}" r' => Some (PDict [], r')
            | r0 =>
                match member f r0 with
                | Some (kv, r1) =>
                    match members f (skip_ws r1) [kv] with
                    | Some (kvs, r2) => Some (PDict (Py.dict_of_pairs kvs), r2)
                    | None => None
                    end
                | None => None
                end
            end
          else
            match after "null" s, after "true" s, after "false" s with
            | Some r', _, _ => Some (PNone, r')
            | _, Some r', _ => Some (PBool true, r')
            | _, _, Some r' => Some (PBool false, r')
            | _, _, _ =>
                match after "NaN" s, after "Infinity" s, after "-Infinity" s with
                | Some r', _, _ => Some (PFloat "nan", r')
                | _, Some r', _ => Some (PFloat "inf", r')
                | _, _, Some r' => Some (PFloat "-inf", r')
                | _, _, _ => number s
                end
            end
      | EmptyString => None
      end
  end
with elements (fuel : nat) (s : string) (acc : list pyval) {struct fuel}
  : option (list pyval * string) :=
  match fuel with
  | O => None
  | S f =>
      match s with
      | String "]" r => Some (acc, r)
      | String "," r =>
          match value f (skip_ws r) with
          | Some (v, r1) => elements f (skip_ws r1) (acc ++ [v])
          | None => None
          end
      | _ => None
      end
  end
with member (fuel : nat) (s : string) {struct fuel}
  : option ((string * pyval) * string) :=
  match fuel with
  | O => None
  | S f =>
      match s with
      | String c r =>
          if Ascii.eqb c dq then
            match string_body r with
            | Some (k, r1) =>
                match skip_ws r1 with
                | String ":" r2 =>
                    match value f (skip_ws r2) with
                    | Some (v, r3) => Some ((k, v), r3)
                    | None => None
                    end
                | _ => None
                end
            | None => None
            end
          else None
      | EmptyString => None
      end
  end
with members (fuel : nat) (s : string) (acc : list (string * pyval)) {struct fuel}
  : option (list (string * pyval) * string) :=
  match fuel with
  | O => None
  | S f =>
      match s with
      | String "}" r => Some (acc, r)
      | String "," r =>
          match member f (skip_ws r) with
          | Some (kv, r1) => members f (skip_ws r1) (acc ++ [kv])
          | None => None
          end
      | _ => None
      end
  end.

(** [json.loads(s)]: one value, white space around it, nothing after it.
    Every call of the decoder consumes a character, so twice the length of
    the text is fuel enough. *)
Definition loads (s : string) : loads_result :=
  match value (2 * String.length s + 2) (skip_ws s) with
  | Some (v, r) =>
      match skip_ws r with
      | EmptyString => Loaded v
      | _ => JSONDecodeError "Extra data"
      end
  | None => JSONDecodeError "Expecting value"
  end.

(** [quote s] is [s] between double quotes. *)
Definition quote (s : string) : string := String dq (s +:+ String dq EmptyString).

End Json.

(** ** The collector ([python/collect.py]) *)

Module Collect.

(** What [print] writes, one constructor for each message of the module. *)
Inductive Msg : Type :=
  | ConnectedTo (port : string) (baudrate : Z)
  | ConnectFailed (port : string)
  | ConnectionClosed
  | JsonParseError (err line : string)
  | Starting
  | DurationInfo (d : Z)
  | MaxSamplesInfo (n : Z)
  | DurationReached (d : Z)
  | SampleLimitReached (n : Z)
  | Progress (samples elapsed : Z)
  | StoppedByUser
  | CollectionComplete (samples : nat) (elapsed : Z)
  | NoDataToSave
  | DataSaved (path : string) (nrows : nat)
  | SaveFailed.

(** A table as [pd.DataFrame] holds it: the column names and, for each
    record, one cell for each column ([None] where the record has no such
    field). *)
Record DataFrame : Type := mkDataFrame {
  columns : list string;
  rows : list (list (option pyval))
}.

(** What one [readline] on the serial port meets: the bytes that arrived,
    decoded (the empty text on a timeout), an interrupt of the operator, or
    the loss of the device; and how long the call blocked. *)
Inductive Arrival : Type :=
  | Data (text : string)
  | Interrupt
  | Lost.

Record ReadEvent : Type := mkRead { waited : Z; arrival : Arrival }.

(** [serial.Serial]: the [n]-th [readline] meets [incoming n]. *)
Record Serial : Type := mkSerial {
  is_open : bool;
  incoming : nat -> ReadEvent
}.

Record World : Type := mkWorld {
  clock : Z;                         (* the local clock, in ticks *)
  read_log : list Z;                 (* clock reading at the start of each readline so far *)
  stdout : list Msg;
  store : list (list pyval);         (* the list objects, by position *)
  files : gmap string DataFrame;     (* the CSV files, by path *)
  locked : gset string               (* paths the system refuses to write *)
}.

Definition set_clock (t : Z) (w : World) : World :=
  mkWorld t (read_log w) (stdout w) (store w) (files w) (locked w).
Definition set_read_log (l : list Z) (w : World) : World :=
  mkWorld (clock w) l (stdout w) (store w) (files w) (locked w).
Definition set_stdout (o : list Msg) (w : World) : World :=
  mkWorld (clock w) (read_log w) o (store w) (files w) (locked w).
Definition set_store (s : list (list pyval)) (w : World) : World :=
  mkWorld (clock w) (read_log w) (stdout w) s (files w) (locked w).
Definition set_files (f : gmap string DataFrame) (w : World) : World :=
  mkWorld (clock w) (read_log w) (stdout w) (store w) f (locked w).

(** *** Computations: state, exceptions, fuel *)

Inductive Result (A : Type) : Type :=
  | Ok (a : A)
  | Raise (e : exn)
  | Running.
Arguments Ok {A} a.
Arguments Raise {A} e.
Arguments Running {A}.

Definition M (A : Type) : Type := World -> Result A * World.

Definition ret {A} (a : A) : M A := fun w => (Ok a, w).
Definition raise {A} (e : exn) : M A := fun w => (Raise e, w).
Definition running {A} : M A := fun w => (Running, w).

Definition bind {A B} (m : M A) (k : A -> M B) : M B := fun w =>
  match m w with
  | (Ok a, w') => k a w'
  | (Raise e, w') => (Raise e, w')
  | (Running, w') => (Running, w')
  end.

Declare Scope py_scope.
Delimit Scope py_scope with py.
Notation "x <- c ;; k" := (bind c (fun x => k))
  (at level 100, c at next level, right associativity) : py_scope.
Notation "c ;;; k" := (bind c (fun _ => k))
  (at level 100, right associativity) : py_scope.
Local Open Scope py_scope.

(** [try: body except E: handler], for the exceptions [catches] accepts. *)
Definition try_except {A} (body : M A) (catches : exn -> bool) (handler : M A) : M A :=
  fun w =>
    match body w with
    | (Raise e, w') => if catches e then handler w' else (Raise e, w')
    | r => r
    end.

Definition when (b : bool) (m : M unit) : M unit := if b then m else ret tt.

Definition print (m : Msg) : M unit := fun w => (Ok tt, set_stdout (stdout w ++ [m]) w).

(** [time.time()] and [datetime.now()] read the same local clock. *)
Definition time_time : M Z := fun w => (Ok (clock w), w).
Definition datetime_now : M Z := fun w => (Ok (clock w), w).

(** [conn.readline().decode('utf-8', errors='ignore')]: the call blocks for
    [waited] ticks; decoding with [errors='ignore'] raises nothing. *)
Definition readline (conn : Serial) : M string := fun w =>
  let ev := incoming conn (length (read_log w)) in
  let w' := set_clock (clock w + waited ev) (set_read_log (read_log w ++ [clock w]) w) in
  match arrival ev with
  | Data text => (Ok text, w')
  | Interrupt => (Raise KeyboardInterrupt, w')
  | Lost => (Raise SerialException, w')
  end.

(** List objects of the store. *)
Definition list_new : M nat := fun w =>
  (Ok (length (store w)), set_store (store w ++ [[]]) w).
Definition list_items (l : nat) : M (list pyval) := fun w =>
  (Ok (default [] (store w !! l)), w).
Definition list_append (l : nat) (v : pyval) : M unit := fun w =>
  (Ok tt, set_store (alter (fun xs => xs ++ [v]) l (store w)) w).
Definition list_copy (l : nat) : M nat := fun w =>
  (Ok (length (store w)), set_store (store w ++ [default [] (store w !! l)]) w).

Definition lift {A} (r : exn + A) : M A :=
  match r with
  | inl e => raise e
  | inr a => ret a
  end.

Record Collector : Type := mkCollector {
  port : string;
  baudrate : Z;
  timeout : Z;
  serial_conn : option Serial;
  data_buffer : nat                  (* the list object that is the buffer *)
}.

(** [__init__]: no connection yet, and a new, empty buffer. *)
Definition init (port : string) (baudrate timeout : Z) : M Collector :=
  buf <- list_new ;;
  ret (mkCollector port baudrate timeout None buf).

(** [connect]: [device] is what opening the port gives, [None] when
    [serial.Serial] raises [SerialException]. *)
Definition connect (c : Collector) (device : option (nat -> ReadEvent))
  : M (bool * Collector) :=
  match device with
  | Some feed =>
      print (ConnectedTo (port c) (baudrate c)) ;;;
      ret (true, mkCollector (port c) (baudrate c) (timeout c)
                   (Some (mkSerial true feed)) (data_buffer c))
  | None =>
      print (ConnectFailed (port c)) ;;;
      ret (false, c)
  end.

Section WithDecoder.

Variable json_loads : string -> loads_result.

(** [parse_json_line] *)
Definition parse_json_line (line : string) : M (option pyval) :=
  let line := Py.strip line in
  if String.eqb line "" then ret None
  else
    match json_loads line with
    | Loaded data =>
        now <- datetime_now ;;
        data <- lift (Py.setitem data "timestamp" (PIso now)) ;;
        ret (Some data)
    | JSONDecodeError e =>
        print (JsonParseError e line) ;;;
        ret None
    end.

Definition truthy_opt (o : option pyval) : bool :=
  match o with
  | Some v => Py.truthy v
  | None => false
  end.

(** The body of the inner [try] of the loop: one read, and the sample it
    gives when it gives one.  The result is the new [sample_count]. *)
Definition read_sample (c : Collector) (conn : Serial) (start_time sample_count : Z)
  : M Z :=
  line <- readline conn ;;
  if negb (String.eqb line "") then
    parsed <- parse_json_line line ;;
    match parsed with
    | Some sample =>
        if Py.truthy sample then
          list_append (data_buffer c) sample ;;;
          let sample_count := sample_count + 1 in
          when (sample_count mod 10 =? 0)
               (now <- time_time ;;
                print (Progress sample_count (now - start_time))) ;;;
          ret sample_count
        else ret sample_count
    | None => ret sample_count
    end
  else ret sample_count.

Definition is_unicode_error (e : exn) : bool :=
  match e with UnicodeDecodeError => true | _ => false end.
Definition is_keyboard_interrupt (e : exn) : bool :=
  match e with KeyboardInterrupt => true | _ => false end.
Definition is_exception (e : exn) : bool := negb (is_keyboard_interrupt e).

(** [duration and (time.time() - start_time) >= duration]: the clock is
    read only when [duration] is true. *)
Definition duration_reached (duration : option Z) (start_time : Z) : M bool :=
  if Py.truthy_num duration then
    now <- time_time ;;
    ret (default 0 duration <=? now - start_time)
  else ret false.

(** [max_samples and sample_count >= max_samples] *)
Definition samples_reached (max_samples : option Z) (sample_count : Z) : bool :=
  Py.truthy_num max_samples && (default 0 max_samples <=? sample_count).

(** The [while True] loop of [collect_data]. *)
Fixpoint collect_loop (fuel : nat) (c : Collector) (conn : Serial)
    (duration max_samples : option Z) (start_time sample_count : Z) : M unit :=
  match fuel with
  | O => running
  | S fuel' =>
      timed_out <- duration_reached duration start_time ;;
      if timed_out then
        print (DurationReached (default 0 duration))
      else if samples_reached max_samples sample_count then
        print (SampleLimitReached (default 0 max_samples))
      else
        sample_count <- try_except (read_sample c conn start_time sample_count)
                          is_unicode_error (ret sample_count) ;;
        collect_loop fuel' c conn duration max_samples start_time sample_count
  end.

(** [collect_data]; the result names the copy of the buffer. *)
Definition collect_data (fuel : nat) (c : Collector)
    (duration max_samples : option Z) : M nat :=
  match serial_conn c with
  | Some conn =>
      if is_open conn then
        start_time <- time_time ;;
        print Starting ;;;
        when (Py.truthy_num duration) (print (DurationInfo (default 0 duration))) ;;;
        when (Py.truthy_num max_samples) (print (MaxSamplesInfo (default 0 max_samples))) ;;;
        try_except
          (collect_loop fuel c conn duration max_samples start_time 0)
          is_keyboard_interrupt (print StoppedByUser) ;;;
        now <- time_time ;;
        buf <- list_items (data_buffer c) ;;
        print (CollectionComplete (length buf) (now - start_time)) ;;;
        list_copy (data_buffer c)
      else raise (RuntimeError "Serial connection not established")
  | None => raise (RuntimeError "Serial connection not established")
  end.

End WithDecoder.

(** *** Export *)

Definition record_keys (r : pyval) : list string :=
  match r with
  | PDict d => Py.dict_keys d
  | _ => []
  end.

Definition record_get (k : string) (r : pyval) : option pyval :=
  match r with
  | PDict d => Py.dict_get k d
  | _ => None
  end.

(** The columns of [pd.DataFrame(records)]: every key, by first appearance. *)
Definition union_keys (recs : list pyval) : list string :=
  fold_left (fun cols r =>
               fold_left (fun cols k =>
                            if existsb (String.eqb k) cols then cols else cols ++ [k])
                         (record_keys r) cols)
            recs [].

Definition from_records (recs : list pyval) : DataFrame :=
  let cols := union_keys recs in
  mkDataFrame cols (map (fun r => map (fun k => record_get k r) cols) recs).

(** [df.empty]: no column or no row. *)
Definition empty (df : DataFrame) : bool :=
  match columns df, rows df with
  | [], _ | _, [] => true
  | _, _ => false
  end.

(** The place of a column among the names. *)
Fixpoint column_index (name : string) (names : list string) : option nat :=
  match names with
  | [] => None
  | n :: names' =>
      if String.eqb name n then Some 0%nat
      else option_map S (column_index name names')
  end.

(** [df[name]] *)
Definition column_of (name : string) (df : DataFrame) : list (option pyval) :=
  match column_index name (columns df) with
  | Some j => map (fun row => default None (row !! j)) (rows df)
  | None => []
  end.

(** [df[name] = cells], for a column the table has: the rows stay, each
    takes the cell of its place. *)
Definition set_column (name : string) (cells : list (option pyval)) (df : DataFrame)
  : DataFrame :=
  match column_index name (columns df) with
  | Some j =>
      mkDataFrame (columns df)
        (imap (fun i row =>
                 match cells !! i with
                 | Some cell => <[j := cell]> row
                 | None => row
                 end)
              (rows df))
  | None => df
  end.

(** [df.to_csv(filepath)], after [Path(filepath).parent.mkdir(...)]: the file
    is written unless the system refuses the path. *)
Definition to_csv (df : DataFrame) (filepath : string) : M unit := fun w =>
  if decide (filepath ∈ locked w) then (Raise OSError, w)
  else (Ok tt, set_files (<[filepath := df]> (files w)) w).

(** What [pd.to_datetime] makes of a column: the column of the time stamps
    it reads, or [ValueError] when it cannot read a cell in the format it
    took from the first one. *)
Inductive datetime_result : Type :=
  | Stamps (cells : list (option pyval))
  | Unreadable.

Section WithPandas.

(** [pd.to_datetime] is a library function: the collector is stated over any
    function of this type. *)
Variable to_datetime : list (option pyval) -> datetime_result.

(** [to_dataframe] *)
Definition to_dataframe (c : Collector) : M DataFrame :=
  buf <- list_items (data_buffer c) ;;
  match buf with
  | [] => ret (mkDataFrame [] [])
  | _ =>
      let df := from_records buf in
      if existsb (String.eqb "timestamp") (columns df) then
        match to_datetime (column_of "timestamp" df) with
        | Stamps stamps => ret (set_column "timestamp" stamps df)
        | Unreadable => raise ValueError
        end
      else ret df
  end.

(** [save_to_csv] *)
Definition save_to_csv (c : Collector) (filepath : string) : M bool :=
  try_except
    (df <- to_dataframe c ;;
     if empty df then
       print NoDataToSave ;;;
       ret false
     else
       to_csv df filepath ;;;
       print (DataSaved filepath (length (rows df))) ;;;
       ret true)
    (fun e => negb (match e with KeyboardInterrupt => true | _ => false end))
    (print SaveFailed ;;;
     ret false).

End WithPandas.

(** The world a program starts in: nothing printed, no object, no file. *)
Definition boot : World := mkWorld 0 [] [] [] ∅ ∅.

End Collect.

(** ** Binary64 floats

    The floats of numpy and Python (IEEE 754 binary64): a float is NaN, an
    infinity or a rational; the result of an operation is the exact result
    rounded to the nearest float, ties to the even significand, an infinity
    when that float is not below [2^1024].  The sign of a zero is not kept:
    no operation used here tells [-0.0] from [0.0]. *)

Module Float64.

Local Open Scope Q_scope.

Inductive float64 : Type :=
  | Nan
  | Inf (negative : bool)
  | Finite (q : Q).

Definition pow2 (e : Z) : Q := 2 ^ e.

(** The nearest integer, ties to even. *)
Definition rint (q : Q) : Z :=
  let f := Qfloor q in
  match Qcompare (q - inject_Z f) (1 # 2) with
  | Lt => f
  | Gt => (f + 1)%Z
  | Eq => if Z.even f then f else (f + 1)%Z
  end.

(** The integer part of the binary logarithm of a positive rational. *)
Definition ilog2 (q : Q) : Z :=
  let e := (Z.log2 (Qnum q) - Z.log2 (Zpos (Qden q)))%Z in
  if Qle_bool (pow2 e) q then e else (e - 1)%Z.

(** The exponent of the last of the 53 bits of the significand of a positive
    rational; [-1074] for the subnormal numbers. *)
Definition ulp_exp (q : Q) : Z := Z.max (ilog2 q - 52) (-1074).

(** The nearest multiple of the unit in the last place of a positive
    rational. *)
Definition nearest (q : Q) : Q :=
  inject_Z (rint (q / pow2 (ulp_exp q))) * pow2 (ulp_exp q).

Definition overflow (negative : bool) (v : Q) : float64 :=
  if Qle_bool (pow2 1024) v then Inf negative
  else Finite (if negative then - v else v).

(** The float nearest to a rational. *)
Definition round (x : Q) : float64 :=
  let q := Qred x in
  match Qcompare q 0 with
  | Eq => Finite 0
  | Gt => overflow false (nearest q)
  | Lt => overflow true (nearest (- q))
  end.

Definition fneg (x : float64) : float64 :=
  match x with
  | Nan => Nan
  | Inf b => Inf (negb b)
  | Finite q => Finite (- q)
  end.

Definition fadd (x y : float64) : float64 :=
  match x, y with
  | Nan, _ | _, Nan => Nan
  | Inf a, Inf b => if Bool.eqb a b then Inf a else Nan
  | Inf a, Finite _ => Inf a
  | Finite _, Inf b => Inf b
  | Finite p, Finite q => round (p + q)
  end.

Definition fsub (x y : float64) : float64 := fadd x (fneg y).

Definition negative (q : Q) : bool :=
  match Qcompare q 0 with Lt => true | _ => false end.

Definition fmul (x y : float64) : float64 :=
  match x, y with
  | Nan, _ | _, Nan => Nan
  | Inf a, Inf b => Inf (xorb a b)
  | Inf a, Finite q | Finite q, Inf a =>
      match Qcompare q 0 with
      | Eq => Nan
      | _ => Inf (xorb a (negative q))
      end
  | Finite p, Finite q => round (p * q)
  end.

(** numpy's division: a zero divisor gives an infinity or NaN, no
    exception. *)
Definition fdiv (x y : float64) : float64 :=
  match x, y with
  | Nan, _ | _, Nan => Nan
  | Inf _, Inf _ => Nan
  | Inf a, Finite q => Inf (xorb a (negative q))
  | Finite _, Inf _ => Finite 0
  | Finite p, Finite q =>
      match Qcompare q 0 with
      | Eq =>
          match Qcompare p 0 with
          | Eq => Nan
          | Lt => Inf true
          | Gt => Inf false
          end
      | _ => round (p / q)
      end
  end.

(** The float of an integer. *)
Definition of_int (z : Z) : float64 := round (inject_Z z).

(** [x > 0] *)
Definition positive (x : float64) : bool :=
  match x with
  | Finite q => match Qcompare q 0 with Gt => true | _ => false end
  | Inf false => true
  | _ => false
  end.

(** The order of the floats, against a rational and among themselves; NaN is
    in no order with anything. *)
Definition below (c : Q) (x : float64) : Prop :=
  match x with
  | Inf true => True
  | Finite v => v <= c
  | _ => False
  end.

Definition above (c : Q) (x : float64) : Prop :=
  match x with
  | Inf false => True
  | Finite v => c <= v
  | _ => False
  end.

Definition fle (x y : float64) : Prop :=
  match x, y with
  | Inf true, Inf _ | Inf true, Finite _ => True
  | Inf false, Inf false | Finite _, Inf false => True
  | Finite u, Finite v => u <= v
  | _, _ => False
  end.

(** A rational that is a float: a multiple of a power of two that the
    significand and the exponent of a float can hold. *)
Definition is_float (c : Q) : Prop :=
  exists m k, c == inject_Z m * pow2 k /\ (m <= 2 ^ 53)%Z /\ (-1074 <= k)%Z
              /\ c < pow2 1024.

End Float64.

(** ** The analyzer ([python/analyze.py]) *)

Module Analyze.

Local Open Scope Q_scope.

(** A float of the summary: NaN, an infinity, a rational, or the square root
    of a rational. *)
Inductive num : Type :=
  | NaN
  | Infinity (negative : bool)
  | Num (q : Q)
  | Root (q : Q).

(** A numeric column: [None] is a missing cell (NaN, NaT). *)
Definition Series : Type := list (option Q).

(** A loaded table: the header of the file and its rows, a cell for each
    name of the header.  Cells of the columns read here are numbers (a time
    stamp is a number of seconds): the value of the int64 cell or of the
    float64 cell that [read_csv] made; a cell that is none is missing. *)
Record Table : Type := mkTable {
  header : list string;
  body : list (list (option Q))
}.

Fixpoint index_of (name : string) (names : list string) : option nat :=
  match names with
  | [] => None
  | n :: names' =>
      if String.eqb name n then Some 0%nat
      else option_map S (index_of name names')
  end.

(** ['name' in df.columns] *)
Definition has_column (name : string) (t : Table) : bool :=
  existsb (String.eqb name) (header t).

(** [df['name']], for a name of the header. *)
Definition column (name : string) (t : Table) : Series :=
  match index_of name (header t) with
  | Some i => map (fun row => nth i row None) (body t)
  | None => []
  end.

Fixpoint dropna (s : Series) : list Q :=
  match s with
  | [] => []
  | Some x :: s' => x :: dropna s'
  | None :: s' => dropna s'
  end.

Fixpoint insert_sorted (x : Q) (l : list Q) : list Q :=
  match l with
  | [] => [x]
  | y :: l' => if Qle_bool x y then x :: l else y :: insert_sorted x l'
  end.

(** [sort_values()]: ascending. *)
Fixpoint sort_values (l : list Q) : list Q :=
  match l with
  | [] => []
  | x :: l' => insert_sorted x (sort_values l')
  end.

Definition greatest (x : Q) (l : list Q) : Q :=
  fold_left (fun m y => if Qle_bool y m then m else y) l x.
Definition least (x : Q) (l : list Q) : Q :=
  fold_left (fun m y => if Qle_bool m y then m else y) l x.

Definition count (l : list Q) : Q := inject_Z (Z.of_nat (length l)).

(** [max()] and [min()] of a series with no missing value: one of its
    values, NaN when it has none. *)
Definition series_max (l : list Q) : num :=
  match l with
  | [] => NaN
  | x :: l' => Num (greatest x l')
  end.

Definition series_min (l : list Q) : num :=
  match l with
  | [] => NaN
  | x :: l' => Num (least x l')
  end.

(** The reductions of pandas that compute: [mean()], [std()], [median()] and
    [quantile(q)].  They are library code, sums and interpolations of floats
    that are rounded at each step: the analyzer is stated over any functions
    of their types, which it calls on the values of a column.  Of a series
    with no value each of them is NaN. *)
Record Reductions : Type := mkReductions {
  mean_of : list Q -> num;
  std_of : list Q -> num;
  median_of : list Q -> num;
  quantile_of : Q -> list Q -> num
}.

Definition series_mean (pandas : Reductions) (l : list Q) : num :=
  match l with
  | [] => NaN
  | _ => mean_of pandas l
  end.

Definition series_std (pandas : Reductions) (l : list Q) : num :=
  match l with
  | [] => NaN
  | _ => std_of pandas l
  end.

Definition series_quantile (pandas : Reductions) (q : Q) (l : list Q) : num :=
  match l with
  | [] => NaN
  | _ => quantile_of pandas q l
  end.

Definition series_median (pandas : Reductions) (l : list Q) : num :=
  match l with
  | [] => NaN
  | _ => median_of pandas l
  end.

(** The values of the summary: [None], an int, a float, the text of a
    duration ([f"{duration:.1f} seconds"]), a block of statistics. *)
Inductive stat : Type :=
  | SNone
  | SInt (n : Z)
  | SNum (x : num)
  | SSeconds (duration : num)
  | SBlock (b : list (string * num)).

(** [max(0, x)]: the float [x] only when it is the greater, else the int. *)
Definition max0 (x : Q) : stat :=
  match x ?= 0 with
  | Gt => SNum (Num x)
  | _ => SInt 0
  end.

(** The number a value of the summary holds. *)
Definition value_of (v : stat) : Q :=
  match v with
  | SInt n => inject_Z n
  | SNum (Num q) => q
  | _ => 0
  end.

Record Analyzer : Type := mkAnalyzer {
  data_file : string;
  df : option Table
}.

(** [(df['timestamp'].max() - df['timestamp'].min()).total_seconds()]; the
    reductions skip the missing cells. *)
Definition time_span_of (s : Series) : num :=
  match dropna s with
  | [] => NaN
  | x :: l => Num (greatest x l - least x l)
  end.

Definition rssi_block (pandas : Reductions) (s : Series) : list (string * num) :=
  let rssi_data := dropna s in
  [ ("mean", series_mean pandas rssi_data);
    ("std", series_std pandas rssi_data);
    ("min", series_min rssi_data);
    ("max", series_max rssi_data);
    ("median", series_median pandas rssi_data) ].

Definition latency_block (pandas : Reductions) (s : Series) : list (string * num) :=
  let lat_data := dropna s in
  [ ("mean_us", series_mean pandas lat_data);
    ("std_us", series_std pandas lat_data);
    ("min_us", series_min lat_data);
    ("max_us", series_max lat_data);
    ("median_us", series_median pandas lat_data);
    ("p95_us", series_quantile pandas (95 # 100) lat_data);
    ("p99_us", series_quantile pandas (99 # 100) lat_data) ].

(** [np.int64] arithmetic wraps around. *)
Definition wrap64 (z : Z) : Z := ((z + 2 ^ 63) mod 2 ^ 64 - 2 ^ 63)%Z.

(** The type [read_csv] gives a column of numbers: int64 when no cell is
    missing and every cell is a whole number of the int64 range; float64
    otherwise, a missing cell being a NaN and a cell with a number the float
    nearest to it.  (A column of whole numbers all written with a decimal
    point and none missing is float64 too, and a whole number beyond the
    int64 range makes a column of another type: tables with such columns are
    outside this model.) *)
Definition is_int64 (q : Q) : bool :=
  ((Qnum q mod Zpos (Qden q) =? 0) && (- 2 ^ 63 <=? Qfloor q) && (Qfloor q <? 2 ^ 63))%Z.

Definition int64_column (s : Series) : bool :=
  forallb (fun c => match c with Some q => is_int64 q | None => false end) s.

(** [max(0, x)] for a float [x]: [x] only when [x > 0] holds, else the int. *)
Definition max0f (x : Float64.float64) : stat :=
  match x with
  | Float64.Finite q => max0 q
  | Float64.Inf false => SNum (Infinity false)
  | _ => SInt 0
  end.

(** The estimate of the packet loss from the gaps of the sequence.

    On an int64 column [max - min + 1] is int64 arithmetic, which wraps
    around; [expected_packets - actual_packets] cannot wrap, the number of
    rows being below [2^63]; the quotient is the float division of the two
    integers, each made a float.

    On a float64 column every step is float arithmetic.  Rounding keeps the
    order, so the greatest cell is the float nearest to the greatest number,
    and the least cell that of the least. *)
Definition packet_loss_of (s : Series) : stat :=
  let seq_data := sort_values (dropna s) in
  let actual_packets := Z.of_nat (length seq_data) in
  if int64_column s then
    let expected_packets :=
      match seq_data with
      | x :: l => wrap64 (wrap64 (Qfloor (greatest x l) - Qfloor (least x l)) + 1)
      | [] => 0%Z
      end in
    if (0 <? expected_packets)%Z then
      max0f (Float64.fmul
               (Float64.fdiv (Float64.of_int (expected_packets - actual_packets))
                             (Float64.of_int expected_packets))
               (Float64.of_int 100))
    else SInt 0
  else
    match seq_data with
    | x :: l =>
        let expected_packets :=
          Float64.fadd
            (Float64.fsub (Float64.round (greatest x l)) (Float64.round (least x l)))
            (Float64.of_int 1) in
        if Float64.positive expected_packets then
          max0f (Float64.fmul
                   (Float64.fdiv
                      (Float64.fsub expected_packets (Float64.of_int actual_packets))
                      expected_packets)
                   (Float64.of_int 100))
        else SInt 0
    | [] => SInt 0
    end.

(** [basic_stats]; the empty dict when no table is loaded. *)
Definition basic_stats (pandas : Reductions) (a : Analyzer) : list (string * stat) :=
  match df a with
  | None => []
  | Some t =>
      let stats :=
        [ ("total_samples", SInt (Z.of_nat (length (body t))));
          ("time_span", SNone);
          ("rssi_stats", SBlock []);
          ("latency_stats", SBlock []);
          ("packet_loss", SInt 0) ] in
      let stats :=
        if has_column "timestamp" t
        then Py.dict_set "time_span" (SSeconds (time_span_of (column "timestamp" t))) stats
        else stats in
      let stats :=
        if has_column "rssi" t
        then Py.dict_set "rssi_stats" (SBlock (rssi_block pandas (column "rssi" t))) stats
        else stats in
      let stats :=
        if has_column "lat_us" t
        then Py.dict_set "latency_stats" (SBlock (latency_block pandas (column "lat_us" t))) stats
        else stats in
      let stats :=
        if has_column "seq" t
        then Py.dict_set "packet_loss" (packet_loss_of (column "seq" t)) stats
        else stats in
      stats
  end.

(** Truth value of a value of the summary. *)
Definition truthy (v : stat) : bool :=
  match v with
  | SNone => false
  | SInt n => negb (n =? 0)%Z
  | SNum NaN | SNum (Infinity _) => true
  | SNum (Num q) | SNum (Root q) => negb (Qeq_bool q 0)
  | SSeconds _ => true
  | SBlock [] => false
  | SBlock _ => true
  end.

(** The lines [print_summary] writes. *)
Inductive Line : Type :=
  | Title
  | Dataset (total_samples : stat)
  | Duration (time_span : stat)
  | RssiAnalysis (mean std min max median : num)
  | LatencyAnalysis (mean std min max median p95 p99 : num)
  | PacketLoss (packet_loss : stat).

(** [d[k]] *)
Definition getitem {V : Type} (d : list (string * V)) (k : string) : exn + V :=
  match Py.dict_get k d with
  | Some v => inr v
  | None => inl (KeyError k)
  end.

Definition and_then {A B : Type} (r : exn + A) (k : A -> exn + B) : exn + B :=
  match r with
  | inl e => inl e
  | inr a => k a
  end.

Notation "x <~ c ;; k" := (and_then c (fun x => k))
  (at level 100, c at next level, right associativity).

Definition block_of (v : stat) : list (string * num) :=
  match v with
  | SBlock b => b
  | _ => []
  end.

(** [print_summary] *)
Definition print_summary (pandas : Reductions) (a : Analyzer) : exn + list Line :=
  let stats := basic_stats pandas a in
  total_samples <~ getitem stats "total_samples" ;;
  time_span <~ getitem stats "time_span" ;;
  let out := [Title; Dataset total_samples] in
  let out := if truthy time_span then out ++ [Duration time_span] else out in
  rssi_stats <~ getitem stats "rssi_stats" ;;
  out <~ (if truthy rssi_stats then
            let rssi := block_of rssi_stats in
            mean <~ getitem rssi "mean" ;;
            std <~ getitem rssi "std" ;;
            mn <~ getitem rssi "min" ;;
            mx <~ getitem rssi "max" ;;
            median <~ getitem rssi "median" ;;
            inr (out ++ [RssiAnalysis mean std mn mx median])
          else inr out) ;;
  latency_stats <~ getitem stats "latency_stats" ;;
  out <~ (if truthy latency_stats then
            let lat := block_of latency_stats in
            mean <~ getitem lat "mean_us" ;;
            std <~ getitem lat "std_us" ;;
            mn <~ getitem lat "min_us" ;;
            mx <~ getitem lat "max_us" ;;
            median <~ getitem lat "median_us" ;;
            p95 <~ getitem lat "p95_us" ;;
            p99 <~ getitem lat "p99_us" ;;
            inr (out ++ [LatencyAnalysis mean std mn mx median p95 p99])
          else inr out) ;;
  packet_loss <~ getitem stats "packet_loss" ;;
  inr (out ++ [PacketLoss packet_loss]).

End Analyze.

(** ** The documented behaviour, in the words of the specification *)

Module Documented.

Import Analyze.
Local Open Scope Q_scope.

(** [m] is a greatest (a least) value of [l]; equality of rationals is [==]. *)
Definition maximum (m : Q) (l : list Q) : Prop :=
  (exists y, In y l /\ y == m) /\ (forall y, In y l -> y <= m).
Definition minimum (m : Q) (l : list Q) : Prop :=
  (exists y, In y l /\ y == m) /\ (forall y, In y l -> m <= y).

(** The documented estimate: [max(0, (expected - actual) / expected * 100)],
    and [0] when [expected] is zero or negative. *)
Definition documented_loss (expected actual : Q) : Q :=
  if Qle_bool expected 0 then 0
  else Qmax 0 ((expected - actual) / expected * 100).

(** A sequence number as a device counts them: a whole number from 0, below
    [2^53]. *)
Definition counter (q : Q) : Prop :=
  exists z : Z, q == inject_Z z /\ (0 <= z < 2 ^ 53)%Z.
Definition counters (l : list Q) : Prop := Forall counter l.

(** The table whose only column is [seq], with the given values. *)
Definition seq_table (values : list Z) : Table :=
  mkTable ["seq"] (map (fun z => [Some (inject_Z z)]) values).

(** The two sequences of the documented examples. *)
Definition gap_example : Table := seq_table [0; 1; 2; 4; 5]%Z.
Definition single_example : Table := seq_table [3]%Z.

(** Two sequences with a wide gap: the greatest int64 after 0, and [10^17]
    after 0. *)
Definition wrap_example : Table := seq_table [0; 2 ^ 63 - 1]%Z.
Definition far_example : Table := seq_table [0; 10 ^ 17]%Z.

(** Every cell of the column is missing. *)
Definition all_missing (s : Series) : Prop := Forall (fun c => c = None) s.

(** The analyzer once [load_data] has read the table. *)
Definition loaded (t : Table) : Analyzer := mkAnalyzer "session.csv" (Some t).

(** A table whose [rssi] and [lat_us] cells are all missing, and a table
    with an [rssi] column only. *)
Definition all_missing_example : Table :=
  mkTable ["error"; "rssi"; "lat_us"] [[None; None; None]; [None; None; None]].
Definition rssi_only_example : Table :=
  mkTable ["rssi"] [[Some (- 47 # 1)]; [Some (- 52 # 1)]].

End Documented.

(** ** A reading of the reductions of pandas

    The statistics of a series in exact arithmetic: the numbers of which
    pandas computes a float nearby.  They are used to run the analyzer on
    examples, for which any reading of the library does. *)

Module Exact.

Import Analyze.
Local Open Scope Q_scope.

Definition total (l : list Q) : Q := fold_left Qplus l 0.

Definition mean (l : list Q) : num := Num (total l / count l).

(** The sample standard deviation (one degree of freedom less): NaN of a
    single value. *)
Definition std (l : list Q) : num :=
  match l with
  | [] | [_] => NaN
  | _ =>
      let m := total l / count l in
      Root (total (map (fun x => (x - m) * (x - m)) l) / (count l - 1))
  end.

(** By linear interpolation between the two nearest ranks. *)
Definition quantile (q : Q) (l : list Q) : num :=
  match sort_values l with
  | [] => NaN
  | (x0 :: _) as sorted =>
      let pos := q * (count l - 1) in
      let lo := Qfloor pos in
      let hi := Z.min (lo + 1) (Z.of_nat (length l) - 1) in
      let a := nth (Z.to_nat lo) sorted x0 in
      let b := nth (Z.to_nat hi) sorted x0 in
      Num (a + (b - a) * (pos - inject_Z lo))
  end.

(** The middle value, or the mean of the two middle values. *)
Definition median (l : list Q) : num :=
  match sort_values l with
  | [] => NaN
  | (x0 :: _) as sorted =>
      let n := length l in
      if Nat.even n
      then Num ((nth (n / 2 - 1) sorted x0 + nth (n / 2) sorted x0) / 2)
      else Num (nth (n / 2) sorted x0)
  end.

Definition reductions : Reductions := mkReductions mean std median quantile.

End Exact.

(** ** A reading of [pd.to_datetime]

    [pd.to_datetime] is a library function: the collector is stated over any
    function of its type.  [Pandas.to_datetime] below reads the columns the
    collector makes, whose cells are the texts of [isoformat()], as pandas 2
    does: it takes the format of the first cell, with or without a fraction of
    a second, and refuses a cell of the other format.  It is used to run the
    collector on examples; a tick of the clock is a microsecond there. *)

Module Pandas.

Import Collect.

(** [isoformat()] writes no fraction when the microsecond is zero. *)
Definition whole_second (t : Z) : bool := t mod 1000000 =? 0.

(** The first cell that is not missing, when it is a time stamp. *)
Definition first_stamp (cells : list (option pyval)) : option Z :=
  match omap (fun c => match c with Some (PIso t) => Some t | _ => None end) cells with
  | t :: _ => Some t
  | [] => None
  end.

Definition to_datetime (cells : list (option pyval)) : datetime_result :=
  match first_stamp cells with
  | None => if forallb (fun c => match c with None => true | _ => false end) cells
            then Stamps cells else Unreadable
  | Some t0 =>
      if forallb (fun c =>
                    match c with
                    | None => true
                    | Some (PIso t) => Bool.eqb (whole_second t) (whole_second t0)
                    | Some _ => false
                    end) cells
      then Stamps cells
      else Unreadable
  end.

End Pandas.

(** ** What a serial port delivers *)

Module Feed.

Import Collect.

Section WithDecoder.

Variable json_loads : string -> loads_result.

(** The line holds a JSON object: the decoder makes a sample of it. *)
Definition gives_sample (text : string) : bool :=
  negb (String.eqb (Py.strip text) "")
  && match json_loads (Py.strip text) with
     | Loaded (PDict _) => true
     | _ => false
     end.

(** The line is blank, is refused by [json.loads], or holds an object:
    the decoder returns on it. *)
Definition harmless (text : string) : bool :=
  String.eqb (Py.strip text) ""
  || match json_loads (Py.strip text) with
     | Loaded (PDict _) => true
     | Loaded _ => false
     | JSONDecodeError _ => true
     end.

(** The read delivers text, and the decoder returns on it. *)
Definition benign (ev : ReadEvent) : bool :=
  match arrival ev with
  | Data text => harmless text
  | _ => false
  end.

Definition sample_read (ev : ReadEvent) : bool :=
  match arrival ev with
  | Data text => gives_sample text
  | _ => false
  end.

(** How many of the [k] reads from the [i]-th on deliver a sample. *)
Fixpoint samples_in (feed : nat -> ReadEvent) (i k : nat) : nat :=
  match k with
  | O => O
  | S k' => ((if sample_read (feed i) then 1 else 0) + samples_in feed (S i) k')%nat
  end.

End WithDecoder.

(** How long the [k] reads from the [i]-th on block, together. *)
Fixpoint waited_in (feed : nat -> ReadEvent) (i k : nat) : Z :=
  match k with
  | O => 0
  | S k' => waited (feed i) + waited_in feed (S i) k'
  end.

(** The store [s'] is [s] with [new] appended to the list object [b]. *)
Definition appended (b : nat) (new : list pyval) (s s' : list (list pyval)) : Prop :=
  s' = alter (fun xs => xs ++ new) b s.

(** The world once a read that blocked for [dt] has returned. *)
Definition after_read (dt : Z) (w : World) : World :=
  set_clock (clock w + dt) (set_read_log (read_log w ++ [clock w]) w).

(** The world once [collect_data] has announced the run, and once it has
    reported and copied the buffer. *)
Definition announced (duration max_samples : option Z) (w : World) : World :=
  snd ((print Starting ;;;
        when (Py.truthy_num duration) (print (DurationInfo (default 0 duration))) ;;;
        when (Py.truthy_num max_samples)
             (print (MaxSamplesInfo (default 0 max_samples))))%py w).

Definition completed (c : Collector) (start_time : Z) (w : World) : World :=
  snd ((now <- time_time ;;
        buf <- list_items (data_buffer c) ;;
        print (CollectionComplete (length buf) (now - start_time)) ;;;
        list_copy (data_buffer c))%py w).

End Feed.

(** Lines and ports to run the collector on. *)

Module Fixtures.

Import Collect.

(** [{"seq":7,"rssi":-47,"lat_us":8123}] *)
Definition measurement_line : string :=
  "{" +:+ Json.quote "seq" +:+ ":7," +:+ Json.quote "rssi" +:+ ":-47,"
      +:+ Json.quote "lat_us" +:+ ":8123}".

(** [{"timestamp":5,"seq":1}]: the node sends a time of its own. *)
Definition node_time_line : string :=
  "{" +:+ Json.quote "timestamp" +:+ ":5," +:+ Json.quote "seq" +:+ ":1}".

(** [{"seq": }], the truncated line of the specification. *)
Definition truncated_line : string := "{" +:+ Json.quote "seq" +:+ ": }".

(** A JSON text that is no object, and the object with no field. *)
Definition number_line : string := "42".
Definition empty_object_line : string := "{}".

(** A port on which every read takes one tick and gives a measurement. *)
Definition steady_feed : nat -> ReadEvent := fun _ => mkRead 1 (Data measurement_line).

(** A collector on an open port, its buffer the first object of the store. *)
Definition on_port (feed : nat -> ReadEvent) : Collector :=
  mkCollector "COM3" 115200 1000 (Some (mkSerial true feed)) 0.

(** The world after [__init__]: the buffer exists and is empty. *)
Definition fresh : World := mkWorld 0 [] [] [[]] ∅ ∅.

(** Two runs on the same collector, each with the sample limit [n]. *)
Definition collect_twice (n : Z) : M (nat * nat) :=
  (r1 <- collect_data Json.loads 10 (on_port steady_feed) None (Some n) ;;
   r2 <- collect_data Json.loads 10 (on_port steady_feed) None (Some n) ;;
   ret (r1, r2))%py.

End Fixtures.


(** ** The rest of the collector ([python/collect.py]) *)

Module Session.

Import Collect.
Local Open Scope py_scope.

(** [disconnect]: an open port is closed, once. *)
Definition disconnect (c : Collector) : M Collector :=
  match serial_conn c with
  | Some conn =>
      if is_open conn then
        print ConnectionClosed ;;;
        ret (mkCollector (port c) (baudrate c) (timeout c)
               (Some (mkSerial false (incoming conn))) (data_buffer c))
      else ret c
  | None => ret c
  end.

(** The time stamp of a sample, when it has one of the local clock. *)
Definition stamp (sample : pyval) : option Z :=
  match record_get "timestamp" sample with
  | Some (PIso t) => Some t
  | _ => None
  end.

(** The counts the progress messages of an output tell. *)
Definition progress_counts (out : list Msg) : list Z :=
  omap (fun m => match m with Progress n _ => Some n | _ => None end) out.

(** The multiples of ten among [lo + 1], ..., [lo + n]. *)
Fixpoint tens_after (lo : Z) (n : nat) : list Z :=
  match n with
  | O => []
  | S n' => (if (lo + 1) mod 10 =? 0 then [lo + 1] else []) ++ tens_after (lo + 1) n'
  end.

End Session.

(** ** The command of the collector ([main] of [python/collect.py]) *)

Module Cli.

Import Collect Session.
Local Open Scope py_scope.

(** The arguments, as [argparse] gives them. *)
Record Args : Type := mkArgs {
  arg_port : string;
  arg_baudrate : Z;
  arg_duration : option Z;
  arg_samples : option Z;
  arg_output : option string
}.

(** What [main] prints itself. *)
Inductive Report : Type :=
  | DataSummary
  | TotalSamples (n : nat)
  | RssiRange (lo hi : pyval)
  | LatencyRange (lo hi : pyval)
  | NoValidData
  | CollectionFailed (e : exn).

(** [try: body except Exception as e: handler e] *)
Definition try_with {A} (body : M A) (handler : exn -> M A) : M A := fun w =>
  match body w with
  | (Raise e, w') => if is_exception e then handler e w' else (Raise e, w')
  | r => r
  end.

(** [try: body finally: cleanup] *)
Definition finally {A B} (body : M A) (cleanup : M B) : M A := fun w =>
  match body w with
  | (Running, w') => (Running, w')
  | (r, w') =>
      match cleanup w' with
      | (Ok _, w'') => (r, w'')
      | (Raise e, w'') => (Raise e, w'')
      | (Running, w'') => (Running, w'')
      end
  end.

(** [df[name]], for a name among the columns. *)
Definition column_cells (name : string) (df : DataFrame) : list (option pyval) :=
  match Analyze.index_of name (columns df) with
  | Some j => map (fun row => default None (row !! j)) (rows df)
  | None => []
  end.

Section WithLibraries.

Variable json_loads : string -> loads_result.
(** [pd.to_datetime] on a column, or what it raises. *)
Variable to_datetime : list (option pyval) -> datetime_result.
(** [t.strftime("%Y%m%d_%H%M%S")] *)
Variable strftime : Z -> string.
(** One second, the read timeout of a collector made without one. *)
Variable second : Z.
(** [(s.min(), s.max())] of a column, or what pandas raises. *)
Variable series_range : list (option pyval) -> exn + (pyval * pyval).

(** The summary [main] prints after a save: the lines printed, and the
    exception that cut them short, if any. *)
Definition summary (df : DataFrame) : list Report * option exn :=
  let out := [DataSummary; TotalSamples (length (rows df))] in
  let '(out, failed) :=
    if existsb (String.eqb "rssi") (columns df) then
      match series_range (column_cells "rssi" df) with
      | inr (lo, hi) => (out ++ [RssiRange lo hi], None)
      | inl e => (out, Some e)
      end
    else (out, None) in
  match failed with
  | Some e => (out, Some e)
  | None =>
      if existsb (String.eqb "lat_us") (columns df) then
        match series_range (column_cells "lat_us" df) with
        | inr (lo, hi) => (out ++ [LatencyRange lo hi], None)
        | inl e => (out, Some e)
        end
      else (out, None)
  end.

(** The output path: the one given, or one named after the time. *)
Definition output_path (args : Args) : M string :=
  match arg_output args with
  | Some o =>
      if negb (String.eqb o "") then ret o
      else now <- datetime_now ;;
           ret ("data/raw/esp_now_data_" +:+ strftime now +:+ ".csv")
  | None =>
      now <- datetime_now ;;
      ret ("data/raw/esp_now_data_" +:+ strftime now +:+ ".csv")
  end.

(** [main]: the exit code of the process and what [main] printed itself.
    [device] is what opening the port gives. *)
Definition main (fuel : nat) (args : Args) (device : option (nat -> ReadEvent))
  : M (Z * list Report) :=
  output <- output_path args ;;
  collector <- init (arg_port args) (arg_baudrate args) second ;;
  bc <- connect collector device ;;
  let '(ok, collector) := bc in
  finally
    (try_with
       (if negb ok then ret (1, [])
        else
          data <- collect_data json_loads fuel collector
                    (arg_duration args) (arg_samples args) ;;
          items <- list_items data ;;
          match items with
          | [] => ret (0, [NoValidData])
          | _ =>
              save_to_csv to_datetime collector output ;;;
              df <- to_dataframe to_datetime collector ;;
              match summary df with
              | (out, None) => ret (0, out)
              | (out, Some e) =>
                  if is_exception e then ret (1, out ++ [CollectionFailed e])
                  else raise e
              end
          end)
       (fun e => ret (1, [CollectionFailed e])))
    (disconnect collector).

End WithLibraries.

End Cli.

(** ** The generator of synthetic samples ([python/demo.py]) *)

Module Demo.

Local Open Scope Q_scope.

(** What the three calls of [random] give in one [generate_sample]: the two
    Gaussian noises and the uniform draw in [0, 1). *)
Record Draw : Type := mkDraw {
  rssi_noise : Q;
  lat_noise : Q;
  chance : Q
}.

Record Generator : Type := mkGenerator {
  base_rssi : Z;
  base_latency : Z;
  seq : Z
}.

(** [int(x)]: the integer towards zero. *)
Definition int_of (x : Q) : Z :=
  if Qle_bool 0 x then Qfloor x else Qceiling x.

(** [min(a, x)] and [max(a, x)]: the second argument only when it is the
    lesser, the greater. *)
Definition py_min (a x : Q) : Q := match x ?= a with Lt => x | _ => a end.
Definition py_max (a x : Q) : Q := match x ?= a with Gt => x | _ => a end.

(** [generate_sample]: the sample, and the generator after the call. *)
Definition generate_sample (g : Generator) (d : Draw) : pyval * Generator :=
  let rssi := py_max (-80 # 1) (py_min (-30 # 1) (inject_Z (base_rssi g) + rssi_noise d)) in
  let latency := Z.max 1000 (int_of (inject_Z (base_latency g) + lat_noise d)) in
  match chance d ?= 2 # 100 with
  | Lt => (PDict [("error", PStr "pong_timeout")], g)
  | _ =>
      (PDict [("seq", PInt (seq g)); ("rssi", PInt (int_of rssi)); ("lat_us", PInt latency)],
       mkGenerator (base_rssi g) (base_latency g) (seq g + 1))
  end.

(** What [simulate_collection] prints. *)
Inductive Told : Type :=
  | Generating (samples : nat)
  | GeneratedSoFar (done samples : nat)
  | GeneratedAll (n : nat).

(** The loop of [simulate_collection] from its turn [i]: one sample for each
    draw, stamped with the local clock, which [time.sleep(delay)] advances. *)
Fixpoint simulate_from (g : Generator) (draws : list Draw) (i samples : nat)
    (now delay : Z) : list pyval * list Told * Generator :=
  match draws with
  | [] => ([], [], g)
  | d :: draws' =>
      let '(sample, g') := generate_sample g d in
      let sample :=
        match sample with
        | PDict f => PDict (Py.dict_set "timestamp" (PIso now) f)
        | other => other
        end in
      let told := if (S i mod 10 =? 0)%nat then [GeneratedSoFar (S i) samples] else [] in
      let '(data, rest, g'') := simulate_from g' draws' (S i) samples (now + delay)%Z delay in
      (sample :: data, told ++ rest, g'')
  end.

(** [simulate_collection(samples, delay)], the draws being those of its
    [samples] calls of [generate_sample]. *)
Definition simulate_collection (g : Generator) (draws : list Draw) (now delay : Z)
  : list pyval * list Told * Generator :=
  let samples := length draws in
  let '(data, told, g') := simulate_from g draws 0 samples now delay in
  (data, [Generating samples] ++ told ++ [GeneratedAll (length data)], g').

(** The cell of the [seq] column that a record gives once written to a file
    and read back: its integer, or a missing cell. *)
Definition seq_cell (r : pyval) : option Q :=
  match Collect.record_get "seq" r with
  | Some (PInt z) => Some (inject_Z z)
  | _ => None
  end.

End Demo.

(** ** The test on the device of [python/demo.py] *)

Module Hardware.

Import Collect Session Cli.
Local Open Scope py_scope.

(** What [test_real_hardware] prints itself. *)
Inductive Note : Type :=
  | TestingHardware (port : string)
  | CollectingFromDevice
  | HardwareComplete (n : nat)
  | NoDataReceived
  | HardwareFailed (e : exn).

Section WithLibraries.

Variable json_loads : string -> loads_result.
(** [pd.to_datetime] on a column, or what it raises. *)
Variable to_datetime : list (option pyval) -> datetime_result.
(** [t.strftime("%Y%m%d_%H%M%S")] *)
Variable strftime : Z -> string.
(** One second, the read timeout of a collector made without one. *)
Variable second : Z.

(** [test_real_hardware(port, duration)]: its result and what it printed
    itself.  [device] is what opening the port gives. *)
Definition test_real_hardware (fuel : nat) (port : string) (duration : Z)
    (device : option (nat -> ReadEvent)) : M (bool * list Note) :=
  collector <- init port 115200 second ;;
  bc <- connect collector device ;;
  let '(ok, collector) := bc in
  finally
    (try_with
       (if negb ok then ret (false, [TestingHardware port])
        else
          data <- collect_data json_loads fuel collector (Some duration) None ;;
          items <- list_items data ;;
          match items with
          | [] =>
              ret (false, [TestingHardware port; CollectingFromDevice; NoDataReceived])
          | _ =>
              now <- datetime_now ;;
              save_to_csv to_datetime collector
                ("data/raw/hardware_test_" +:+ strftime now +:+ ".csv") ;;;
              ret (true, [TestingHardware port; CollectingFromDevice;
                          HardwareComplete (length items)])
          end)
       (fun e =>
          ret (false, [TestingHardware port; CollectingFromDevice; HardwareFailed e])))
    (disconnect collector).

End WithLibraries.

End Hardware.

(** ** The quick test of the serial output ([quick_test.py]) *)

Module QuickTest.

Import Collect.
Local Open Scope py_scope.

(** What the quick test prints. *)
Inductive Said : Type :=
  | TestingPort (port : string)
  | WillMonitor (duration : Z)
  | Rule
  | Echo (elapsed : Z) (line : string)
  | TestResults
  | TotalLines (n : Z)
  | JsonLikeLines (n : Z)
  | AppearsWorking
  | TryCollector (port : string)
  | NoJsonDetected
  | CheckFirmware
  | SerialFailed
  | PortsOnWindows
  | PortsOnLinux
  | TestFailed (e : exn)
  | UsageWindows
  | UsageLinux.

(** [s.startswith(c)] and [s.endswith(c)], for a text [c] of one character. *)
Definition startswith (c : ascii) (s : string) : bool :=
  match s with
  | String c' _ => Ascii.eqb c' c
  | EmptyString => false
  end.

Fixpoint endswith (c : ascii) (s : string) : bool :=
  match s with
  | EmptyString => false
  | String c' EmptyString => Ascii.eqb c' c
  | String _ r => endswith c r
  end.

(** [line.startswith('{') and line.endswith('}')] *)
Definition json_like (line : string) : bool :=
  startswith "{"%char line && endswith "}"%char line.

(** [time.sleep(d)] *)
Definition sleep (d : Z) : M unit := fun w => (Ok tt, set_clock (clock w + d) w).

(** The counters of the loop, and what has been printed so far. *)
Record Tally : Type := mkTally {
  line_count : Z;
  json_count : Z;
  said : list Said
}.

Definition is_serial_exception (e : exn) : bool :=
  match e with SerialException => true | _ => false end.

(** The [while] loop of [test_esp8266_output]: the tally when the loop is
    left, and the exception that left it, if one did. *)
Fixpoint monitor (fuel : nat) (ser : Serial) (duration start_time : Z) (t : Tally)
  : M (Tally * option exn) :=
  match fuel with
  | O => running
  | S fuel' =>
      now <- time_time ;;
      if now - start_time <? duration then
        fun w =>
          match readline ser w with
          | (Ok raw, w1) =>
              let line := Py.strip raw in
              if negb (String.eqb line "") then
                (now <- time_time ;;
                 monitor fuel' ser duration start_time
                   (mkTally (line_count t + 1)
                      (if json_like line then json_count t + 1 else json_count t)
                      (said t ++ [Echo (now - start_time) line]))) w1
              else monitor fuel' ser duration start_time t w1
          | (Raise e, w1) =>
              if is_keyboard_interrupt e then (Ok (t, None), w1)
              else (Ok (t, Some e), w1)
          | (Running, w1) => (Running, w1)
          end
      else ret (t, None)
  end.

Section WithClock.

(** One second, in ticks of the clock. *)
Variable second : Z.

(** [test_esp8266_output(port, duration)]: its result, what it printed, and
    the port as it leaves it ([None] when the port could not be opened). *)
Definition test_esp8266_output (fuel : nat) (port : string) (duration : Z)
    (device : option (nat -> ReadEvent)) : M (bool * list Said * option Serial) :=
  let head := [TestingPort port; WillMonitor duration; Rule] in
  match device with
  | None => ret (false, head ++ [SerialFailed; PortsOnWindows; PortsOnLinux], None)
  | Some feed =>
      let ser := mkSerial true feed in
      sleep (2 * second) ;;;
      start_time <- time_time ;;
      r <- monitor fuel ser duration start_time (mkTally 0 0 head) ;;
      let '(t, cause) := r in
      match cause with
      | None =>
          ret (true,
               said t
               ++ [Rule; TestResults; TotalLines (line_count t); JsonLikeLines (json_count t)]
               ++ (if 0 <? json_count t then [AppearsWorking; TryCollector port]
                   else [NoJsonDetected; CheckFirmware]),
               Some (mkSerial false feed))
      | Some e =>
          if is_serial_exception e then
            ret (false, said t ++ [SerialFailed; PortsOnWindows; PortsOnLinux], Some ser)
          else if is_exception e then
            ret (false, said t ++ [TestFailed e], Some ser)
          else raise e
      end
  end.

(** [main], on the arguments of the command line: the exit code of the
    process and what was printed. *)
Definition main (fuel : nat) (argv : list string) (device : option (nat -> ReadEvent))
  : M (Z * list Said) :=
  match argv with
  | [_; port] =>
      r <- test_esp8266_output fuel port (30 * second) device ;;
      ret (0, snd (fst r))
  | _ => ret (1, [UsageWindows; UsageLinux])
  end.

End WithClock.

(** The lines the quick test counts among the [n] reads from the [i]-th on:
    the text of each read, stripped, when something is left of it. *)
Definition heard (feed : nat -> ReadEvent) (i n : nat) : list string :=
  omap (fun j =>
          match arrival (feed j) with
          | Data text =>
              if String.eqb (Py.strip text) "" then None else Some (Py.strip text)
          | _ => None
          end)
       (seq i n).

(** The lines an output echoes. *)
Definition echoed (out : list Said) : list string :=
  omap (fun m => match m with Echo _ line => Some line | _ => None end) out.

End QuickTest.
(** * Properties *)

(** ** The rounding of the floats *)

Section Float64Facts.

Import Float64.
Local Open Scope Q_scope.

Lemma pow2_pos e : 0 < pow2 e.
Proof. apply Qpower_0_lt. reflexivity. Qed.

Lemma pow2_add a b : pow2 (a + b) == pow2 a * pow2 b.
Proof. apply Qpower_plus. discriminate. Qed.

Lemma pow2_le a b : (a <= b)%Z -> pow2 a <= pow2 b.
Proof. intros H. apply Qpower_le_compat_l; [exact H | discriminate]. Qed.

Lemma pow2_lt a b : (a < b)%Z -> pow2 a < pow2 b.
Proof. intros H. apply Qpower_lt_compat_l; [exact H | reflexivity]. Qed.

Lemma pow2_le_inv a b : pow2 a <= pow2 b -> (a <= b)%Z.
Proof. intros H. eapply Qpower_le_compat_l_inv; [exact H | reflexivity]. Qed.

Lemma pow2_lt_inv a b : pow2 a < pow2 b -> (a < b)%Z.
Proof. intros H. eapply Qpower_lt_compat_l_inv; [exact H | reflexivity]. Qed.

Lemma pow2_Z e : (0 <= e)%Z -> pow2 e == inject_Z (2 ^ e).
Proof. intros H. unfold pow2. rewrite Zpower_Qpower by exact H. reflexivity. Qed.

Lemma pow2_S e : pow2 (e + 1) == 2 * pow2 e.
Proof. rewrite pow2_add. unfold pow2 at 2. rewrite Qpower_1_r. ring. Qed.

(** The nearest integer: it is within a half, and in order. *)
Lemma rint_Z z : rint (inject_Z z) = z.
Proof.
  unfold rint. rewrite Qfloor_Z.
  destruct (Qcompare_spec (inject_Z z - inject_Z z) (1 # 2)) as [H|H|H].
  - exfalso. assert (inject_Z z - inject_Z z == 0) as H0 by ring.
    rewrite H0 in H. discriminate.
  - reflexivity.
  - exfalso. assert (inject_Z z - inject_Z z == 0) as H0 by ring.
    rewrite H0 in H. discriminate.
Qed.

Lemma rint_near x : x - (1 # 2) <= inject_Z (rint x) <= x + (1 # 2).
Proof.
  unfold rint. pose proof (Qfloor_le x) as Hl. pose proof (Qlt_floor x) as Hu.
  rewrite inject_Z_plus in Hu. change (inject_Z 1) with 1 in Hu.
  destruct (Qcompare_spec (x - inject_Z (Qfloor x)) (1 # 2)) as [H|H|H].
  - destruct (Z.even (Qfloor x)).
    + lra.
    + rewrite inject_Z_plus. change (inject_Z 1) with 1. lra.
  - lra.
  - rewrite inject_Z_plus. change (inject_Z 1) with 1. lra.
Qed.

Lemma rint_mono x y : x <= y -> (rint x <= rint y)%Z.
Proof.
  intros Hxy. pose proof (Qfloor_resp_le _ _ Hxy) as Hf.
  pose proof (Qfloor_le x) as Hlx. pose proof (Qlt_floor x) as Hux.
  pose proof (Qfloor_le y) as Hly. pose proof (Qlt_floor y) as Huy.
  assert (forall z, (Qfloor z <= rint z <= Qfloor z + 1)%Z) as Hb.
  { intros z. unfold rint. destruct (_ ?= _); [destruct (Z.even _)| |]; lia. }
  destruct (Z.eq_dec (Qfloor x) (Qfloor y)) as [Heq|Hne].
  2:{ pose proof (Hb x). pose proof (Hb y). lia. }
  unfold rint. rewrite <- Heq.
  destruct (Qcompare_spec (x - inject_Z (Qfloor x)) (1 # 2)) as [Hx|Hx|Hx];
    destruct (Qcompare_spec (y - inject_Z (Qfloor x)) (1 # 2)) as [Hy|Hy|Hy];
    try (destruct (Z.even (Qfloor x))); try lia; exfalso; lra.
Qed.

Lemma rint_le_Z x z : x <= inject_Z z -> (rint x <= z)%Z.
Proof. intros H. rewrite <- (rint_Z z). now apply rint_mono. Qed.

Lemma rint_ge_Z x z : inject_Z z <= x -> (z <= rint x)%Z.
Proof. intros H. rewrite <- (rint_Z z). now apply rint_mono. Qed.

(** The binary logarithm: the power of two at or below a positive rational. *)
Lemma Qmake_spec (q : Q) : q * inject_Z (Zpos (Qden q)) == inject_Z (Qnum q).
Proof. destruct q as [n d]. unfold Qeq, Qmult, inject_Z. simpl. lia. Qed.

Lemma Qnum_pos (q : Q) : 0 < q -> (0 < Qnum q)%Z.
Proof. destruct q as [n d]. unfold Qlt. simpl. lia. Qed.

Lemma ilog2_spec q : 0 < q -> pow2 (ilog2 q) <= q < pow2 (ilog2 q + 1).
Proof.
  intros Hq. unfold ilog2.
  set (n := Qnum q). set (d := Zpos (Qden q)).
  pose proof (Qnum_pos q Hq) as Hn. fold n in Hn.
  assert (0 < d)%Z as Hd by (subst d; lia).
  pose proof (Z.log2_spec n Hn) as [Hn1 Hn2].
  pose proof (Z.log2_spec d Hd) as [Hd1 Hd2].
  pose proof (Z.log2_nonneg n) as Ha. pose proof (Z.log2_nonneg d) as Hb.
  set (a := Z.log2 n) in *. set (b := Z.log2 d) in *.
  pose proof (Qmake_spec q) as Hmk. fold n d in Hmk.
  assert (pow2 a <= inject_Z n) as HN1
    by (rewrite pow2_Z by lia; rewrite <- Zle_Qle; exact Hn1).
  assert (inject_Z n < pow2 (a + 1)) as HN2
    by (rewrite pow2_Z by lia; rewrite <- Zlt_Qlt; exact Hn2).
  assert (pow2 b <= inject_Z d) as HD1
    by (rewrite pow2_Z by lia; rewrite <- Zle_Qle; exact Hd1).
  assert (inject_Z d < pow2 (b + 1)) as HD2
    by (rewrite pow2_Z by lia; rewrite <- Zlt_Qlt; exact Hd2).
  pose proof (pow2_pos a) as Pa. pose proof (pow2_pos b) as Pb.
  pose proof (pow2_pos (a - b)) as Pab.
  assert (pow2 a == pow2 (a - b) * pow2 b) as Ea
    by (rewrite <- pow2_add; apply Qpower_comp; [reflexivity | lia]).
  pose proof (pow2_S a) as Sa. pose proof (pow2_S b) as Sb.
  assert (pow2 (a - b - 1 + 1) == 2 * pow2 (a - b - 1)) as Sab1 by apply pow2_S.
  replace (a - b - 1 + 1)%Z with (a - b)%Z in Sab1 by lia.
  pose proof (pow2_S (a - b)) as Sab.
  assert (0 < inject_Z d) as HD0 by lra.
  assert (q < pow2 (a - b + 1)) as Hup.
  { apply Qnot_le_lt. intros Hc.
    assert (pow2 (a - b + 1) * inject_Z d <= q * inject_Z d) as H
      by (apply Qmult_le_compat_r; lra).
    rewrite Hmk in H. rewrite Sab in H.
    assert (2 * pow2 (a - b) * pow2 b <= 2 * pow2 (a - b) * inject_Z d) as H2
      by (apply Qmult_le_l; lra).
    lra. }
  assert (pow2 (a - b - 1) < q) as Hlow.
  { apply Qnot_le_lt. intros Hc.
    assert (q * inject_Z d <= pow2 (a - b - 1) * inject_Z d) as H
      by (apply Qmult_le_compat_r; lra).
    rewrite Hmk in H.
    pose proof (pow2_pos (a - b - 1)) as P1.
    assert (pow2 (a - b - 1) * inject_Z d < pow2 (a - b - 1) * pow2 (b + 1)) as H2
      by (apply Qmult_lt_l; lra).
    assert (pow2 (a - b - 1) * pow2 (b + 1) == pow2 a) as E2
      by (rewrite <- pow2_add; apply Qpower_comp; [reflexivity | lia]).
    lra. }
  destruct (Qle_bool (pow2 (a - b)) q) eqn:E.
  - apply Qle_bool_iff in E. split; assumption.
  - assert (q < pow2 (a - b)) as Hlt.
    { apply Qnot_le_lt. intros Hc. apply Qle_bool_iff in Hc. congruence. }
    replace (a - b - 1 + 1)%Z with (a - b)%Z by lia. split; [lra | exact Hlt].
Qed.

Lemma ilog2_unique q E : 0 < q -> pow2 E <= q < pow2 (E + 1) -> ilog2 q = E.
Proof.
  intros Hq [H1 H2]. destruct (ilog2_spec q Hq) as [S1 S2].
  assert (pow2 E < pow2 (ilog2 q + 1)) as A by lra.
  assert (pow2 (ilog2 q) < pow2 (E + 1)) as B by lra.
  apply pow2_lt_inv in A, B. lia.
Qed.

Lemma ilog2_mono x y : 0 < x -> x <= y -> (ilog2 x <= ilog2 y)%Z.
Proof.
  intros Hx Hxy. destruct (ilog2_spec x Hx) as [S1 S2].
  destruct (ilog2_spec y ltac:(lra)) as [T1 T2].
  assert (pow2 (ilog2 x) < pow2 (ilog2 y + 1)) as A by lra.
  apply pow2_lt_inv in A. lia.
Qed.

Lemma ilog2_comp x y : x == y -> 0 < x -> ilog2 x = ilog2 y.
Proof.
  intros Hxy Hx. apply ilog2_unique; [exact Hx|]. rewrite Hxy.
  apply ilog2_spec. now rewrite <- Hxy.
Qed.

Lemma ulp_exp_mono x y : 0 < x -> x <= y -> (ulp_exp x <= ulp_exp y)%Z.
Proof. intros Hx Hxy. unfold ulp_exp. pose proof (ilog2_mono x y Hx Hxy). lia. Qed.

Lemma ulp_exp_comp x y : x == y -> 0 < x -> ulp_exp x = ulp_exp y.
Proof. intros Hxy Hx. unfold ulp_exp. now rewrite (ilog2_comp x y). Qed.

(** The nearest multiple of the unit in the last place: it is in order, it
    keeps the floats, and it is within half a unit. *)
Lemma rint_comp x y : x == y -> rint x = rint y.
Proof.
  intros H. unfold rint. rewrite (Qfloor_comp _ _ H).
  assert (x - inject_Z (Qfloor y) == y - inject_Z (Qfloor y)) as H' by (rewrite H; reflexivity).
  rewrite (Qcompare_comp _ _ H' (1 # 2) (1 # 2) (Qeq_refl _)). reflexivity.
Qed.

Lemma nearest_comp x y : x == y -> 0 < x -> nearest x == nearest y.
Proof.
  intros H Hx. unfold nearest. rewrite <- (ulp_exp_comp x y H Hx).
  rewrite (rint_comp (x / pow2 (ulp_exp x)) (y / pow2 (ulp_exp x))); [reflexivity|].
  unfold Qdiv. apply Qmult_comp; [exact H | reflexivity].
Qed.

Lemma scaled_le q c e : q <= c * pow2 e -> q / pow2 e <= c.
Proof.
  intros H. pose proof (pow2_pos e) as P.
  apply Qle_shift_div_r; [exact P | exact H].
Qed.

Lemma scaled_ge q c e : c * pow2 e <= q -> c <= q / pow2 e.
Proof.
  intros H. pose proof (pow2_pos e) as P.
  apply Qle_shift_div_l; [exact P | exact H].
Qed.

Lemma nearest_le q K :
  q <= inject_Z K * pow2 (ulp_exp q) -> nearest q <= inject_Z K * pow2 (ulp_exp q).
Proof.
  intros H. unfold nearest. pose proof (pow2_pos (ulp_exp q)) as P.
  apply Qmult_le_compat_r; [|lra]. rewrite <- Zle_Qle.
  apply rint_le_Z. now apply scaled_le.
Qed.

Lemma nearest_ge q K :
  inject_Z K * pow2 (ulp_exp q) <= q -> inject_Z K * pow2 (ulp_exp q) <= nearest q.
Proof.
  intros H. unfold nearest. pose proof (pow2_pos (ulp_exp q)) as P.
  apply Qmult_le_compat_r; [|lra]. rewrite <- Zle_Qle.
  apply rint_ge_Z. now apply scaled_ge.
Qed.

Lemma pow2_multiple j e : (e <= j)%Z -> pow2 j == inject_Z (2 ^ (j - e)) * pow2 e.
Proof.
  intros H. rewrite <- pow2_Z by lia. rewrite <- pow2_add.
  apply Qpower_comp; [reflexivity | lia].
Qed.

Lemma nearest_nonneg q : 0 < q -> 0 <= nearest q.
Proof.
  intros Hq. pose proof (nearest_ge q 0) as H.
  assert (inject_Z 0 * pow2 (ulp_exp q) == 0) as E by (change (inject_Z 0) with 0; ring).
  rewrite E in H. apply H. lra.
Qed.

Lemma nearest_lower q : 0 < q -> (-1074 <= ilog2 q)%Z -> pow2 (ilog2 q) <= nearest q.
Proof.
  intros Hq HE. destruct (ilog2_spec q Hq) as [S1 _].
  assert (ulp_exp q <= ilog2 q)%Z as He by (unfold ulp_exp; lia).
  rewrite (pow2_multiple (ilog2 q) (ulp_exp q) He).
  apply nearest_ge. rewrite <- (pow2_multiple (ilog2 q) (ulp_exp q) He). exact S1.
Qed.

Lemma nearest_upper q : 0 < q -> nearest q <= pow2 (ilog2 q + 1).
Proof.
  intros Hq. destruct (ilog2_spec q Hq) as [_ S2].
  destruct (Z_le_gt_dec (ulp_exp q) (ilog2 q + 1)) as [He|He].
  - rewrite (pow2_multiple (ilog2 q + 1) (ulp_exp q) He).
    apply nearest_le. rewrite <- (pow2_multiple (ilog2 q + 1) (ulp_exp q) He). lra.
  - pose proof (pow2_pos (ilog2 q + 1)) as P.
    assert (nearest q <= inject_Z 0 * pow2 (ulp_exp q)) as H.
    { unfold nearest. pose proof (pow2_pos (ulp_exp q)) as Pe.
      apply Qmult_le_compat_r; [|lra]. rewrite <- Zle_Qle.
      pose proof (rint_near (q / pow2 (ulp_exp q))) as [_ Hn].
      assert (q / pow2 (ulp_exp q) < 1 # 2) as Hs.
      { apply Qlt_shift_div_r; [exact Pe|].
        assert (pow2 (ilog2 q + 1 + 1) <= pow2 (ulp_exp q)) as Hp by (apply pow2_le; lia).
        rewrite pow2_S in Hp. lra. }
      assert (inject_Z (rint (q / pow2 (ulp_exp q))) < 1) as Hlt by lra.
      change 1 with (inject_Z 1) in Hlt. rewrite <- Zlt_Qlt in Hlt. lia. }
    change (inject_Z 0) with 0 in H. lra.
Qed.

Lemma nearest_mono x y : 0 < x -> x <= y -> nearest x <= nearest y.
Proof.
  intros Hx Hxy. assert (0 < y) as Hy by lra.
  destruct (Z.eq_dec (ulp_exp x) (ulp_exp y)) as [He|Hne].
  - unfold nearest. rewrite He. pose proof (pow2_pos (ulp_exp y)) as P.
    apply Qmult_le_compat_r; [|lra]. rewrite <- Zle_Qle. apply rint_mono.
    apply Qmult_le_compat_r; [exact Hxy|]. apply Qinv_le_0_compat. lra.
  - pose proof (ilog2_mono x y Hx Hxy) as Hm.
    assert (ilog2 x < ilog2 y /\ -1074 <= ilog2 y)%Z as [Hlt Hn]
      by (unfold ulp_exp in Hne; lia).
    pose proof (nearest_upper x Hx). pose proof (nearest_lower y Hy Hn).
    assert (pow2 (ilog2 x + 1) <= pow2 (ilog2 y)) by (apply pow2_le; lia).
    lra.
Qed.

(** A float: an integer of at most 53 bits times a power of two. *)
Lemma nearest_exact q m k :
  0 < q -> q == inject_Z m * pow2 k -> (m <= 2 ^ 53)%Z -> (-1074 <= k)%Z ->
  nearest q == q.
Proof.
  intros Hq Hm Hb Hk.
  assert (exists K, q == inject_Z K * pow2 (ulp_exp q)) as [K HK].
  { destruct (Z_le_gt_dec (ulp_exp q) k) as [He|He].
    - exists (m * 2 ^ (k - ulp_exp q))%Z. rewrite inject_Z_mult.
      apply (Qeq_trans _ _ _ Hm).
      rewrite (pow2_multiple k (ulp_exp q) He). ring.
    - destruct (ilog2_spec q Hq) as [S1 S2].
      assert (q <= pow2 (k + 53)) as Hup.
      { assert (inject_Z m * pow2 k <= pow2 (k + 53)) as H; [|lra].
        rewrite pow2_add. pose proof (pow2_pos k).
        rewrite (Qmult_comm (pow2 k)). apply Qmult_le_compat_r; [|lra].
        rewrite (pow2_Z 53) by lia. rewrite <- Zle_Qle. exact Hb. }
      assert (pow2 (ilog2 q) <= pow2 (k + 53)) as Hp by lra.
      apply pow2_le_inv in Hp.
      assert (ilog2 q = k + 53)%Z as HE by (unfold ulp_exp in He; lia).
      assert (ulp_exp q = k + 1)%Z as Hu by (unfold ulp_exp; lia).
      exists (2 ^ 52)%Z. rewrite Hu. rewrite <- (pow2_Z 52) by lia.
      rewrite <- pow2_add. replace (52 + (k + 1))%Z with (k + 53)%Z by lia.
      rewrite HE in S1. lra. }
  unfold nearest.
  rewrite (rint_comp (q / pow2 (ulp_exp q)) (inject_Z K)).
  - rewrite rint_Z. symmetry. exact HK.
  - rewrite HK at 1. pose proof (pow2_pos (ulp_exp q)). field. lra.
Qed.

Lemma nearest_form q :
  0 < q ->
  exists m, nearest q == inject_Z m * pow2 (ulp_exp q) /\ (0 <= m <= 2 ^ 53)%Z.
Proof.
  intros Hq. exists (rint (q / pow2 (ulp_exp q))). split; [reflexivity|].
  pose proof (pow2_pos (ulp_exp q)) as P. destruct (ilog2_spec q Hq) as [_ S2].
  split.
  - apply rint_ge_Z. change (inject_Z 0) with 0. apply Qle_shift_div_l; [exact P|]. lra.
  - apply rint_le_Z. apply Qle_shift_div_r; [exact P|].
    rewrite <- (pow2_Z 53) by lia. rewrite <- pow2_add.
    assert (pow2 (ilog2 q + 1) <= pow2 (53 + ulp_exp q)) by (apply pow2_le; unfold ulp_exp; lia).
    lra.
Qed.

Lemma nearest_error q :
  0 < q -> (-1022 <= ilog2 q)%Z ->
  - (q * pow2 (-53)) <= nearest q - q <= q * pow2 (-53).
Proof.
  intros Hq HE. destruct (ilog2_spec q Hq) as [S1 _].
  assert (ulp_exp q = ilog2 q - 52)%Z as He by (unfold ulp_exp; lia).
  pose proof (pow2_pos (ulp_exp q)) as P.
  pose proof (rint_near (q / pow2 (ulp_exp q))) as [N1 N2].
  unfold nearest. set (m := inject_Z (rint (q / pow2 (ulp_exp q)))) in *.
  assert (q == q / pow2 (ulp_exp q) * pow2 (ulp_exp q)) as Eq by (field; lra).
  set (s := q / pow2 (ulp_exp q)) in *.
  assert (pow2 (ulp_exp q) * (1 # 2) <= q * pow2 (-53)) as Hu.
  { assert (pow2 (ilog2 q) * pow2 (-53) <= q * pow2 (-53)) as H
      by (apply Qmult_le_compat_r; [exact S1 | pose proof (pow2_pos (-53)); lra]).
    rewrite <- pow2_add in H.
    assert (pow2 (ilog2 q + -53 + 1) == 2 * pow2 (ilog2 q + -53)) as HS by apply pow2_S.
    replace (ilog2 q + -53 + 1)%Z with (ulp_exp q) in HS by lia. lra. }
  assert ((m - s) * pow2 (ulp_exp q) <= (1 # 2) * pow2 (ulp_exp q)) as A1
    by (apply Qmult_le_compat_r; lra).
  assert ((- (1 # 2)) * pow2 (ulp_exp q) <= (m - s) * pow2 (ulp_exp q)) as A2
    by (apply Qmult_le_compat_r; lra).
  split; lra.
Qed.

Lemma round_comp x y : x == y -> round x = round y.
Proof. intros H. unfold round. now rewrite (Qred_complete _ _ H). Qed.

Lemma round_cases x :
  (x == 0 /\ round x = Finite 0)
  \/ (0 < x /\ round x = overflow false (nearest (Qred x)))
  \/ (x < 0 /\ round x = overflow true (nearest (- Qred x))).
Proof.
  unfold round. pose proof (Qred_correct x) as Hr.
  destruct (Qcompare_spec (Qred x) 0) as [H|H|H].
  - left. split; [now rewrite <- Hr | reflexivity].
  - right. right. split; [now rewrite <- Hr | reflexivity].
  - right. left. split; [now rewrite <- Hr | reflexivity].
Qed.

Lemma nearest_Qred x : 0 < x -> nearest (Qred x) == nearest x.
Proof.
  intros Hx. apply nearest_comp; [apply Qred_correct|]. now rewrite Qred_correct.
Qed.

Lemma nearest_opp_Qred x : x < 0 -> nearest (- Qred x) == nearest (- x).
Proof.
  intros Hx. apply nearest_comp; [now rewrite Qred_correct|].
  rewrite Qred_correct. lra.
Qed.

Lemma round_0 : round 0 = Finite 0.
Proof. reflexivity. Qed.

Lemma round_nonneg x : 0 <= x -> above 0 (round x).
Proof.
  intros Hx. destruct (round_cases x) as [[_ ->]|[[H ->]|[H _]]]; [simpl; lra| |lra].
  unfold overflow. destruct (Qle_bool _ _); [exact I|]. simpl.
  rewrite nearest_Qred by exact H. now apply nearest_nonneg.
Qed.

Lemma round_nonpos x : x <= 0 -> below 0 (round x).
Proof.
  intros Hx. destruct (round_cases x) as [[_ ->]|[[H _]|[H ->]]]; [simpl; lra|lra|].
  unfold overflow. destruct (Qle_bool _ _); [exact I|]. simpl.
  rewrite nearest_opp_Qred by exact H.
  pose proof (nearest_nonneg (- x) ltac:(lra)). lra.
Qed.

Lemma round_below x c : x <= c -> 0 < c -> is_float c -> below c (round x).
Proof.
  intros Hxc Hc (m & k & Hm & Hb & Hk & Hlt).
  destruct (Qlt_le_dec 0 x) as [Hx|Hx].
  2:{ pose proof (round_nonpos x Hx) as H. destruct (round x) as [|[|]|v]; simpl in *;
        try exact H; lra. }
  destruct (round_cases x) as [[H _]|[[_ ->]|[H _]]]; [lra| |lra].
  pose proof (nearest_mono x c Hx Hxc) as Hmono.
  pose proof (nearest_exact c m k Hc Hm Hb Hk) as Hex.
  pose proof (nearest_Qred x Hx) as Hq.
  unfold overflow. destruct (Qle_bool _ _) eqn:E.
  - apply Qle_bool_iff in E. lra.
  - simpl. lra.
Qed.

Lemma round_above x c : c <= x -> 0 < c -> is_float c -> above c (round x).
Proof.
  intros Hxc Hc (m & k & Hm & Hb & Hk & Hlt).
  assert (0 < x) as Hx by lra.
  destruct (round_cases x) as [[H _]|[[_ ->]|[H _]]]; [lra| |lra].
  pose proof (nearest_mono c x Hc Hxc) as Hmono.
  pose proof (nearest_exact c m k Hc Hm Hb Hk) as Hex.
  pose proof (nearest_Qred x Hx) as Hq.
  unfold overflow. destruct (Qle_bool _ _) eqn:E; [exact I|]. simpl. lra.
Qed.

(** A value [round] gives is a float. *)
Lemma round_is_float x v : round x = Finite v -> 0 < v -> is_float v.
Proof.
  intros Hr Hv.
  destruct (round_cases x) as [[_ H]|[[Hx H]|[Hx H]]]; rewrite H in Hr.
  - injection Hr as <-. lra.
  - unfold overflow in Hr. destruct (Qle_bool _ _) eqn:E; [discriminate|].
    injection Hr as <-.
    assert (0 < Qred x) as Hp by now rewrite Qred_correct.
    destruct (nearest_form (Qred x) Hp) as (m & Hm & Hb).
    exists m, (ulp_exp (Qred x)). split; [exact Hm|]. split; [lia|].
    split; [unfold ulp_exp; lia|].
    apply Qnot_le_lt. intros Hc. apply Qle_bool_iff in Hc. congruence.
  - unfold overflow in Hr. destruct (Qle_bool _ _) eqn:E; [discriminate|].
    injection Hr as <-.
    pose proof (nearest_nonneg (- Qred x)) as Hn.
    assert (0 < - Qred x) as Hp by (rewrite Qred_correct; lra).
    specialize (Hn Hp). lra.
Qed.

Lemma is_float_Z z : (0 < z <= 2 ^ 53)%Z -> is_float (inject_Z z).
Proof.
  intros Hz. exists z, 0%Z. split; [unfold pow2; simpl; ring|].
  split; [lia|]. split; [lia|].
  assert (inject_Z z <= pow2 53) as H
    by (rewrite pow2_Z by lia; rewrite <- Zle_Qle; lia).
  pose proof (pow2_lt 53 1024 ltac:(lia)). lra.
Qed.

(** Floats are read as they are. *)
Lemma round_exact x :
  0 < x -> is_float x -> exists v, round x = Finite v /\ v == x.
Proof.
  intros Hx (m & k & Hm & Hb & Hk & Hlt).
  destruct (round_cases x) as [[H _]|[[_ ->]|[H _]]]; [lra| |lra].
  pose proof (nearest_exact x m k Hx Hm Hb Hk) as Hex.
  pose proof (nearest_Qred x Hx) as Hq.
  unfold overflow. destruct (Qle_bool _ _) eqn:E.
  - apply Qle_bool_iff in E. lra.
  - eexists. split; [reflexivity|]. lra.
Qed.

Lemma overflow_not_nan (b : bool) (v : Q) : overflow b v <> Nan.
Proof. unfold overflow. destruct (Qle_bool _ _); discriminate. Qed.

Lemma round_not_nan (x : Q) : round x <> Nan.
Proof.
  destruct (round_cases x) as [[_ ->]|[[_ ->]|[_ ->]]];
    [discriminate | apply overflow_not_nan | apply overflow_not_nan].
Qed.

Lemma overflow_mono (u v : Q) :
  u <= v -> fle (overflow false u) (overflow false v).
Proof.
  intros H. unfold overflow.
  destruct (Qle_bool (pow2 1024) u) eqn:Eu, (Qle_bool (pow2 1024) v) eqn:Ev; simpl; auto.
  apply Qle_bool_iff in Eu.
  assert (~ pow2 1024 <= v) as Hn by (intros Hc; apply Qle_bool_iff in Hc; congruence).
  lra.
Qed.

Lemma overflow_mono_neg (u v : Q) :
  v <= u -> fle (overflow true u) (overflow true v).
Proof.
  intros H. unfold overflow.
  destruct (Qle_bool (pow2 1024) u) eqn:Eu, (Qle_bool (pow2 1024) v) eqn:Ev; simpl; auto.
  - apply Qle_bool_iff in Ev.
    assert (~ pow2 1024 <= u) as Hn by (intros Hc; apply Qle_bool_iff in Hc; congruence).
    lra.
  - lra.
Qed.

Lemma above_fle_0 (x : float64) : above 0 x -> fle (Finite 0) x.
Proof. destruct x as [|[|]|v]; simpl; auto. Qed.

Lemma below_fle_0 (x : float64) : below 0 x -> fle x (Finite 0).
Proof. destruct x as [|[|]|v]; simpl; auto. Qed.

Lemma fle_trans (x y z : float64) : fle x y -> fle y z -> fle x z.
Proof.
  destruct x as [|[|]|u], y as [|[|]|v], z as [|[|]|w]; simpl; try tauto.
  apply Qle_trans.
Qed.

(** Rounding keeps the order. *)
Lemma round_mono (x y : Q) : x <= y -> fle (round x) (round y).
Proof.
  intros Hxy.
  destruct (Qlt_le_dec 0 x) as [Hx|Hx].
  - assert (0 < y) as Hy by lra.
    destruct (round_cases x) as [[H _]|[[_ ->]|[H _]]]; [lra| |lra].
    destruct (round_cases y) as [[H _]|[[_ ->]|[H _]]]; [lra| |lra].
    apply overflow_mono. rewrite !nearest_Qred by assumption.
    now apply nearest_mono.
  - destruct (Qlt_le_dec y 0) as [Hy|Hy].
    + assert (x < 0) as Hx' by lra.
      destruct (round_cases x) as [[H _]|[[H _]|[_ ->]]]; [lra|lra|].
      destruct (round_cases y) as [[H _]|[[H _]|[_ ->]]]; [lra|lra|].
      apply overflow_mono_neg. rewrite !nearest_opp_Qred by assumption.
      apply nearest_mono; lra.
    + apply (fle_trans _ (Finite 0)).
      * apply below_fle_0, round_nonpos, Hx.
      * apply above_fle_0, round_nonneg, Hy.
Qed.

(** A whole number of at most 53 bits is a float. *)
Lemma round_whole (z : Z) :
  (0 <= z <= 2 ^ 53)%Z -> exists v, round (inject_Z z) = Finite v /\ v == inject_Z z.
Proof.
  intros Hz. destruct (Z.eq_dec z 0%Z) as [->|Hne].
  - exists 0. split; reflexivity.
  - apply round_exact.
    + change 0 with (inject_Z 0). rewrite <- Zlt_Qlt. lia.
    + apply is_float_Z. lia.
Qed.

Lemma ilog2_pow2 (k : Z) : ilog2 (pow2 k) = k.
Proof.
  apply ilog2_unique; [apply pow2_pos|]. split; [apply Qle_refl|].
  apply pow2_lt. lia.
Qed.

(** The error of a rounding, for a number in the range of the normal
    floats. *)
Lemma round_error (x : Q) :
  pow2 (-1022) <= x -> x <= pow2 1023 ->
  exists v, round x = Finite v
            /\ - (x * pow2 (-53)) <= v - x <= x * pow2 (-53).
Proof.
  intros Hlo Hhi. pose proof (pow2_pos (-1022)) as Hp.
  assert (0 < x) as Hx by lra.
  destruct (round_cases x) as [[H _]|[[_ ->]|[H _]]]; [lra| |lra].
  pose proof (nearest_Qred x Hx) as Hq.
  assert (-1022 <= ilog2 x)%Z as Hl.
  { rewrite <- (ilog2_pow2 (-1022)). apply ilog2_mono; assumption. }
  pose proof (nearest_error x Hx Hl) as He.
  assert (pow2 (-53) < 1) as Heps.
  { change 1 with (pow2 0). apply pow2_lt. lia. }
  pose proof (pow2_pos (-53)) as Heps0.
  assert (x * pow2 (-53) < x) as Hsmall.
  { rewrite <- (Qmult_1_r x) at 2. apply Qmult_lt_l; assumption. }
  assert (pow2 1024 == 2 * pow2 1023) as H24 by (apply (pow2_S 1023)).
  unfold overflow. destruct (Qle_bool _ _) eqn:E.
  - apply Qle_bool_iff in E. lra.
  - eexists. split; [reflexivity|]. lra.
Qed.

Lemma of_int_1 : exists v, of_int 1 = Finite v /\ v == 1.
Proof. apply (round_whole 1). lia. Qed.

Lemma of_int_100 : exists v, of_int 100 = Finite v /\ v == 100.
Proof. apply (round_whole 100). lia. Qed.

End Float64Facts.

(** ** The statistics of the analyzer *)

Section SeriesFacts.

Import Analyze Documented Float64.
Local Open Scope Q_scope.

Lemma greatest_bounds (l : list Q) :
  forall x, x <= greatest x l /\ (forall y, In y l -> y <= greatest x l)
            /\ In (greatest x l) (x :: l).
Proof.
  unfold greatest. induction l as [|a l IH]; intros x; simpl.
  - split; [lra|]. split; [tauto | auto].
  - destruct (Qle_bool a x) eqn:E.
    + apply Qle_bool_iff in E. destruct (IH x) as (H1 & H2 & H3).
      split; [exact H1|]. split.
      * intros y [<-|Hy]; [eapply Qle_trans; eassumption | auto].
      * destruct H3 as [H3|H3]; [left; exact H3 | right; right; exact H3].
    + assert (x < a) as Hlt.
      { apply Qnot_le_lt. intros H. apply Qle_bool_iff in H. congruence. }
      destruct (IH a) as (H1 & H2 & H3).
      split; [eapply Qle_trans; [apply Qlt_le_weak, Hlt | exact H1]|]. split.
      * intros y [<-|Hy]; [exact H1 | auto].
      * right. exact H3.
Qed.

Lemma least_bounds (l : list Q) :
  forall x, least x l <= x /\ (forall y, In y l -> least x l <= y)
            /\ In (least x l) (x :: l).
Proof.
  unfold least. induction l as [|a l IH]; intros x; simpl.
  - split; [lra|]. split; [tauto | auto].
  - destruct (Qle_bool x a) eqn:E.
    + apply Qle_bool_iff in E. destruct (IH x) as (H1 & H2 & H3).
      split; [exact H1|]. split.
      * intros y [<-|Hy]; [eapply Qle_trans; eassumption | auto].
      * destruct H3 as [H3|H3]; [left; exact H3 | right; right; exact H3].
    + assert (a < x) as Hlt.
      { apply Qnot_le_lt. intros H. apply Qle_bool_iff in H. congruence. }
      destruct (IH a) as (H1 & H2 & H3).
      split; [eapply Qle_trans; [exact H1 | apply Qlt_le_weak, Hlt]|]. split.
      * intros y [<-|Hy]; [exact H1 | auto].
      * right. exact H3.
Qed.

Lemma In_insert_sorted (x y : Q) (l : list Q) :
  In y (insert_sorted x l) <-> y = x \/ In y l.
Proof.
  induction l as [|a l IH]; simpl.
  - intuition.
  - destruct (Qle_bool x a); simpl; rewrite ?IH; intuition.
Qed.

Lemma In_sort_values (y : Q) (l : list Q) : In y (sort_values l) <-> In y l.
Proof.
  induction l as [|a l IH]; simpl; [tauto|].
  rewrite In_insert_sorted, IH. intuition.
Qed.

Lemma length_insert_sorted (x : Q) (l : list Q) :
  length (insert_sorted x l) = S (length l).
Proof.
  induction l as [|a l IH]; simpl; [reflexivity|].
  destruct (Qle_bool x a); simpl; [reflexivity | now rewrite IH].
Qed.

Lemma length_sort_values (l : list Q) : length (sort_values l) = length l.
Proof.
  induction l as [|a l IH]; simpl; [reflexivity|].
  now rewrite length_insert_sorted, IH.
Qed.

(** The extremes the code folds out of the sorted values are the greatest
    and the least of the values. *)
Lemma extremes_of_sorted (l : list Q) (x : Q) (r : list Q) (mx mn : Q) :
  sort_values l = x :: r -> maximum mx l -> minimum mn l ->
  greatest x r == mx /\ least x r == mn /\ least x r <= greatest x r.
Proof.
  intros Hs [[y [Hy Hymx]] Hub] [[z [Hz Hzmn]] Hlb].
  destruct (greatest_bounds r x) as (G1 & G2 & G3).
  destruct (least_bounds r x) as (L1 & L2 & L3).
  assert (forall v, In v (x :: r) <-> In v l) as Hin.
  { intros v. rewrite <- Hs. apply In_sort_values. }
  assert (forall v, In v (x :: r) -> v <= greatest x r) as Gub.
  { intros v [<-|Hv]; auto. }
  assert (forall v, In v (x :: r) -> least x r <= v) as Llb.
  { intros v [<-|Hv]; auto. }
  repeat split.
  - apply Qle_antisym.
    + apply Hub, Hin, G3.
    + rewrite <- Hymx. apply Gub, Hin, Hy.
  - apply Qle_antisym.
    + rewrite <- Hzmn. apply Llb, Hin, Hz.
    + apply Hlb, Hin, L3.
  - apply Gub, L3.
Qed.

Lemma basic_stats_entries (pandas : Reductions) (a : Analyzer) (t : Table) :
  df a = Some t ->
  basic_stats pandas a =
    [ ("total_samples", SInt (Z.of_nat (length (body t))));
      ("time_span", if has_column "timestamp" t
                    then SSeconds (time_span_of (column "timestamp" t)) else SNone);
      ("rssi_stats", if has_column "rssi" t
                     then SBlock (rssi_block pandas (column "rssi" t)) else SBlock []);
      ("latency_stats", if has_column "lat_us" t
                        then SBlock (latency_block pandas (column "lat_us" t))
                        else SBlock []);
      ("packet_loss", if has_column "seq" t
                      then packet_loss_of (column "seq" t) else SInt 0) ].
Proof.
  intros Ht. unfold basic_stats. rewrite Ht.
  destruct (has_column "timestamp" t), (has_column "rssi" t),
    (has_column "lat_us" t), (has_column "seq" t); reflexivity.
Qed.

Lemma sort_values_nil (l : list Q) : sort_values l = [] -> l = [].
Proof.
  intros H. apply (f_equal (@length Q)) in H. rewrite length_sort_values in H.
  destruct l; [reflexivity | discriminate].
Qed.

(** The extremes of a series that is not empty bound each of its values. *)
Lemma extremes_bound (x : Q) (r : list Q) (y : Q) :
  In y (x :: r) -> least x r <= y <= greatest x r.
Proof.
  destruct (greatest_bounds r x) as (G1 & G2 & _).
  destruct (least_bounds r x) as (L1 & L2 & _).
  intros [<-|Hy]; split; auto.
Qed.


Lemma max0f_below (c : Q) (p : float64) :
  below c p ->
  max0f p = SInt 0 \/ exists q, max0f p = SNum (Num q) /\ 0 < q <= c.
Proof.
  destruct p as [|[|]|v]; simpl; try tauto. intros Hv. unfold max0.
  destruct (Qcompare_spec v 0) as [H|H|H]; [now left | now left |].
  right. exists v. repeat split; assumption.
Qed.

Lemma max0f_nonpos (p : float64) : below 0 p -> max0f p = SInt 0.
Proof.
  intros H. destruct (max0f_below 0 p H) as [H0|(q & _ & Hq)]; [exact H0 | lra].
Qed.

Lemma fle_below (x : float64) (v : Q) : fle x (Finite v) -> below v x.
Proof. destruct x as [|[|]|u]; simpl; auto. Qed.

Lemma negative_of_pos (q : Q) : 0 < q -> negative q = false.
Proof. intros H. unfold negative. apply Qgt_alt in H. now rewrite H. Qed.

Lemma fdiv_neg_inf (ev : Q) : 0 < ev -> fdiv (Inf true) (Finite ev) = Inf true.
Proof. intros H. simpl. now rewrite negative_of_pos. Qed.

Lemma fmul_neg_inf (h : Q) : 0 < h -> fmul (Inf true) (Finite h) = Inf true.
Proof.
  intros H. simpl. rewrite negative_of_pos by exact H.
  apply Qgt_alt in H. now rewrite H.
Qed.

(** The quotient a float at most the divisor gives is at most 100. *)
Lemma loss_below (x : float64) (ev : Q) :
  0 < ev -> below ev x -> below 100 (fmul (fdiv x (Finite ev)) (of_int 100)).
Proof.
  intros Hev Hx. destruct of_int_100 as (h & -> & Hh).
  assert ((h ?= 0) = Gt) as Hhc by (apply Qgt_alt; lra).
  assert ((ev ?= 0) = Gt) as Hec by (now apply Qgt_alt).
  destruct x as [|[|]|xv]; simpl in Hx; try contradiction.
  - rewrite fdiv_neg_inf, fmul_neg_inf by lra. exact I.
  - unfold fdiv. rewrite Hec.
    assert (below 1 (round (xv / ev))) as Hr.
    { apply round_below; [|reflexivity | apply (is_float_Z 1); lia].
      apply Qle_shift_div_r; lra. }
    destruct (round (xv / ev)) as [|[|]|r]; simpl in Hr; try contradiction.
    + rewrite fmul_neg_inf by lra. exact I.
    + unfold fmul. apply round_below; [|reflexivity | apply (is_float_Z 100); lia].
      rewrite Hh. lra.
Qed.

Lemma loss_nonpos (x : float64) (ev : Q) :
  0 < ev -> below 0 x -> max0f (fmul (fdiv x (Finite ev)) (of_int 100)) = SInt 0.
Proof.
  intros Hev Hx. apply max0f_nonpos. destruct of_int_100 as (h & -> & Hh).
  assert ((h ?= 0) = Gt) as Hhc by (apply Qgt_alt; lra).
  assert ((ev ?= 0) = Gt) as Hec by (now apply Qgt_alt).
  destruct x as [|[|]|xv]; simpl in Hx; try contradiction.
  - rewrite fdiv_neg_inf, fmul_neg_inf by lra. exact I.
  - unfold fdiv. rewrite Hec.
    assert (below 0 (round (xv / ev))) as Hr.
    { apply round_nonpos. apply Qle_shift_div_r; lra. }
    destruct (round (xv / ev)) as [|[|]|r]; simpl in Hr; try contradiction.
    + rewrite fmul_neg_inf by lra. exact I.
    + unfold fmul. apply round_nonpos. rewrite Hh. lra.
Qed.

Lemma loss_over_inf (x : float64) :
  max0f (fmul (fdiv x (Inf false)) (of_int 100)) = SInt 0.
Proof. destruct x as [|b|v]; reflexivity. Qed.

(** The difference of two floats in order is not negative, when it is a
    number. *)
Lemma fsub_of_ordered (x y : float64) :
  fle y x -> fsub x y = Nan \/ above 0 (fsub x y).
Proof.
  destruct x as [|[|]|u], y as [|[|]|v]; simpl; try tauto.
  intros H. right. apply round_nonneg. lra.
Qed.

Lemma fsub_count_below (ev : Q) (n : Z) :
  0 < ev -> is_float ev -> (0 <= n)%Z -> below ev (fsub (Finite ev) (of_int n)).
Proof.
  intros Hev Hf Hn.
  assert (above 0 (of_int n)) as Ha.
  { apply round_nonneg. change 0 with (inject_Z 0). rewrite <- Zle_Qle. exact Hn. }
  destruct (of_int n) as [|[|]|av]; simpl in Ha; try contradiction.
  - exact I.
  - unfold fsub, fneg, fadd. apply round_below; [lra | exact Hev | exact Hf].
Qed.

(** The estimate is the int [0] or a float above 0 and at most 100. *)
Lemma packet_loss_of_cases (s : Series) :
  packet_loss_of s = SInt 0
  \/ exists q, packet_loss_of s = SNum (Num q) /\ 0 < q <= 100.
Proof.
  unfold packet_loss_of. destruct (int64_column s).
  - match goal with |- context [(0 <? ?e0)%Z] => set (e := e0) end.
    destruct (0 <? e)%Z eqn:He; [|now left]. apply Z.ltb_lt in He.
    assert (above 1 (of_int e)) as Ha.
    { apply round_above; [|reflexivity | apply (is_float_Z 1); lia].
      change 1 with (inject_Z 1). rewrite <- Zle_Qle. lia. }
    pose proof (round_mono (inject_Z (e - Z.of_nat (length (sort_values (dropna s)))))
                           (inject_Z e)) as Hm.
    fold (of_int e) in Hm. unfold of_int at 1.
    destruct (of_int e) as [|[|]|ev]; simpl in Ha; try contradiction.
    + left. apply loss_over_inf.
    + apply (max0f_below 100), loss_below; [lra|].
      apply fle_below, Hm. rewrite <- Zle_Qle. lia.
  - destruct (sort_values (dropna s)) as [|x l]; [now left|].
    assert (fle (round (least x l)) (round (greatest x l))) as Hord.
    { apply round_mono. destruct (extremes_bound x l x (or_introl eq_refl)). lra. }
    destruct of_int_1 as (one & Hone & Hov). rewrite Hone.
    destruct (fsub_of_ordered _ _ Hord) as [->|Hd]; [now left|].
    destruct (fsub (round (greatest x l)) (round (least x l))) as [|[|]|dv];
      simpl in Hd; try contradiction.
    + cbn [fadd positive]. left. apply loss_over_inf.
    + cbn [fadd].
      assert (above 1 (round (dv + one))) as Ha.
      { apply round_above; [lra | reflexivity | apply (is_float_Z 1); lia]. }
      destruct (round (dv + one)) as [|[|]|ev] eqn:Hev; simpl in Ha; try contradiction.
      * cbn [positive]. left. apply loss_over_inf.
      * destruct (positive (Finite ev)); [|now left].
        apply (max0f_below 100), loss_below; [lra|].
        apply fsub_count_below; [lra | | lia].
        apply (round_is_float _ _ Hev). lra.
Qed.

Lemma wrap64_small (z : Z) : (- 2 ^ 63 <= z < 2 ^ 63)%Z -> wrap64 z = z.
Proof. intros H. unfold wrap64. rewrite Z.mod_small; lia. Qed.

(** The rounding of the quotient and of the product of the estimate. *)
Lemma loss_core (xv ev : Q) (X e : Z) :
  xv == inject_Z X -> ev == inject_Z e -> (0 < X < e)%Z -> (e <= 2 ^ 53)%Z ->
  exists p,
    max0f (fmul (fdiv (Finite xv) (Finite ev)) (of_int 100)) = SNum (Num p)
    /\ 0 < p
    /\ - (inject_Z X / inject_Z e * 100 * pow2 (-51))
       <= p - inject_Z X / inject_Z e * 100
       <= inject_Z X / inject_Z e * 100 * pow2 (-51).
Proof.
  intros Hxv Hev HX He. destruct of_int_100 as (h & -> & Hh).
  assert (1 <= xv) as Hx1.
  { rewrite Hxv. change 1 with (inject_Z 1). rewrite <- Zle_Qle. lia. }
  assert (xv < ev) as Hlt by (rewrite Hxv, Hev, <- Zlt_Qlt; lia).
  assert (ev <= pow2 53) as Hev53.
  { rewrite Hev, (pow2_Z 53) by lia. rewrite <- Zle_Qle. exact He. }
  assert ((ev ?= 0) = Gt) as Hec by (apply Qgt_alt; lra).
  unfold fdiv. rewrite Hec.
  assert (inject_Z X / inject_Z e == xv / ev) as Ht by (rewrite Hxv, Hev; reflexivity).
  set (t := xv / ev) in *.
  pose proof (pow2_pos (-53)) as Heps0. set (eps := pow2 (-53)) in *.
  assert (eps <= 1 # 2) as Heps.
  { assert (pow2 (-53) <= pow2 (-1)) as H by (apply pow2_le; lia). exact H. }
  assert (pow2 (-51) == 4 * eps) as H51.
  { unfold eps. reflexivity. }
  assert (eps <= t) as Htlo.
  { apply Qle_shift_div_l; [lra|].
    assert (eps * pow2 53 == 1) as H1.
    { unfold eps. reflexivity. }
    assert (eps * ev <= eps * pow2 53) as H2 by (apply Qmult_le_l; assumption).
    lra. }
  assert (t < 1) as Hthi by (apply Qlt_shift_div_r; lra).
  destruct (round_error t) as (r & -> & Hr).
  { assert (pow2 (-1022) <= pow2 (-53)) by (apply pow2_le; lia). fold eps in H. lra. }
  { assert (pow2 0 <= pow2 1023) as H by (apply pow2_le; lia).
    change (pow2 0) with 1 in H. lra. }
  fold eps in Hr. set (a := t * eps) in *.
  assert (0 < a) as Ha0 by (apply Qmult_lt_0_compat; lra).
  assert (a <= t * (1 # 2)) as Ha1 by (apply Qmult_le_l; lra).
  unfold fmul.
  assert (r * h == 100 * r) as Hu by (rewrite Hh; ring).
  destruct (round_error (r * h)) as (p & -> & Hp).
  { assert (pow2 (-1022) <= pow2 (-54)) by (apply pow2_le; lia).
    assert (pow2 (-53) == 2 * pow2 (-54)) as H54 by (apply (pow2_S (-54))).
    fold eps in H54. lra. }
  { assert (pow2 8 <= pow2 1023) as H by (apply pow2_le; lia).
    assert (pow2 8 == 256) as H8 by reflexivity. lra. }
  fold eps in Hp. set (b := r * h * eps) in *.
  assert (b <= 200 * a) as Hb.
  { assert (b == 100 * (r * eps)) as -> by (unfold b; rewrite Hu; ring).
    assert (r * eps <= (t + a) * eps) as H1 by (apply Qmult_le_compat_r; lra).
    assert (a * eps <= a * 1) as H2 by (apply Qmult_le_l; lra).
    assert ((t + a) * eps == a + a * eps) as H3 by (unfold a; ring).
    lra. }
  assert (0 < p) as Hp0.
  { assert (b <= (r * h) * (1 # 2)) as H1 by (apply Qmult_le_l; lra). lra. }
  exists p. split; [|split; [exact Hp0|]].
  - unfold max0f, max0. apply Qgt_alt in Hp0. now rewrite Hp0.
  - rewrite Ht.
    assert (t * 100 * pow2 (-51) == 400 * a) as -> by (rewrite H51; unfold a; ring).
    lra.
Qed.

Lemma inject_Z_sub (a b : Z) : inject_Z (a - b) == inject_Z a - inject_Z b.
Proof. unfold Z.sub. rewrite inject_Z_plus, inject_Z_opp. reflexivity. Qed.

(** The estimate from its parts: the float of [expected] and the float of
    [expected - actual]. *)
Lemma loss_of_parts (x : float64) (ev : Q) (e n : Z) :
  ev == inject_Z e -> (0 < e <= 2 ^ 53)%Z -> (0 < n)%Z ->
  ((e <= n)%Z -> below 0 x) ->
  ((n < e)%Z -> exists xv, x = Finite xv /\ xv == inject_Z (e - n)) ->
  ((e <= n)%Z -> max0f (fmul (fdiv x (Finite ev)) (of_int 100)) = SInt 0)
  /\ ((n < e)%Z ->
      exists p,
        max0f (fmul (fdiv x (Finite ev)) (of_int 100)) = SNum (Num p)
        /\ 0 < p
        /\ - (inject_Z (e - n) / inject_Z e * 100 * pow2 (-51))
           <= p - inject_Z (e - n) / inject_Z e * 100
           <= inject_Z (e - n) / inject_Z e * 100 * pow2 (-51)).
Proof.
  intros Hev He Hn Hfull Hgap.
  assert (0 < ev) as Hpos.
  { rewrite Hev. change 0 with (inject_Z 0). rewrite <- Zlt_Qlt. lia. }
  split.
  - intros H. apply loss_nonpos; auto.
  - intros H. destruct (Hgap H) as (xv & -> & Hxv).
    apply (loss_core xv ev (e - n) e); auto; lia.
Qed.

Lemma counter_of_member (l : list Q) (q : Q) :
  counters l -> In q l -> exists z, q == inject_Z z /\ (0 <= z < 2 ^ 53)%Z.
Proof. intros Hc Hq. exact (proj1 (List.Forall_forall _ _) Hc q Hq). Qed.

(** The estimate on a column of counters, against the documented formula:
    it is [0] when the count fills the range, and otherwise the formula up to
    the rounding of the division and of the product. *)
Lemma packet_loss_of_counters (s : Series) (mx mn : Q) :
  counters (dropna s) -> maximum mx (dropna s) -> minimum mn (dropna s) ->
  0 < mx - mn + 1
  /\ (mx - mn + 1 <= count (dropna s) -> packet_loss_of s = SInt 0)
  /\ (count (dropna s) < mx - mn + 1 ->
      exists p,
        packet_loss_of s = SNum (Num p)
        /\ 0 < p
        /\ - ((mx - mn + 1 - count (dropna s)) / (mx - mn + 1) * 100 * pow2 (-51))
           <= p - (mx - mn + 1 - count (dropna s)) / (mx - mn + 1) * 100
           <= (mx - mn + 1 - count (dropna s)) / (mx - mn + 1) * 100 * pow2 (-51)).
Proof.
  intros Hc Hmx Hmn.
  destruct (sort_values (dropna s)) as [|x r] eqn:Hs.
  { apply sort_values_nil in Hs. destruct Hmx as [[y [Hy _]] _].
    rewrite Hs in Hy. destruct Hy. }
  destruct (extremes_of_sorted _ _ _ _ _ Hs Hmx Hmn) as (Hg & Hl & Hle).
  destruct (greatest_bounds r x) as (_ & _ & Gin).
  destruct (least_bounds r x) as (_ & _ & Lin).
  rewrite <- Hs in Gin, Lin.
  apply (proj1 (In_sort_values _ _)) in Gin. apply (proj1 (In_sort_values _ _)) in Lin.
  destruct (counter_of_member _ _ Hc Gin) as (zg & Hzg & Hgr).
  destruct (counter_of_member _ _ Hc Lin) as (zl & Hzl & Hlr).
  assert (zl <= zg)%Z as Hord by (rewrite Zle_Qle, <- Hzg, <- Hzl; exact Hle).
  set (e := (zg - zl + 1)%Z).
  set (n := Z.of_nat (length (x :: r))).
  assert (0 < n)%Z as Hn by (unfold n; simpl length; lia).
  assert (0 < e <= 2 ^ 53)%Z as He by (unfold e; lia).
  assert (mx - mn + 1 == inject_Z e) as HE.
  { rewrite <- Hg, <- Hl, Hzg, Hzl. unfold e.
    rewrite inject_Z_plus, inject_Z_sub. reflexivity. }
  assert (count (dropna s) == inject_Z n) as HN.
  { unfold count, n. rewrite <- Hs, length_sort_values. reflexivity. }
  assert (0 < mx - mn + 1) as Hpos.
  { rewrite HE. change 0 with (inject_Z 0). rewrite <- Zlt_Qlt. lia. }
  assert ((mx - mn + 1 - count (dropna s)) / (mx - mn + 1) * 100
          == inject_Z (e - n) / inject_Z e * 100) as HL.
  { rewrite HE, HN, inject_Z_sub. reflexivity. }
  split; [exact Hpos|].
  assert (((e <= n)%Z -> packet_loss_of s = SInt 0)
          /\ ((n < e)%Z ->
              exists p,
                packet_loss_of s = SNum (Num p)
                /\ 0 < p
                /\ - (inject_Z (e - n) / inject_Z e * 100 * pow2 (-51))
                   <= p - inject_Z (e - n) / inject_Z e * 100
                   <= inject_Z (e - n) / inject_Z e * 100 * pow2 (-51))) as [Hfull Hgap].
  2:{ split.
      - intros H. apply Hfull. rewrite HE, HN, <- Zle_Qle in H. exact H.
      - intros H. rewrite HE, HN, <- Zlt_Qlt in H.
        destruct (Hgap H) as (p & Hp & Hp0 & Herr).
        exists p. split; [exact Hp|]. split; [exact Hp0|]. rewrite HL. exact Herr. }
  destruct (round_whole e) as (ev & Hev & Hevv); [lia|].
  unfold packet_loss_of. rewrite Hs. fold n.
  destruct (int64_column s).
  - rewrite (Qfloor_comp _ _ Hzg), (Qfloor_comp _ _ Hzl), !Qfloor_Z.
    rewrite (wrap64_small (zg - zl)) by lia. fold e.
    rewrite (wrap64_small e) by lia.
    assert ((0 <? e)%Z = true) as -> by (apply Z.ltb_lt; lia).
    change (of_int e) with (round (inject_Z e)). rewrite Hev.
    apply (loss_of_parts _ ev e n Hevv He Hn).
    + intros H. apply round_nonpos.
      change 0 with (inject_Z 0). rewrite <- Zle_Qle. lia.
    + intros H. apply (round_whole (e - n)). lia.
  - destruct (round_whole zg) as (gv & Hgv & Hgvv); [lia|].
    destruct (round_whole zl) as (lv & Hlv & Hlvv); [lia|].
    rewrite (round_comp _ _ Hzg), (round_comp _ _ Hzl), Hgv, Hlv.
    destruct (round_whole (zg - zl)) as (dv & Hdv & Hdvv); [lia|].
    assert (fsub (Finite gv) (Finite lv) = Finite dv) as ->.
    { unfold fsub, fneg, fadd. rewrite <- Hdv. apply round_comp.
      rewrite Hgvv, Hlvv, inject_Z_sub. reflexivity. }
    destruct of_int_1 as (one & -> & Hone).
    assert (fadd (Finite dv) (Finite one) = Finite ev) as ->.
    { unfold fadd. rewrite <- Hev. apply round_comp.
      rewrite Hdvv, Hone. unfold e. rewrite inject_Z_plus. reflexivity. }
    assert (0 < ev) as Hevpos.
    { rewrite Hevv. change 0 with (inject_Z 0). rewrite <- Zlt_Qlt. lia. }
    assert (positive (Finite ev) = true) as ->.
    { unfold positive. apply Qgt_alt in Hevpos. now rewrite Hevpos. }
    apply (loss_of_parts _ ev e n Hevv He Hn).
    + intros H.
      pose proof (round_mono (inject_Z e) (inject_Z n)) as Hm.
      rewrite Hev in Hm. fold (of_int n) in Hm.
      assert (inject_Z e <= inject_Z n) as Hen by (rewrite <- Zle_Qle; exact H).
      specialize (Hm Hen).
      destruct (of_int n) as [|[|]|nv]; simpl in Hm; try contradiction.
      * exact I.
      * unfold fsub, fneg, fadd. apply round_nonpos. lra.
    + intros H. destruct (round_whole n) as (nv & Hnv & Hnvv); [lia|].
      unfold of_int. rewrite Hnv. unfold fsub, fneg, fadd.
      destruct (round_whole (e - n)) as (xv & Hxv & Hxvv); [lia|].
      exists xv. split; [|exact Hxvv]. rewrite <- Hxv. apply round_comp.
      rewrite Hevv, Hnvv, inject_Z_sub. reflexivity.
Qed.

Lemma packet_loss_of_empty (s : Series) :
  dropna s = [] -> packet_loss_of s = SInt 0.
Proof.
  intros H. unfold packet_loss_of. rewrite H. cbn [sort_values length Z.of_nat].
  destruct (int64_column s); reflexivity.
Qed.

Lemma dropna_all_missing (s : Series) : all_missing s -> dropna s = [].
Proof.
  induction 1 as [|c s Hc _ IH]; [reflexivity|].
  subst c. exact IH.
Qed.

(** With a table loaded, [print_summary] finds every key it reads. *)
Lemma print_summary_returns (pandas : Reductions) (a : Analyzer) (t : Table) :
  df a = Some t -> exists lines, print_summary pandas a = inr lines.
Proof.
  intros Ht. unfold print_summary. rewrite (basic_stats_entries pandas a t Ht).
  destruct (has_column "timestamp" t), (has_column "rssi" t),
    (has_column "lat_us" t); eexists; reflexivity.
Qed.

End SeriesFacts.

Import Analyze Documented.

(** C1 (as the code has it).  For every table with a [seq] column, the
    [packet_loss] entry of the summary is [0] when no sequence value is
    present.  When the values present are counters (whole numbers from 0,
    below [2^53]), then with [expected = max - min + 1] and [actual] their
    number, [expected] is positive and the entry is the documented
    [max(0, (expected - actual) / expected * 100)] as the floats compute it:
    the int [0] exactly when the documented value is zero, and else a float
    that differs from the documented value by at most [2^-51] of it, the
    division and the product being rounded.  The sequence [0,1,2,4,5] gives a
    float that prints as 16.67, and the single value [3] gives [0]. *)
Theorem packet_loss_matches_documented_formula
    (pandas : Reductions) (a : Analyzer) (t : Table) :
  df a = Some t -> has_column "seq" t = true ->
  let vals := dropna (column "seq" t) in
  exists loss : stat,
    Py.dict_get "packet_loss" (basic_stats pandas a) = Some loss
    /\ (vals = [] -> loss = SInt 0)
    /\ (forall mx mn : Q, counters vals -> maximum mx vals -> minimum mn vals ->
          (0 < mx - mn + 1
           /\ (documented_loss (mx - mn + 1) (count vals) == 0 <-> loss = SInt 0)
           /\ - (documented_loss (mx - mn + 1) (count vals) * Float64.pow2 (-51))
              <= value_of loss - documented_loss (mx - mn + 1) (count vals)
              <= documented_loss (mx - mn + 1) (count vals) * Float64.pow2 (-51))%Q)
    /\ (16665 # 1000 <= value_of (packet_loss_of (column "seq" gap_example))
        /\ value_of (packet_loss_of (column "seq" gap_example)) < 16675 # 1000)%Q
    /\ packet_loss_of (column "seq" single_example) = SInt 0.
Proof.
  intros Ht Hseq vals. exists (packet_loss_of (column "seq" t)).
  split.
  { rewrite (basic_stats_entries pandas a t Ht), Hseq. reflexivity. }
  split; [apply packet_loss_of_empty|].
  split; [|split; [split; vm_compute; congruence | vm_compute; reflexivity]].
  intros mx mn Hc Hmx Hmn.
  destruct (packet_loss_of_counters _ mx mn Hc Hmx Hmn) as (Hpos & Hfull & Hgap).
  fold vals in Hfull, Hgap.
  split; [exact Hpos|].
  unfold documented_loss.
  destruct (Qle_bool (mx - mn + 1) 0) eqn:Hb.
  { apply Qle_bool_iff in Hb. lra. }
  set (L := ((mx - mn + 1 - count vals) / (mx - mn + 1) * 100)%Q) in *.
  destruct (Qlt_le_dec (count vals) (mx - mn + 1)) as [Hlt|Hle].
  - destruct (Hgap Hlt) as (p & -> & Hp0 & Herr).
    pose proof (pow2_pos (-51)) as H51.
    assert (0 < L)%Q as HL.
    { destruct (Qlt_le_dec 0 L) as [H|H]; [exact H|].
      assert (L * Float64.pow2 (-51) <= 0 * Float64.pow2 (-51))%Q as H1
        by (apply Qmult_le_compat_r; lra).
      lra. }
    rewrite Q.max_r by lra. cbn [value_of].
    split; [|exact Herr].
    split; [intros H; lra | discriminate].
  - rewrite (Hfull Hle).
    assert (L <= 0)%Q as HL.
    { unfold L. assert ((mx - mn + 1 - count vals) / (mx - mn + 1) <= 0)%Q
        by (apply Qle_shift_div_r; lra).
      lra. }
    rewrite Q.max_l by exact HL. cbn [value_of]. change (inject_Z 0) with 0%Q.
    split; [split; reflexivity | split; lra].
Qed.

Lemma packet_loss_matches_documented_formula_witness :
  exists loss : stat,
    Py.dict_get "packet_loss" (basic_stats Exact.reductions (loaded gap_example))
    = Some loss
    /\ (- (documented_loss (5 - 0 + 1) 5 * Float64.pow2 (-51))
        <= value_of loss - documented_loss (5 - 0 + 1) 5
        <= documented_loss (5 - 0 + 1) 5 * Float64.pow2 (-51))%Q.
Proof.
  destruct (packet_loss_matches_documented_formula Exact.reductions
              (loaded gap_example) gap_example eq_refl eq_refl)
    as (loss & Hget & _ & Hform & _).
  exists loss. split; [exact Hget|].
  apply (Hform 5%Q 0%Q).
  - repeat (constructor; [eexists; split; [reflexivity | split; [discriminate | reflexivity]]|]).
    constructor.
  - split; [exists 5%Q; split; [vm_compute; tauto | reflexivity]|].
    intros y Hy. vm_compute in Hy.
    repeat (destruct Hy as [<-|Hy]; [vm_compute; congruence|]). destruct Hy.
  - split; [exists 0%Q; split; [vm_compute; tauto | reflexivity]|].
    intros y Hy. vm_compute in Hy.
    repeat (destruct Hy as [<-|Hy]; [vm_compute; congruence|]). destruct Hy.
Defined.

(** C1, the claim as stated fails.  On the sequence [0, 2^63 - 1], whose two
    values fit the int64 column that [read_csv] makes of them, the documented
    formula has [expected = 2^63] and a loss of nearly 100, while in the code
    [max - min + 1] wraps around to [-2^63], which is not positive: the entry
    is [0].  And on the sequence [0,1,2,4,5] the entry is not the [100/6] of
    the formula but the float that two roundings leave, a little below. *)
Lemma packet_loss_departs_from_documented_formula :
  has_column "seq" wrap_example = true
  /\ Py.dict_get "packet_loss" (basic_stats Exact.reductions (loaded wrap_example))
     = Some (SInt 0)
  /\ (99 < documented_loss (inject_Z (2 ^ 63 - 1) - 0 + 1)
             (count (dropna (column "seq" wrap_example))))%Q
  /\ (value_of (packet_loss_of (column "seq" gap_example))
      < documented_loss (5 - 0 + 1) (count (dropna (column "seq" gap_example))))%Q.
Proof.
  split; [reflexivity|]. split; [vm_compute; reflexivity|].
  split; vm_compute; reflexivity.
Qed.

(** C3 (as the code has it).  For every loaded table with an [rssi] (or
    [lat_us]) column whose entries are all missing, the block of that column
    holds every key of the statistics, each with the value NaN; nothing is
    raised, and [print_summary] prints the block. *)
Theorem all_missing_column_gives_nan_block
    (pandas : Reductions) (a : Analyzer) (t : Table) :
  df a = Some t ->
  (has_column "rssi" t = true -> all_missing (column "rssi" t) ->
   Py.dict_get "rssi_stats" (basic_stats pandas a)
   = Some (SBlock [("mean", NaN); ("std", NaN); ("min", NaN); ("max", NaN);
                   ("median", NaN)]))
  /\ (has_column "lat_us" t = true -> all_missing (column "lat_us" t) ->
      Py.dict_get "latency_stats" (basic_stats pandas a)
      = Some (SBlock [("mean_us", NaN); ("std_us", NaN); ("min_us", NaN);
                      ("max_us", NaN); ("median_us", NaN); ("p95_us", NaN);
                      ("p99_us", NaN)]))
  /\ (exists lines, print_summary pandas a = inr lines).
Proof.
  intros Ht. rewrite (basic_stats_entries pandas a t Ht).
  split; [|split].
  - intros Hcol Hmiss. rewrite Hcol. simpl.
    unfold rssi_block. rewrite (dropna_all_missing _ Hmiss). reflexivity.
  - intros Hcol Hmiss. rewrite Hcol. simpl.
    unfold latency_block. rewrite (dropna_all_missing _ Hmiss). reflexivity.
  - exact (print_summary_returns pandas a t Ht).
Qed.

Lemma all_missing_column_gives_nan_block_witness :
  Py.dict_get "rssi_stats" (basic_stats Exact.reductions (loaded all_missing_example))
  = Some (SBlock [("mean", NaN); ("std", NaN); ("min", NaN); ("max", NaN);
                  ("median", NaN)]).
Proof.
  apply (all_missing_column_gives_nan_block Exact.reductions
           (loaded all_missing_example) all_missing_example eq_refl).
  - reflexivity.
  - repeat constructor.
Defined.

(** C3, the claim as stated fails: the block of an all-missing [rssi] column
    is not the empty block, it has its five entries. *)
Lemma all_missing_block_is_not_empty :
  has_column "rssi" all_missing_example = true
  /\ all_missing (column "rssi" all_missing_example)
  /\ Py.dict_get "rssi_stats" (basic_stats Exact.reductions (loaded all_missing_example))
     <> Some (SBlock [])
  /\ print_summary Exact.reductions (loaded all_missing_example)
     = inr [Title; Dataset (SInt 2); RssiAnalysis NaN NaN NaN NaN NaN;
            LatencyAnalysis NaN NaN NaN NaN NaN NaN NaN; PacketLoss (SInt 0)].
Proof.
  split; [reflexivity|]. split; [repeat constructor|].
  split; [vm_compute; discriminate | reflexivity].
Qed.

(** C8 (as the code has it).  For every loaded table: [time_span] is [None]
    exactly when the table has no [timestamp] column; [rssi_stats] and
    [latency_stats] are the empty block exactly when the table has no [rssi]
    and no [lat_us] column; [total_samples] and [packet_loss] are always
    there, and [packet_loss] is [0] when the table has no [seq] column. *)
Theorem summary_entries_follow_columns
    (pandas : Reductions) (a : Analyzer) (t : Table) :
  df a = Some t ->
  (exists v, Py.dict_get "time_span" (basic_stats pandas a) = Some v
             /\ (v = SNone <-> has_column "timestamp" t = false))
  /\ (exists v, Py.dict_get "rssi_stats" (basic_stats pandas a) = Some v
                /\ (v = SBlock [] <-> has_column "rssi" t = false))
  /\ (exists v, Py.dict_get "latency_stats" (basic_stats pandas a) = Some v
                /\ (v = SBlock [] <-> has_column "lat_us" t = false))
  /\ Py.dict_get "total_samples" (basic_stats pandas a)
     = Some (SInt (Z.of_nat (length (body t))))
  /\ (exists v, Py.dict_get "packet_loss" (basic_stats pandas a) = Some v
                /\ v <> SNone
                /\ (has_column "seq" t = false -> v = SInt 0))
  /\ (exists lines v, print_summary pandas a = inr (lines ++ [PacketLoss v])).
Proof.
  intros Ht.
  assert (exists lines v, print_summary pandas a = inr (lines ++ [PacketLoss v])) as Hprint.
  { unfold print_summary. rewrite (basic_stats_entries pandas a t Ht).
    destruct (has_column "timestamp" t), (has_column "rssi" t),
      (has_column "lat_us" t); eexists; eexists; reflexivity. }
  rewrite (basic_stats_entries pandas a t Ht). simpl.
  repeat split; try exact Hprint.
  - eexists. split; [reflexivity|].
    destruct (has_column "timestamp" t); split; intros H; congruence.
  - eexists. split; [reflexivity|].
    destruct (has_column "rssi" t); split; intros H;
      try (unfold rssi_block in H); congruence.
  - eexists. split; [reflexivity|].
    destruct (has_column "lat_us" t); split; intros H;
      try (unfold latency_block in H); congruence.
  - eexists. split; [reflexivity|]. split.
    + destruct (has_column "seq" t); [|discriminate].
      destruct (packet_loss_of_cases (column "seq" t)) as [->|(q & -> & _)];
        discriminate.
    + intros H. rewrite H. reflexivity.
Qed.

Lemma summary_entries_follow_columns_witness :
  Py.dict_get "total_samples" (basic_stats Exact.reductions (loaded rssi_only_example))
  = Some (SInt 2).
Proof.
  exact (proj1 (proj2 (proj2 (proj2
           (summary_entries_follow_columns Exact.reductions
              (loaded rssi_only_example) rssi_only_example eq_refl))))).
Defined.

(** C8, the claim as stated fails: a table with no [seq] column has a
    [packet_loss] entry all the same, the one a table with a gapless [seq]
    column has, and [print_summary] prints it. *)
Lemma packet_loss_present_without_seq_column :
  has_column "seq" rssi_only_example = false
  /\ Py.dict_get "packet_loss" (basic_stats Exact.reductions (loaded rssi_only_example))
     = Some (SInt 0)
  /\ has_column "seq" single_example = true
  /\ Py.dict_get "packet_loss" (basic_stats Exact.reductions (loaded single_example))
     = Some (SInt 0)
  /\ (exists lines, print_summary Exact.reductions (loaded rssi_only_example)
                    = inr (lines ++ [PacketLoss (SInt 0)])).
Proof.
  repeat split; try reflexivity.
  eexists [_; _; _]. reflexivity.
Qed.

(** ** The decoder and the export of the collector *)

Section DecoderFacts.

Import Collect.

Lemma dict_get_set_eq {V : Type} (k : string) (v : V) (d : list (string * V)) :
  Py.dict_get k (Py.dict_set k v d) = Some v.
Proof.
  induction d as [|[k' v'] d IH]; simpl.
  - now rewrite String.eqb_refl.
  - destruct (String.eqb k k') eqn:E; simpl; rewrite E; [reflexivity | exact IH].
Qed.

Lemma dict_get_set_ne {V : Type} (k k0 : string) (v : V) (d : list (string * V)) :
  k0 <> k -> Py.dict_get k0 (Py.dict_set k v d) = Py.dict_get k0 d.
Proof.
  intros Hne. induction d as [|[k' v'] d IH]; simpl.
  - destruct (String.eqb k0 k) eqn:E; [|reflexivity].
    apply String.eqb_eq in E. contradiction.
  - destruct (String.eqb k k') eqn:E; simpl.
    + apply String.eqb_eq in E. subst k'.
      apply String.eqb_neq in Hne. now rewrite Hne.
    + now rewrite IH.
Qed.

Lemma dict_set_truthy (k : string) (v : pyval) (d : list (string * pyval)) :
  Py.truthy (PDict (Py.dict_set k v d)) = true.
Proof.
  destruct d as [|[k' v'] d]; simpl; [reflexivity|].
  destruct (String.eqb k k'); reflexivity.
Qed.

Variable json_loads : string -> loads_result.

(** What [parse_json_line] does, by the shape of the line. *)
Lemma parse_json_line_cases (line : string) (w : World) :
  parse_json_line json_loads line w =
    if String.eqb (Py.strip line) "" then (Ok None, w)
    else
      match json_loads (Py.strip line) with
      | Loaded (PDict d) =>
          (Ok (Some (PDict (Py.dict_set "timestamp" (PIso (clock w)) d))), w)
      | Loaded _ => (Raise TypeError, w)
      | JSONDecodeError e =>
          (Ok None, set_stdout (stdout w ++ [JsonParseError e (Py.strip line)]) w)
      end.
Proof.
  unfold parse_json_line.
  destruct (String.eqb (Py.strip line) ""); [reflexivity|].
  destruct (json_loads (Py.strip line)) as [v|e]; [|reflexivity].
  destruct v; reflexivity.
Qed.

(** A blank line gives no sample and prints nothing; a line the decoder
    refuses gives no sample and prints one diagnostic. *)
Lemma decoder_skips_blank_and_malformed (line : string) (w : World) :
  (Py.strip line = "" -> parse_json_line json_loads line w = (Ok None, w))
  /\ (forall e, Py.strip line <> "" -> json_loads (Py.strip line) = JSONDecodeError e ->
       exists w', parse_json_line json_loads line w = (Ok None, w')
                  /\ stdout w' = stdout w ++ [JsonParseError e (Py.strip line)]
                  /\ store w' = store w).
Proof.
  rewrite parse_json_line_cases. split.
  - intros ->. reflexivity.
  - intros e Hne He. apply String.eqb_neq in Hne. rewrite Hne, He.
    eexists. split; [reflexivity|]. split; reflexivity.
Qed.

(** A JSON text that is no object makes [parse_json_line] raise. *)
Lemma decoder_raises_on_non_object (line : string) (v : pyval) (w : World) :
  Py.strip line <> "" -> json_loads (Py.strip line) = Loaded v ->
  (forall d, v <> PDict d) ->
  parse_json_line json_loads line w = (Raise TypeError, w).
Proof.
  intros Hne Hv Hd. rewrite parse_json_line_cases.
  apply String.eqb_neq in Hne. rewrite Hne, Hv.
  destruct v; try reflexivity. exfalso. eapply Hd. reflexivity.
Qed.

End DecoderFacts.

Import Collect Fixtures.

(** C4.  For every write of an empty sequence of samples, [save_to_csv]
    returns [False] to its caller, raises nothing, tells [No data to save]
    and leaves the files as they were: no file appears at the target path. *)
Theorem save_of_empty_buffer_fails_and_writes_nothing
    (to_datetime : list (option pyval) -> datetime_result)
    (c : Collector) (filepath : string) (w : World) :
  default [] (store w !! data_buffer c) = [] ->
  exists w', save_to_csv to_datetime c filepath w = (Ok false, w')
             /\ files w' = files w
             /\ files w' !! filepath = files w !! filepath
             /\ stdout w' = stdout w ++ [NoDataToSave].
Proof.
  intros Hbuf. unfold save_to_csv, try_except, to_dataframe, bind, list_items.
  rewrite Hbuf. simpl. eexists. repeat split; reflexivity.
Qed.

Lemma save_of_empty_buffer_fails_and_writes_nothing_witness :
  exists w', save_to_csv Pandas.to_datetime (on_port steady_feed)
               "data/raw/session_001.csv" fresh = (Ok false, w')
             /\ files w' !! "data/raw/session_001.csv" = None.
Proof.
  destruct (save_of_empty_buffer_fails_and_writes_nothing Pandas.to_datetime
              (on_port steady_feed) "data/raw/session_001.csv" fresh eq_refl)
    as (w' & Hrun & _ & Hfile & _).
  exists w'. split; [exact Hrun|]. rewrite Hfile. reflexivity.
Defined.

(** C5, where the code departs from the claim: on the line [42], a JSON text
    that is no object, [parse_json_line] raises [TypeError]; the loop of
    [collect_data] does not catch it, and the run ends with the exception. *)
Theorem decoder_raises_on_number_line :
  (forall w, parse_json_line Json.loads number_line w = (Raise TypeError, w))
  /\ fst (collect_data Json.loads 5
            (on_port (fun _ => mkRead 1 (Data number_line))) None (Some 2) fresh)
     = Raise TypeError.
Proof.
  split; [|reflexivity].
  intros w. apply (decoder_raises_on_non_object Json.loads number_line (PInt 42)).
  - discriminate.
  - reflexivity.
  - discriminate.
Qed.

(** C7 (as the code has it).  Every sample the decoder produces is the
    object of the line with its [timestamp] set to the reading of the local
    clock at decode time, whatever [timestamp] the node sent; every other
    field of the line is carried through as it is, and no field is required. *)
Theorem sample_is_line_object_stamped_by_local_clock
    (json_loads : string -> loads_result) (line : string) (w w' : World) (sample : pyval) :
  parse_json_line json_loads line w = (Ok (Some sample), w') ->
  exists d,
    json_loads (Py.strip line) = Loaded (PDict d)
    /\ sample = PDict (Py.dict_set "timestamp" (PIso (clock w)) d)
    /\ record_get "timestamp" sample = Some (PIso (clock w))
    /\ (forall k, k <> "timestamp" -> record_get k sample = Py.dict_get k d)
    /\ w' = w.
Proof.
  rewrite parse_json_line_cases. intros H.
  destruct (String.eqb (Py.strip line) ""); [discriminate|].
  destruct (json_loads (Py.strip line)) as [v|e]; [|discriminate].
  destruct v; try discriminate.
  injection H as <- <-. exists d.
  split; [reflexivity|]. split; [reflexivity|]. split.
  - apply dict_get_set_eq.
  - split; [|reflexivity]. intros k Hk. simpl. now apply dict_get_set_ne.
Qed.

Lemma sample_is_line_object_stamped_by_local_clock_witness :
  record_get "timestamp"
    (PDict [("timestamp", PIso 0); ("seq", PInt 1)]) = Some (PIso (clock fresh)).
Proof.
  destruct (sample_is_line_object_stamped_by_local_clock Json.loads node_time_line
              fresh fresh (PDict [("timestamp", PIso 0); ("seq", PInt 1)]) eq_refl)
    as (d & _ & _ & Hstamp & _).
  exact Hstamp.
Defined.

(** C7, the claim as stated fails: the line [{}] gives a sample that has its
    time stamp and nothing else, neither [error] nor a measurement field. *)
Lemma sample_with_neither_error_nor_measurement :
  exists sample,
    parse_json_line Json.loads empty_object_line fresh = (Ok (Some sample), fresh)
    /\ record_get "timestamp" sample = Some (PIso 0)
    /\ record_get "error" sample = None
    /\ record_get "seq" sample = None
    /\ record_get "rssi" sample = None
    /\ record_get "lat_us" sample = None.
Proof.
  exists (PDict [("timestamp", PIso 0)]). repeat split; reflexivity.
Qed.

(** ** The collection loop *)

Section LoopFacts.

Import Feed.

Variable json_loads : string -> loads_result.
Variable c : Collector.
Variable conn : Serial.

(** One read and what it buffers, case by case. *)
Lemma read_sample_cases (start_time sample_count : Z) (w : World) :
  read_sample json_loads c conn start_time sample_count w =
    let ev := incoming conn (length (read_log w)) in
    let w0 := after_read (waited ev) w in
    match arrival ev with
    | Interrupt => (Raise KeyboardInterrupt, w0)
    | Lost => (Raise SerialException, w0)
    | Data text =>
        if String.eqb text "" then (Ok sample_count, w0)
        else if String.eqb (Py.strip text) "" then (Ok sample_count, w0)
        else
          match json_loads (Py.strip text) with
          | Loaded (PDict d) =>
              let sample := PDict (Py.dict_set "timestamp" (PIso (clock w0)) d) in
              let w1 := set_store (alter (fun xs => xs ++ [sample]) (data_buffer c)
                                         (store w0)) w0 in
              (Ok (sample_count + 1),
               if (sample_count + 1) mod 10 =? 0
               then set_stdout (stdout w1
                                ++ [Progress (sample_count + 1) (clock w1 - start_time)]) w1
               else w1)
          | Loaded _ => (Raise TypeError, w0)
          | JSONDecodeError e =>
              (Ok sample_count,
               set_stdout (stdout w0 ++ [JsonParseError e (Py.strip text)]) w0)
          end
    end.
Proof.
  unfold read_sample, bind, readline. fold (after_read (waited (incoming conn (length (read_log w)))) w).
  cbv zeta.
  destruct (arrival (incoming conn (length (read_log w)))) as [text| |]; try reflexivity.
  destruct (String.eqb text "") eqn:Et; simpl; [reflexivity|].
  rewrite parse_json_line_cases.
  destruct (String.eqb (Py.strip text) ""); [reflexivity|].
  destruct (json_loads (Py.strip text)) as [v|e]; [|reflexivity].
  destruct v; try reflexivity.
  rewrite dict_set_truthy. unfold list_append, when, bind, time_time, print, ret. simpl.
  destruct ((sample_count + 1) mod 10 =? 0); reflexivity.
Qed.

(** The loop has no [UnicodeDecodeError] to catch. *)
Lemma try_read_sample (start_time sample_count : Z) (w : World) :
  try_except (read_sample json_loads c conn start_time sample_count)
    is_unicode_error (ret sample_count) w
  = read_sample json_loads c conn start_time sample_count w.
Proof.
  unfold try_except. rewrite read_sample_cases. cbv zeta.
  destruct (arrival _) as [text| |]; try reflexivity.
  destruct (String.eqb text ""); [reflexivity|].
  destruct (String.eqb (Py.strip text) ""); [reflexivity|].
  destruct (json_loads _) as [v|e]; [|reflexivity].
  destruct v; reflexivity.
Qed.

(** One turn of the loop. *)
Lemma collect_loop_turn (fuel : nat) (duration max_samples : option Z)
    (start_time sample_count : Z) (w : World) :
  collect_loop json_loads (S fuel) c conn duration max_samples start_time sample_count w =
    if Py.truthy_num duration && (default 0 duration <=? clock w - start_time) then
      (Ok tt, set_stdout (stdout w ++ [DurationReached (default 0 duration)]) w)
    else if samples_reached max_samples sample_count then
      (Ok tt, set_stdout (stdout w ++ [SampleLimitReached (default 0 max_samples)]) w)
    else
      match read_sample json_loads c conn start_time sample_count w with
      | (Ok n, w') =>
          collect_loop json_loads fuel c conn duration max_samples start_time n w'
      | (Raise e, w') => (Raise e, w')
      | (Running, w') => (Running, w')
      end.
Proof.
  simpl. unfold bind, duration_reached.
  destruct (Py.truthy_num duration); simpl.
  - unfold bind, time_time, ret.
    destruct (default 0 duration <=? clock w - start_time); [reflexivity|].
    destruct (samples_reached max_samples sample_count); [reflexivity|].
    rewrite try_read_sample. reflexivity.
  - unfold ret.
    destruct (samples_reached max_samples sample_count); [reflexivity|].
    rewrite try_read_sample. reflexivity.
Qed.

Lemma appended_nil (b : nat) (st : list (list pyval)) : appended b [] st st.
Proof.
  unfold appended. symmetry. apply list_alter_id. intros x. apply app_nil_r.
Qed.

Lemma appended_trans (b : nat) (n1 n2 : list pyval) (s1 s2 s3 : list (list pyval)) :
  appended b n1 s1 s2 -> appended b n2 s2 s3 -> appended b (n1 ++ n2) s1 s3.
Proof.
  unfold appended. intros -> ->. rewrite list_alter_alter_eq.
  apply list_alter_ext; [|reflexivity]. intros x _. simpl. now rewrite app_assoc.
Qed.

Lemma appended_lookup (b : nat) (new old : list pyval) (s1 s2 : list (list pyval)) :
  appended b new s1 s2 -> s1 !! b = Some old ->
  s2 !! b = Some (old ++ new)
  /\ length s2 = length s1
  /\ (forall l, l <> b -> s2 !! l = s1 !! l).
Proof.
  unfold appended. intros -> Hold. split; [|split].
  - rewrite list_lookup_alter_eq, Hold. reflexivity.
  - apply length_alter.
  - intros l Hl. apply list_lookup_alter_ne. congruence.
Qed.

Lemma appended_lookup_length (b : nat) (new : list pyval) (s1 s2 : list (list pyval)) :
  appended b new s1 s2 -> length s2 = length s1.
Proof. unfold appended. intros ->. apply length_alter. Qed.

(** What one read changes: the clock, the log of the reads, and at most one
    sample more in the buffer. *)
Lemma read_sample_effect (start_time sample_count : Z) (w : World) :
  exists new,
    let r := read_sample json_loads c conn start_time sample_count w in
    read_log (snd r) = read_log w ++ [clock w]
    /\ clock (snd r) = clock w + waited (incoming conn (length (read_log w)))
    /\ files (snd r) = files w
    /\ appended (data_buffer c) new (store w) (store (snd r))
    /\ (length new <= 1)%nat
    /\ fst r <> Running
    /\ (forall n, fst r = Ok n -> n = sample_count + Z.of_nat (length new)).
Proof.
  rewrite read_sample_cases. cbv zeta.
  destruct (arrival _) as [text| |].
  2,3: exists []; simpl; repeat split;
       [apply appended_nil | lia | discriminate | discriminate].
  destruct (String.eqb text "").
  { exists []. simpl. repeat split; [apply appended_nil | lia | discriminate |].
    intros n [= <-]. lia. }
  destruct (String.eqb (Py.strip text) "").
  { exists []. simpl. repeat split; [apply appended_nil | lia | discriminate |].
    intros n [= <-]. lia. }
  destruct (json_loads _) as [v|e].
  2: { exists []. simpl. repeat split; [apply appended_nil | lia | discriminate |].
       intros n [= <-]. lia. }
  destruct v.
  1-7: exists []; simpl; repeat split;
       [apply appended_nil | lia | discriminate | discriminate].
  eexists [_]. simpl.
  destruct ((sample_count + 1) mod 10 =? 0); simpl;
    (repeat split; [lia | discriminate | intros n [= <-]; lia]).
Qed.

(** A read that delivers text the decoder returns on. *)
Lemma read_sample_benign (start_time sample_count : Z) (w : World) :
  benign json_loads (incoming conn (length (read_log w))) = true ->
  exists new w',
    read_sample json_loads c conn start_time sample_count w
    = (Ok (sample_count + Z.of_nat (length new)), w')
    /\ length new
       = (if sample_read json_loads (incoming conn (length (read_log w)))
          then 1 else 0)%nat
    /\ appended (data_buffer c) new (store w) (store w')
    /\ read_log w' = read_log w ++ [clock w]
    /\ clock w' = clock w + waited (incoming conn (length (read_log w))).
Proof.
  unfold benign, sample_read, harmless, gives_sample.
  rewrite read_sample_cases. cbv zeta.
  destruct (arrival _) as [text| |]; try discriminate.
  destruct (String.eqb text "") eqn:Et.
  { apply String.eqb_eq in Et. subst text. intros _. simpl.
    exists [], (after_read (waited (incoming conn (length (read_log w)))) w).
    rewrite Z.add_0_r. repeat split. apply appended_nil. }
  destruct (String.eqb (Py.strip text) "").
  { intros _. simpl. eexists [], _. rewrite Z.add_0_r. repeat split.
    apply appended_nil. }
  simpl. destruct (json_loads _) as [v|e].
  2: { intros _. eexists [], _. rewrite Z.add_0_r. repeat split.
       apply appended_nil. }
  destruct v; try discriminate. intros _.
  eexists [_], _. split; [reflexivity|].
  destruct ((sample_count + 1) mod 10 =? 0); repeat split.
Qed.

(** What a run of the loop changes, however it ends: samples are appended
    to the buffer, reads are logged, and every read was started with both
    limits still open. *)
Lemma collect_loop_effect (duration max_samples : option Z) (start_time : Z) (fuel : nat) :
  forall (sample_count : Z) (w : World),
  exists new ts,
    let r := collect_loop json_loads fuel c conn duration max_samples
               start_time sample_count w in
    appended (data_buffer c) new (store w) (store (snd r))
    /\ read_log (snd r) = read_log w ++ ts
    /\ files (snd r) = files w
    /\ (Py.truthy_num duration = true ->
        Forall (fun t => t - start_time < default 0 duration) ts)
    /\ (Py.truthy_num max_samples = true -> sample_count <= default 0 max_samples ->
        sample_count + Z.of_nat (length new) <= default 0 max_samples).
Proof.
  induction fuel as [|fuel IH]; intros sample_count w.
  - exists [], []. simpl. rewrite app_nil_r.
    repeat split; [apply appended_nil | constructor | lia].
  - rewrite collect_loop_turn.
    destruct (Py.truthy_num duration && (default 0 duration <=? clock w - start_time))
      eqn:Ed.
    { exists [], []. simpl. rewrite app_nil_r.
      repeat split; [apply appended_nil | constructor | lia]. }
    destruct (samples_reached max_samples sample_count) eqn:Es.
    { exists [], []. simpl. rewrite app_nil_r.
      repeat split; [apply appended_nil | constructor | lia]. }
    destruct (read_sample_effect start_time sample_count w)
      as (new1 & Hlog & _ & Hfiles & Happ & Hlen & Hrun & Hcount).
    cbv zeta in *.
    assert (Py.truthy_num duration = true -> clock w - start_time < default 0 duration)
      as Hopen.
    { intros Ht. rewrite Ht in Ed. simpl in Ed. lia. }
    assert (Py.truthy_num max_samples = true -> sample_count < default 0 max_samples)
      as Hroom.
    { intros Ht. unfold samples_reached in Es. rewrite Ht in Es. simpl in Es. lia. }
    destruct (read_sample json_loads c conn start_time sample_count w) as [[n|e|] w1];
      simpl in *.
    + specialize (Hcount n eq_refl). subst n.
      destruct (IH (sample_count + Z.of_nat (length new1)) w1)
        as (new2 & ts & Happ2 & Hlog2 & Hfiles2 & Hd2 & Hs2).
      cbv zeta in *. exists (new1 ++ new2), (clock w :: ts).
      split; [eapply appended_trans; eassumption|].
      split; [rewrite Hlog2, Hlog, <- app_assoc; reflexivity|].
      split; [congruence|]. split.
      * intros Ht. constructor; auto.
      * intros Ht Hle. rewrite length_app, Nat2Z.inj_add.
        specialize (Hroom Ht). specialize (Hs2 Ht). lia.
    + exists new1, [clock w]. repeat split; try assumption.
      * intros Ht. constructor; auto.
      * intros Ht Hle. specialize (Hroom Ht). lia.
    + contradiction.
Qed.

(** A limit of zero and no limit make the same loop. *)
Lemma collect_loop_zero_duration (max_samples : option Z) (start_time : Z) (fuel : nat) :
  forall (sample_count : Z) (w : World),
    collect_loop json_loads fuel c conn (Some 0) max_samples start_time sample_count w
    = collect_loop json_loads fuel c conn None max_samples start_time sample_count w.
Proof.
  induction fuel as [|fuel IH]; intros sample_count w; [reflexivity|].
  rewrite !collect_loop_turn. simpl.
  destruct (samples_reached max_samples sample_count); [reflexivity|].
  destruct (read_sample json_loads c conn start_time sample_count w) as [[n|e|] w1];
    [apply IH | reflexivity | reflexivity].
Qed.

Lemma collect_loop_zero_samples (duration : option Z) (start_time : Z) (fuel : nat) :
  forall (sample_count : Z) (w : World),
    collect_loop json_loads fuel c conn duration (Some 0) start_time sample_count w
    = collect_loop json_loads fuel c conn duration None start_time sample_count w.
Proof.
  induction fuel as [|fuel IH]; intros sample_count w; [reflexivity|].
  rewrite !collect_loop_turn. unfold samples_reached. simpl.
  destruct (Py.truthy_num duration && (default 0 duration <=? clock w - start_time));
    [reflexivity|].
  destruct (read_sample json_loads c conn start_time sample_count w) as [[n|e|] w1];
    [apply IH | reflexivity | reflexivity].
Qed.

(** With neither limit in force the loop does not end of itself. *)
Lemma collect_loop_unbounded (duration max_samples : option Z) (start_time : Z)
    (fuel : nat) :
  Py.truthy_num duration = false -> Py.truthy_num max_samples = false ->
  forall (sample_count : Z) (w : World),
    fst (collect_loop json_loads fuel c conn duration max_samples
           start_time sample_count w) <> Ok tt.
Proof.
  intros Hd Hs. induction fuel as [|fuel IH]; intros sample_count w; [discriminate|].
  rewrite collect_loop_turn. unfold samples_reached. rewrite Hd, Hs. simpl.
  destruct (read_sample json_loads c conn start_time sample_count w) as [[n|e|] w1];
    [apply IH | discriminate | discriminate].
Qed.

End LoopFacts.

Section RunFacts.

Import Feed.

Variable json_loads : string -> loads_result.
Variable c : Collector.
Variable conn : Serial.
Hypothesis connected : serial_conn c = Some conn.
Hypothesis opened : is_open conn = true.

Lemma announced_same (duration max_samples : option Z) (w : World) :
  clock (announced duration max_samples w) = clock w
  /\ read_log (announced duration max_samples w) = read_log w
  /\ store (announced duration max_samples w) = store w.
Proof.
  unfold announced, bind, when, print, ret.
  destruct (Py.truthy_num duration), (Py.truthy_num max_samples); repeat split.
Qed.

Lemma completed_same (start_time : Z) (w : World) :
  clock (completed c start_time w) = clock w
  /\ read_log (completed c start_time w) = read_log w
  /\ store (completed c start_time w)
     = store w ++ [default [] (store w !! data_buffer c)]
  /\ last (stdout (completed c start_time w))
     = Some (CollectionComplete (length (default [] (store w !! data_buffer c)))
               (clock w - start_time)).
Proof.
  unfold completed, bind, time_time, list_items, print, list_copy. simpl.
  repeat split. apply last_snoc.
Qed.

(** [collect_data] on an open port, by the way its loop ends. *)
Lemma collect_data_connected (fuel : nat) (duration max_samples : option Z) (w : World) :
  collect_data json_loads fuel c duration max_samples w =
    match collect_loop json_loads fuel c conn duration max_samples (clock w) 0
            (announced duration max_samples w) with
    | (Ok _, w') => (Ok (length (store w')), completed c (clock w) w')
    | (Raise e, w') =>
        if is_keyboard_interrupt e
        then (Ok (length (store w')),
              completed c (clock w) (set_stdout (stdout w' ++ [StoppedByUser]) w'))
        else (Raise e, w')
    | (Running, w') => (Running, w')
    end.
Proof.
  unfold collect_data. rewrite connected, opened.
  unfold announced, completed, bind, try_except, time_time, when, print, ret,
    list_items, list_copy.
  destruct (Py.truthy_num duration), (Py.truthy_num max_samples); simpl;
    match goal with
    | |- context [collect_loop ?j ?f ?cc ?cn ?d ?m ?st ?sc ?w0] =>
        destruct (collect_loop j f cc cn d m st sc w0) as [[[]|e|] w3]
    end; simpl; try reflexivity;
    destruct (is_keyboard_interrupt e); reflexivity.
Qed.

(** With neither limit in force and a port that only delivers text the
    decoder returns on, the loop is still running when the fuel is spent. *)
Lemma collect_loop_keeps_running (duration max_samples : option Z) (start_time : Z) :
  Py.truthy_num duration = false -> Py.truthy_num max_samples = false ->
  (forall j, benign json_loads (incoming conn j) = true) ->
  forall (fuel : nat) (sample_count : Z) (w : World),
    fst (collect_loop json_loads fuel c conn duration max_samples
           start_time sample_count w) = Running.
Proof.
  intros Hd Hs Hfeed. induction fuel as [|fuel IH]; intros sample_count w;
    [reflexivity|].
  rewrite collect_loop_turn. unfold samples_reached. rewrite Hd, Hs. simpl.
  destruct (read_sample_benign json_loads c conn start_time sample_count w
              (Hfeed _)) as (new & w' & Hrun & _).
  rewrite Hrun. apply IH.
Qed.

(** On a port whose reads take no time the clock stands still: a duration
    limit that is not reached is never reached, and with no sample limit the
    loop is still running when the fuel is spent. *)
Lemma collect_loop_on_still_clock (D : Z) (max_samples : option Z) (start_time : Z) :
  Py.truthy_num max_samples = false ->
  (forall j, benign json_loads (incoming conn j) = true
             /\ waited (incoming conn j) = 0) ->
  forall (fuel : nat) (sample_count : Z) (w : World),
    clock w - start_time < D ->
    fst (collect_loop json_loads fuel c conn (Some D) max_samples
           start_time sample_count w) = Running.
Proof.
  intros Hs Hfeed. induction fuel as [|fuel IH]; intros sample_count w Hclock;
    [reflexivity|].
  rewrite collect_loop_turn. unfold samples_reached. rewrite Hs.
  change (default 0 (Some D)) with D.
  assert ((D <=? clock w - start_time) = false) as -> by (apply Z.leb_gt; exact Hclock).
  rewrite andb_false_r. cbn [andb].
  destruct (read_sample_benign json_loads c conn start_time sample_count w
              (proj1 (Hfeed _))) as (new & w' & Hrun & _ & _ & _ & Hw').
  rewrite Hrun. apply IH. rewrite Hw', (proj2 (Hfeed _)). lia.
Qed.

(** The loop ends by the sample limit once the port has delivered enough
    samples, and has then buffered exactly what was missing. *)
Lemma collect_loop_by_samples (duration : option Z) (N start_time : Z) (k : nat) :
  Py.truthy_num duration = false -> 0 < N ->
  forall (sample_count : Z) (w : World),
    sample_count <= N ->
    (forall j, (j < k)%nat ->
       benign json_loads (incoming conn (length (read_log w) + j)) = true) ->
    N - sample_count
    <= Z.of_nat (samples_in json_loads (incoming conn) (length (read_log w)) k) ->
    exists new w',
      (forall fuel, (k < fuel)%nat ->
         collect_loop json_loads fuel c conn duration (Some N)
           start_time sample_count w = (Ok tt, w'))
      /\ appended (data_buffer c) new (store w) (store w')
      /\ Z.of_nat (length new) = N - sample_count
      /\ last (stdout w') = Some (SampleLimitReached N).
Proof.
  intros Hd HN. induction k as [|k IH]; intros sample_count w Hle Hfeed Hcount.
  - simpl in Hcount. assert (sample_count = N) as -> by lia.
    exists [], (set_stdout (stdout w ++ [SampleLimitReached N]) w).
    split; [|split; [apply appended_nil | split; [simpl; lia | apply last_snoc]]].
    intros [|fuel] Hfuel; [lia|]. rewrite collect_loop_turn. rewrite Hd. simpl.
    unfold samples_reached. simpl.
    destruct (N =? 0) eqn:E0; [lia|]. destruct (N <=? N) eqn:E1; [|lia].
    reflexivity.
  - destruct (Z.eq_dec sample_count N) as [->|Hne].
    + exists [], (set_stdout (stdout w ++ [SampleLimitReached N]) w).
      split; [|split; [apply appended_nil | split; [simpl; lia | apply last_snoc]]].
      intros [|fuel] Hfuel; [lia|]. rewrite collect_loop_turn. rewrite Hd. simpl.
      unfold samples_reached. simpl.
      destruct (N =? 0) eqn:E0; [lia|]. destruct (N <=? N) eqn:E1; [|lia].
      reflexivity.
    + assert (benign json_loads (incoming conn (length (read_log w))) = true) as Hb.
      { specialize (Hfeed 0%nat). rewrite Nat.add_0_r in Hfeed. apply Hfeed. lia. }
      destruct (read_sample_benign json_loads c conn start_time sample_count w Hb)
        as (new1 & w1 & Hrun & Hlen & Happ & Hlog & _).
      simpl in Hcount.
      assert (length (read_log w1) = S (length (read_log w))) as Hidx
        by (rewrite Hlog, length_app; simpl; lia).
      destruct (IH (sample_count + Z.of_nat (length new1)) w1)
        as (new2 & w2 & Hloop & Happ2 & Hlen2 & Hlast).
      * rewrite Hlen. destruct (sample_read _ _); simpl; lia.
      * intros j Hj. rewrite Hidx.
        replace (S (length (read_log w)) + j)%nat
          with (length (read_log w) + S j)%nat by lia.
        apply Hfeed. lia.
      * rewrite Hidx, Hlen. destruct (sample_read _ _); simpl in *; lia.
      * exists (new1 ++ new2), w2.
        split; [|split; [eapply appended_trans; eassumption | split; [|exact Hlast]]].
        -- intros [|fuel] Hfuel; [lia|]. rewrite collect_loop_turn. rewrite Hd. simpl.
           unfold samples_reached. simpl.
           destruct (N <=? sample_count) eqn:E1; [lia|].
           rewrite andb_false_r. rewrite Hrun. apply Hloop. lia.
        -- rewrite length_app, Nat2Z.inj_add. lia.
Qed.

(** The loop ends by the duration limit once the reads have blocked for
    long enough, within one read of the limit. *)
Lemma collect_loop_by_duration (D T : Z) (max_samples : option Z) (start_time : Z)
    (k : nat) :
  0 < D -> Py.truthy_num max_samples = false ->
  forall (sample_count : Z) (w : World),
    clock w - start_time < D + T ->
    (forall j, (j < k)%nat ->
       benign json_loads (incoming conn (length (read_log w) + j)) = true
       /\ waited (incoming conn (length (read_log w) + j)) <= T) ->
    D - (clock w - start_time)
    <= waited_in (incoming conn) (length (read_log w)) k ->
    exists w',
      (forall fuel, (k < fuel)%nat ->
         collect_loop json_loads fuel c conn (Some D) max_samples
           start_time sample_count w = (Ok tt, w'))
      /\ D <= clock w' - start_time < D + T
      /\ last (stdout w') = Some (DurationReached D).
Proof.
  intros HD Hs. induction k as [|k IH]; intros sample_count w Hlt Hfeed Hsum.
  - simpl in Hsum.
    exists (set_stdout (stdout w ++ [DurationReached D]) w).
    split; [|split; [simpl; lia | apply last_snoc]].
    intros [|fuel] Hfuel; [lia|]. rewrite collect_loop_turn. simpl.
    destruct (D =? 0) eqn:E0; [lia|]. simpl.
    destruct (D <=? clock w - start_time) eqn:E1; [reflexivity | lia].
  - destruct (Z_le_gt_dec D (clock w - start_time)) as [Hge|Hgt].
    + exists (set_stdout (stdout w ++ [DurationReached D]) w).
      split; [|split; [simpl; lia | apply last_snoc]].
      intros [|fuel] Hfuel; [lia|]. rewrite collect_loop_turn. simpl.
      destruct (D =? 0) eqn:E0; [lia|]. simpl.
      destruct (D <=? clock w - start_time) eqn:E1; [reflexivity | lia].
    + destruct (Hfeed 0%nat ltac:(lia)) as [Hb HT]. rewrite Nat.add_0_r in Hb, HT.
      destruct (read_sample_benign json_loads c conn start_time sample_count w Hb)
        as (new1 & w1 & Hrun & _ & _ & Hlog & Hclock).
      simpl in Hsum.
      assert (length (read_log w1) = S (length (read_log w))) as Hidx
        by (rewrite Hlog, length_app; simpl; lia).
      destruct (IH (sample_count + Z.of_nat (length new1)) w1)
        as (w2 & Hloop & Hbound & Hlast).
      * rewrite Hclock. lia.
      * intros j Hj. rewrite Hidx.
        replace (S (length (read_log w)) + j)%nat
          with (length (read_log w) + S j)%nat by lia.
        apply Hfeed. lia.
      * rewrite Hidx, Hclock. lia.
      * exists w2. split; [|split; assumption].
        intros [|fuel] Hfuel; [lia|]. rewrite collect_loop_turn. simpl.
        destruct (D =? 0) eqn:E0; [lia|]. simpl.
        destruct (D <=? clock w - start_time) eqn:E1; [lia|].
        unfold samples_reached. rewrite Hs. simpl.
        rewrite Hrun. apply Hloop. lia.
Qed.

End RunFacts.

(** What a call of [collect_data] that returns has done: it appended the new
    samples to the buffer, as many as the sample limit allows at most, and
    made one new list object, the copy of the whole buffer. *)
Lemma collect_data_effect (json_loads : string -> loads_result) (fuel : nat)
    (c : Collector) (duration max_samples : option Z) (w : World) :
  exists new,
    (forall r w', collect_data json_loads fuel c duration max_samples w = (Ok r, w') ->
       r = length (store w)
       /\ files w' = files w
       /\ exists s1, Feed.appended (data_buffer c) new (store w) s1
                     /\ store w' = s1 ++ [default [] (s1 !! data_buffer c)])
    /\ (Py.truthy_num max_samples = true -> 0 <= default 0 max_samples ->
        Z.of_nat (length new) <= default 0 max_samples).
Proof.
  unfold collect_data.
  destruct (serial_conn c) as [conn|];
    [|exists []; split; [discriminate | simpl; lia]].
  destruct (is_open conn);
    [|exists []; split; [discriminate | simpl; lia]].
  unfold bind at 1. unfold time_time at 1.
  unfold bind at 1. unfold print at 1.
  unfold bind at 1.
  destruct (when (Py.truthy_num duration) _ _) as [r1 w1] eqn:E1.
  assert (r1 = Ok tt /\ store w1 = store w /\ files w1 = files w) as (-> & Hs1 & Hf1).
  { unfold when, print, ret in E1. destruct (Py.truthy_num duration);
      injection E1 as <- <-; repeat split. }
  unfold bind at 1.
  destruct (when (Py.truthy_num max_samples) _ _) as [r2 w2] eqn:E2.
  assert (r2 = Ok tt /\ store w2 = store w /\ files w2 = files w) as (-> & Hs2 & Hf2).
  { unfold when, print, ret in E2. destruct (Py.truthy_num max_samples);
      injection E2 as <- <-; repeat split; simpl; congruence. }
  destruct (collect_loop_effect json_loads c conn duration max_samples (clock w) fuel 0 w2)
    as (new & ts & Happ & _ & Hfiles & _ & Hbound).
  cbv zeta in *. exists new. split; [|intros Ht Hn; specialize (Hbound Ht); lia].
  intros r w'. unfold bind at 1. unfold try_except.
  destruct (collect_loop json_loads fuel c conn duration max_samples (clock w) 0 w2)
    as [[[]|e|] w3]; simpl in *.
  - unfold bind, time_time, list_items, print, list_copy. simpl.
    intros [= <- <-]. simpl. rewrite Hs2 in Happ.
    split; [eapply appended_lookup_length; eassumption|].
    split; [congruence|]. exists (store w3). split; [assumption | reflexivity].
  - destruct (is_keyboard_interrupt e); [|discriminate].
    unfold bind, time_time, list_items, print, list_copy. simpl.
    intros [= <- <-]. simpl. rewrite Hs2 in Happ.
    split; [eapply appended_lookup_length; eassumption|].
    split; [congruence|]. exists (store w3). split; [assumption | reflexivity].
  - discriminate.
Qed.

(** The same, read on the objects of the store: the buffer has grown, the
    result is a new object with the content of the whole buffer, and the
    other objects are as they were. *)
Lemma collect_data_returns_copy (json_loads : string -> loads_result) (fuel : nat)
    (c : Collector) (duration max_samples : option Z) (w w' : World) (r : nat)
    (old : list pyval) :
  store w !! data_buffer c = Some old ->
  collect_data json_loads fuel c duration max_samples w = (Ok r, w') ->
  exists new,
    store w' !! data_buffer c = Some (old ++ new)
    /\ store w' !! r = Some (old ++ new)
    /\ r = length (store w)
    /\ length (store w') = S (length (store w))
    /\ (forall l, l <> data_buffer c -> (l < length (store w))%nat ->
         store w' !! l = store w !! l)
    /\ (Py.truthy_num max_samples = true -> 0 <= default 0 max_samples ->
        Z.of_nat (length new) <= default 0 max_samples)
    /\ files w' = files w.
Proof.
  intros Hold Hrun.
  destruct (collect_data_effect json_loads fuel c duration max_samples w)
    as (new & Heff & Hbound).
  destruct (Heff r w' Hrun) as (Hr & Hfiles & s1 & Happ & Hstore).
  destruct (appended_lookup _ _ _ _ _ Happ Hold) as (Hb & Hlen & Hother).
  assert (data_buffer c < length (store w))%nat as Hlt
    by (apply lookup_lt_is_Some; eauto).
  exists new. rewrite Hstore, Hb. simpl.
  split; [rewrite lookup_app_l by lia; exact Hb|].
  split; [rewrite Hr, <- Hlen, list_lookup_middle; reflexivity|].
  split; [exact Hr|].
  split; [rewrite length_app; simpl; lia|].
  split; [|split; assumption].
  intros l Hl Hlt'. rewrite lookup_app_l by lia. now apply Hother.
Qed.

(** C10.  The buffer belongs to the collector and no run clears it: a call
    of [collect_data] appends its samples to what the buffer holds and
    returns a new list with the content of the whole buffer; a second call
    on the same collector returns the samples of the first call too, and
    leaves the list the first call returned as it was.  The sample limit
    bounds the samples of one call only: two runs with the limit 2 return
    2 and then 4 samples. *)
Theorem buffer_is_kept_across_collection_runs
    (json_loads : string -> loads_result) (c : Collector) (fuel1 fuel2 : nat)
    (duration1 max_samples1 duration2 max_samples2 : option Z)
    (w w1 w2 : World) (r1 r2 : nat) (old : list pyval) :
  store w !! data_buffer c = Some old ->
  collect_data json_loads fuel1 c duration1 max_samples1 w = (Ok r1, w1) ->
  collect_data json_loads fuel2 c duration2 max_samples2 w1 = (Ok r2, w2) ->
  (exists new1 new2,
     store w1 !! data_buffer c = Some (old ++ new1)
     /\ store w1 !! r1 = Some (old ++ new1)
     /\ store w2 !! data_buffer c = Some (old ++ new1 ++ new2)
     /\ store w2 !! r2 = Some (old ++ new1 ++ new2)
     /\ store w2 !! r1 = Some (old ++ new1)
     /\ r1 <> data_buffer c /\ r2 <> data_buffer c /\ r1 <> r2
     /\ (forall N, max_samples2 = Some N -> 0 < N -> Z.of_nat (length new2) <= N))
  /\ (exists w', collect_twice 2 fresh = (Ok (1%nat, 2%nat), w')
                 /\ length <$> store w' !! 1%nat = Some 2%nat
                 /\ length <$> store w' !! 2%nat = Some 4%nat).
Proof.
  intros Hold Hrun1 Hrun2.
split;
  [|exists (snd (collect_twice 2 fresh));
    split; [|split]; vm_compute; reflexivity].
  destruct (collect_data_returns_copy _ _ _ _ _ _ _ _ _ Hold Hrun1)
    as (new1 & Hb1 & Hr1 & Hl1 & Hlen1 & _ & _ & _).
  destruct (collect_data_returns_copy _ _ _ _ _ _ _ _ _ Hb1 Hrun2)
    as (new2 & Hb2 & Hr2 & Hl2 & Hlen2 & Hother2 & Hbound2 & _).
  assert (data_buffer c < length (store w))%nat as Hlt
    by (apply lookup_lt_is_Some; eauto).
  exists new1, new2. rewrite <- app_assoc in Hb2, Hr2.
  repeat split; try assumption; try lia.
  - rewrite Hother2; [exact Hr1 | lia | lia].
  - intros N -> HN. apply Hbound2; simpl; [|lia].
    destruct (N =? 0) eqn:E; [lia | reflexivity].
Qed.

Lemma buffer_is_kept_across_collection_runs_witness :
  exists w1 w2 new1 new2,
    collect_data Json.loads 10 (on_port steady_feed) None (Some 2) fresh = (Ok 1%nat, w1)
    /\ store w2 !! 1%nat = Some ([] ++ new1)
    /\ store w2 !! 2%nat = Some ([] ++ new1 ++ new2).
Proof.
  destruct (collect_data Json.loads 10 (on_port steady_feed) None (Some 2) fresh)
    as [res1 w1] eqn:E1.
  assert (res1 = Ok 1%nat) as -> by (vm_compute in E1; congruence).
  destruct (collect_data Json.loads 10 (on_port steady_feed) None (Some 2) w1)
    as [res2 w2] eqn:E2.
  assert (res2 = Ok 2%nat) as ->.
  { assert (w1 = snd (collect_data Json.loads 10 (on_port steady_feed) None (Some 2) fresh))
      as Hw1 by (rewrite E1; reflexivity).
    rewrite Hw1 in E2. vm_compute in E2. congruence. }
  destruct (buffer_is_kept_across_collection_runs Json.loads (on_port steady_feed)
              10 10 None (Some 2) None (Some 2) fresh w1 w2 1 2 [] eq_refl E1 E2)
    as [(new1 & new2 & _ & _ & _ & H2 & H1 & _) _].
  exists w1, w2, new1, new2. repeat split; assumption.
Defined.
(** C9.  A limit of zero is no limit: [collect_data] with [max_samples = 0]
    (with [duration = 0]) runs, prints and returns exactly as it does with
    that limit not given; and with [max_samples = 0] and no duration the loop
    never ends by a limit, whatever the number of samples: it runs until an
    exception or the interrupt of the operator. *)
Theorem zero_limit_is_no_limit
    (json_loads : string -> loads_result) (fuel : nat) (c : Collector)
    (duration max_samples : option Z) (w : World) :
  collect_data json_loads fuel c duration (Some 0) w
  = collect_data json_loads fuel c duration None w
  /\ collect_data json_loads fuel c (Some 0) max_samples w
     = collect_data json_loads fuel c None max_samples w
  /\ (forall conn start_time sample_count,
        fst (collect_loop json_loads fuel c conn None (Some 0)
               start_time sample_count w) <> Ok tt)
  /\ (forall conn start_time sample_count,
        fst (collect_loop json_loads fuel c conn (Some 0) (Some 0)
               start_time sample_count w) <> Ok tt).
Proof.
  split; [|split; [|split]].
  - unfold collect_data. destruct (serial_conn c) as [conn|]; [|reflexivity].
    destruct (is_open conn); [|reflexivity].
    unfold bind, try_except, time_time, when. simpl.
    destruct (Py.truthy_num duration); simpl;
      rewrite collect_loop_zero_samples; reflexivity.
  - unfold collect_data. destruct (serial_conn c) as [conn|]; [|reflexivity].
    destruct (is_open conn); [|reflexivity].
    unfold bind, try_except, time_time, when. simpl.
    destruct (Py.truthy_num max_samples); simpl;
      rewrite collect_loop_zero_duration; reflexivity.
  - intros conn start_time sample_count. now apply collect_loop_unbounded.
  - intros conn start_time sample_count. now apply collect_loop_unbounded.
Qed.

(** C2 (as the code has it).  For every sample limit [N > 0]: the limit is
    tested before each read, so on any collector, with any port and any
    duration limit, a call of [collect_data] that returns has appended at
    most [N] samples to the buffer; and with no duration limit, on an open
    port that delivers only text the decoder returns on (text that is blank
    once stripped, that [json.loads] refuses with [JSONDecodeError], or that
    holds a JSON object) until [N] of its lines have held an object,
    [collect_data] returns, and has then appended exactly [N] samples (a
    buffer that was empty holds exactly [N]). *)
Theorem sample_limit_ends_run_with_exactly_N
    (json_loads : string -> loads_result) (c : Collector)
    (N : Z) (w : World) (old : list pyval) :
  store w !! data_buffer c = Some old ->
  0 < N ->
  (forall fuel duration r w',
     collect_data json_loads fuel c duration (Some N) w = (Ok r, w') ->
     exists new, store w' !! data_buffer c = Some (old ++ new)
                 /\ Z.of_nat (length new) <= N)
  /\ (forall (conn : Serial) (k : nat),
        serial_conn c = Some conn -> is_open conn = true ->
        (forall j, (j < k)%nat ->
           Feed.benign json_loads (incoming conn (length (read_log w) + j)) = true) ->
        N <= Z.of_nat (Feed.samples_in json_loads (incoming conn)
                         (length (read_log w)) k) ->
        exists r w' new,
          (forall fuel, (k < fuel)%nat ->
             collect_data json_loads fuel c None (Some N) w = (Ok r, w'))
          /\ store w' !! data_buffer c = Some (old ++ new)
          /\ store w' !! r = Some (old ++ new)
          /\ Z.of_nat (length new) = N).
Proof.
  intros Hold HN. split.
  - intros fuel duration r w' Hrun.
    destruct (collect_data_returns_copy _ _ _ _ _ _ _ _ _ Hold Hrun)
      as (new & Hb & _ & _ & _ & _ & Hbound & _).
    exists new. split; [exact Hb|]. apply Hbound; simpl; [|lia].
    destruct (N =? 0) eqn:E; [lia | reflexivity].
  - intros conn k Hconn Hopen Hfeed Hcount.
    destruct (announced_same None (Some N) w) as (Hclk & Hlog & Hst).
    destruct (collect_loop_by_samples json_loads c conn None N (clock w) k
                eq_refl HN 0 (Feed.announced None (Some N) w))
      as (new & w3 & Hloop & Happ & Hlen & _).
    + lia.
    + rewrite Hlog. exact Hfeed.
    + rewrite Hlog. lia.
    + rewrite Hst in Happ.
      destruct (appended_lookup _ _ _ _ _ Happ Hold) as (Hb & Hlen3 & _).
      destruct (completed_same c (clock w) w3) as (_ & _ & Hstore & _).
      assert (data_buffer c < length (store w3))%nat as Hlt
        by (apply lookup_lt_is_Some; eauto).
      exists (length (store w3)), (Feed.completed c (clock w) w3), new.
      split; [|split; [|split]].
      * intros fuel Hfuel.
        rewrite (collect_data_connected json_loads c conn Hconn Hopen).
        rewrite (Hloop fuel Hfuel). reflexivity.
      * rewrite Hstore, lookup_app_l by lia. exact Hb.
      * rewrite Hstore, Hb. simpl. apply list_lookup_middle. reflexivity.
      * lia.
Qed.

Lemma sample_limit_ends_run_with_exactly_N_witness :
  (exists r w' new,
     collect_data Json.loads 3 (on_port steady_feed) None (Some 2) fresh = (Ok r, w')
     /\ store w' !! 0%nat = Some ([] ++ new)
     /\ Z.of_nat (length new) = 2)
  /\ (exists new,
        store (snd (collect_data Json.loads 9 (on_port steady_feed) (Some 1) (Some 2) fresh))
          !! 0%nat = Some ([] ++ new)
        /\ Z.of_nat (length new) <= 2).
Proof.
  destruct (sample_limit_ends_run_with_exactly_N Json.loads (on_port steady_feed)
              2 fresh [] eq_refl) as [Hmost Hexact]; [lia|].
  split.
  - destruct (Hexact (mkSerial true steady_feed) 2%nat eq_refl eq_refl)
      as (r & w' & new & Hrun & Hb & _ & Hlen).
    + intros j _. reflexivity.
    + vm_compute. discriminate.
    + exists r, w', new. split; [apply Hrun; lia|]. split; assumption.
  - apply (Hmost 9%nat (Some 1) 1%nat). vm_compute. reflexivity.
Defined.

(** C2, the claim as stated fails: with the sample limit [0] the run on a
    port that delivers a sample at every read never returns, and after five
    reads the buffer holds five samples. *)
Lemma zero_sample_limit_never_completes :
  (forall fuel,
     fst (collect_data Json.loads fuel (on_port steady_feed) None (Some 0) fresh)
     = Running)
  /\ length <$> store (snd (collect_data Json.loads 5 (on_port steady_feed)
                              None (Some 0) fresh)) !! 0%nat
     = Some 5%nat.
Proof.
  split; [|reflexivity].
  intros fuel.
  rewrite (collect_data_connected Json.loads (on_port steady_feed)
             (mkSerial true steady_feed) eq_refl eq_refl).
  pose proof (collect_loop_keeps_running Json.loads (on_port steady_feed)
                (mkSerial true steady_feed) None (Some 0) (clock fresh)
                eq_refl eq_refl (fun _ => eq_refl) fuel 0
                (Feed.announced None (Some 0) fresh)) as Hrun.
  destruct (collect_loop _ _ _ _ _ _ _ _ _) as [[[]|e|] w3];
    simpl in Hrun; try discriminate. reflexivity.
Qed.

(** The reads block for at least one tick each. *)
Lemma waited_in_at_least (feed : nat -> ReadEvent) (k : nat) :
  forall i, (forall j, 1 <= waited (feed j)) ->
            Z.of_nat k <= Feed.waited_in feed i k.
Proof.
  induction k as [|k IH]; intros i Hpos; [simpl; lia|].
  cbn [Feed.waited_in]. specialize (IH (S i) Hpos). specialize (Hpos i). lia.
Qed.

(** C6 (as the code has it).  On a clock that advances only while
    [readline] blocks: for every duration limit [D] other than zero, the
    limit is tested before each read, and every read of the run was started
    with less than [D] elapsed, however the run ends.  When moreover [D] is
    positive, no sample limit is in force, every read delivers text the
    decoder returns on and blocks for at most the read timeout, and the reads
    block for at least [D] in all, then [collect_data] returns, and the time
    it reports is at least [D] and less than [D] plus the read timeout.  That
    is the case of a source that always has data ready, on which every read
    takes at least one tick of the clock and at most the read timeout: the
    run returns within [D] reads.  (A run whose reads take no time at all
    never sees the clock advance, and does not end.) *)
Theorem duration_limit_tested_before_each_read
    (json_loads : string -> loads_result) (c : Collector) (conn : Serial)
    (D : Z) (max_samples : option Z) (w : World) :
  serial_conn c = Some conn -> is_open conn = true -> D <> 0 ->
  (forall fuel, exists ts,
     read_log (snd (collect_data json_loads fuel c (Some D) max_samples w))
     = read_log w ++ ts
     /\ Forall (fun t => t - clock w < D) ts)
  /\ (forall k,
        0 < D -> 0 <= timeout c -> Py.truthy_num max_samples = false ->
        (forall j, (j < k)%nat ->
           Feed.benign json_loads (incoming conn (length (read_log w) + j)) = true
           /\ waited (incoming conn (length (read_log w) + j)) <= timeout c) ->
        D <= Feed.waited_in (incoming conn) (length (read_log w)) k ->
        exists r w' n,
          (forall fuel, (k < fuel)%nat ->
             collect_data json_loads fuel c (Some D) max_samples w = (Ok r, w'))
          /\ last (stdout w') = Some (CollectionComplete n (clock w' - clock w))
          /\ D <= clock w' - clock w < D + timeout c)
  /\ (0 < D -> Py.truthy_num max_samples = false ->
      (forall j, Feed.benign json_loads (incoming conn j) = true
                 /\ 1 <= waited (incoming conn j) <= timeout c) ->
      exists r w' n,
        (forall fuel, (Z.to_nat D < fuel)%nat ->
           collect_data json_loads fuel c (Some D) max_samples w = (Ok r, w'))
        /\ last (stdout w') = Some (CollectionComplete n (clock w' - clock w))
        /\ D <= clock w' - clock w < D + timeout c).
Proof.
  intros Hconn Hopen HD.
  destruct (announced_same (Some D) max_samples w) as (Hclk & Hlog & Hst).
  assert (forall k,
            0 < D -> 0 <= timeout c -> Py.truthy_num max_samples = false ->
            (forall j, (j < k)%nat ->
               Feed.benign json_loads (incoming conn (length (read_log w) + j)) = true
               /\ waited (incoming conn (length (read_log w) + j)) <= timeout c) ->
            D <= Feed.waited_in (incoming conn) (length (read_log w)) k ->
            exists r w' n,
              (forall fuel, (k < fuel)%nat ->
                 collect_data json_loads fuel c (Some D) max_samples w = (Ok r, w'))
              /\ last (stdout w') = Some (CollectionComplete n (clock w' - clock w))
              /\ D <= clock w' - clock w < D + timeout c) as Hlive.
  { intros k HDpos HT Hms Hfeed Hsum.
    destruct (collect_loop_by_duration json_loads c conn D (timeout c) max_samples
                (clock w) k HDpos Hms 0 (Feed.announced (Some D) max_samples w))
      as (w3 & Hloop & Hbound & _).
    + rewrite Hclk. lia.
    + rewrite Hlog. exact Hfeed.
    + rewrite Hlog, Hclk. lia.
    + destruct (completed_same c (clock w) w3) as (Hclk3 & _ & _ & Hlast).
      exists (length (store w3)), (Feed.completed c (clock w) w3),
        (length (default [] (store w3 !! data_buffer c))).
      split; [|split].
      * intros fuel Hfuel.
        rewrite (collect_data_connected json_loads c conn Hconn Hopen).
        rewrite (Hloop fuel Hfuel). reflexivity.
      * rewrite Hclk3. exact Hlast.
      * rewrite Hclk3. exact Hbound. }
  split; [|split].
  - intros fuel. rewrite (collect_data_connected json_loads c conn Hconn Hopen).
    destruct (collect_loop_effect json_loads c conn (Some D) max_samples (clock w) fuel 0
                (Feed.announced (Some D) max_samples w))
      as (new & ts & _ & Hlog3 & _ & Hbefore & _).
    cbv zeta in *. exists ts. split.
    + rewrite Hlog in Hlog3.
      destruct (collect_loop _ _ _ _ _ _ _ _ _) as [[[]|e|] w3]; simpl in *.
      * exact Hlog3.
      * destruct (is_keyboard_interrupt e); simpl; exact Hlog3.
      * exact Hlog3.
    + apply Hbefore. simpl. destruct (D =? 0) eqn:E; [lia | reflexivity].
  - exact Hlive.
  - intros HDpos Hms Hfeed.
    apply (Hlive (Z.to_nat D) HDpos); [|exact Hms| |].
    + destruct (Hfeed 0%nat) as [_ H]. lia.
    + intros j _. destruct (Hfeed (length (read_log w) + j)%nat) as [Hb H].
      split; [exact Hb | lia].
    + pose proof (waited_in_at_least (incoming conn) (Z.to_nat D) (length (read_log w))
                    (fun j => proj1 (proj2 (Hfeed j)))). lia.
Qed.

Lemma duration_limit_tested_before_each_read_witness :
  (exists r w' n,
     collect_data Json.loads 4 (on_port steady_feed) (Some 3) None fresh = (Ok r, w')
     /\ last (stdout w') = Some (CollectionComplete n (clock w' - clock fresh))
     /\ 3 <= clock w' - clock fresh < 3 + timeout (on_port steady_feed))
  /\ (exists ts,
        read_log (snd (collect_data Json.loads 4 (on_port steady_feed) (Some 3) None fresh))
        = read_log fresh ++ ts
        /\ Forall (fun t => t - clock fresh < 3) ts).
Proof.
  destruct (duration_limit_tested_before_each_read Json.loads (on_port steady_feed)
              (mkSerial true steady_feed) 3 None fresh eq_refl eq_refl)
    as (Hsafe & _ & Hready); [lia|].
  split; [|apply Hsafe].
  destruct Hready as (r & w' & n & Hrun & Hlast & Hbound).
  - lia.
  - reflexivity.
  - intros j. split; [reflexivity | vm_compute; split; discriminate].
  - exists r, w', n. split; [apply Hrun; vm_compute; lia|]. split; assumption.
Defined.

(** C6, the claim as stated fails: with the duration limit [0] the test is
    skipped; reads are started at every elapsed time from [0] on, none below
    the limit, and the run is still going after five of them. *)
Lemma zero_duration_limit_does_not_stop_reads :
  fst (collect_data Json.loads 5 (on_port steady_feed) (Some 0) None fresh) = Running
  /\ read_log (snd (collect_data Json.loads 5 (on_port steady_feed) (Some 0) None fresh))
     = [0; 1; 2; 3; 4]
  /\ clock fresh = 0.
Proof. repeat split. Qed.

(** C6, the clock: on a port whose reads take no time, text being ready at
    every read, no time passes, and a run with a duration limit [D > 0] and no
    sample limit is still going however much fuel it is given. *)
Lemma run_on_still_clock_does_not_end
    (json_loads : string -> loads_result) (c : Collector) (conn : Serial)
    (D : Z) (max_samples : option Z) (fuel : nat) (w : World) :
  serial_conn c = Some conn -> is_open conn = true ->
  0 < D -> Py.truthy_num max_samples = false ->
  (forall j, Feed.benign json_loads (incoming conn j) = true
             /\ waited (incoming conn j) = 0) ->
  fst (collect_data json_loads fuel c (Some D) max_samples w) = Running.
Proof.
  intros Hconn Hopen HD Hs Hfeed.
  rewrite (collect_data_connected json_loads c conn Hconn Hopen).
  pose proof (collect_loop_on_still_clock json_loads c conn D max_samples (clock w)
                Hs Hfeed fuel 0 (Feed.announced (Some D) max_samples w)) as Hrun.
  destruct (announced_same (Some D) max_samples w) as (Hclk & _).
  rewrite Hclk, Z.sub_diag in Hrun. specialize (Hrun HD).
  destruct (collect_loop _ _ _ _ _ _ _ _ _) as [[[]|e|] w']; simpl in Hrun;
    try discriminate.
  reflexivity.
Qed.

(** * Further properties of the analyzer *)

Section SummaryFacts.

Import Analyze Documented.
Local Open Scope Q_scope.

Lemma dropna_permutation (s1 s2 : Series) :
  Permutation s1 s2 -> Permutation (dropna s1) (dropna s2).
Proof.
  induction 1 as [|c s1 s2 _ IH|c1 c2 s|s1 s2 s3 _ IH1 _ IH2].
  - constructor.
  - destruct c; simpl; [now constructor | exact IH].
  - destruct c1, c2; simpl; try reflexivity. apply perm_swap.
  - etransitivity; eassumption.
Qed.

Lemma extremes_exist (x : Q) (r : list Q) :
  maximum (greatest x r) (x :: r) /\ minimum (least x r) (x :: r).
Proof.
  destruct (greatest_bounds r x) as (_ & _ & G3).
  destruct (least_bounds r x) as (_ & _ & L3).
  split; split.
  - exists (greatest x r). split; [exact G3 | reflexivity].
  - intros y Hy. now apply extremes_bound.
  - exists (least x r). split; [exact L3 | reflexivity].
  - intros y Hy. now apply extremes_bound.
Qed.

Lemma maximum_same_members (m : Q) (l1 l2 : list Q) :
  (forall y, In y l1 <-> In y l2) -> maximum m l1 -> maximum m l2.
Proof.
  intros Hin [[y [Hy Hm]] Hub]. split.
  - exists y. split; [now apply Hin | exact Hm].
  - intros z Hz. apply Hub. now apply Hin.
Qed.

Lemma minimum_same_members (m : Q) (l1 l2 : list Q) :
  (forall y, In y l1 <-> In y l2) -> minimum m l1 -> minimum m l2.
Proof.
  intros Hin [[y [Hy Hm]] Hlb]. split.
  - exists y. split; [now apply Hin | exact Hm].
  - intros z Hz. apply Hlb. now apply Hin.
Qed.

Lemma int64_column_permutation (s1 s2 : Series) :
  Permutation s1 s2 -> int64_column s1 = int64_column s2.
Proof.
  unfold int64_column.
  induction 1 as [|c s1 s2 _ IH|c1 c2 s|s1 s2 s3 _ IH1 _ IH2]; simpl.
  - reflexivity.
  - now rewrite IH.
  - now rewrite !andb_assoc, (andb_comm (match c2 with Some q => _ | None => _ end)).
  - now rewrite IH1.
Qed.

(** The estimate is that of any column with the same cells. *)
Lemma packet_loss_of_permutation (s1 s2 : Series) :
  Permutation s1 s2 -> packet_loss_of s1 = packet_loss_of s2.
Proof.
  intros Hp. pose proof (dropna_permutation _ _ Hp) as Hd.
  assert (length (sort_values (dropna s1)) = length (sort_values (dropna s2))) as Hlen.
  { rewrite !length_sort_values. now apply Permutation_length. }
  unfold packet_loss_of.
  rewrite (int64_column_permutation _ _ Hp), Hlen.
  destruct (sort_values (dropna s1)) as [|x1 r1] eqn:E1,
           (sort_values (dropna s2)) as [|x2 r2] eqn:E2; try discriminate Hlen.
  { reflexivity. }
  destruct (extremes_exist x1 r1) as [Hmx Hmn].
  assert (forall y, In y (x1 :: r1) <-> In y (dropna s2)) as Hin.
  { intros y. rewrite <- E1, In_sort_values. split; intros H.
    - eapply Permutation_in; eassumption.
    - eapply Permutation_in; [symmetry|]; eassumption. }
  destruct (extremes_of_sorted _ _ _ _ _ E2
              (maximum_same_members _ _ _ Hin Hmx)
              (minimum_same_members _ _ _ Hin Hmn)) as (Hg & Hl & _).
  rewrite (Qfloor_comp _ _ Hg), (Qfloor_comp _ _ Hl).
  rewrite (round_comp _ _ Hg), (round_comp _ _ Hl). reflexivity.
Qed.

End SummaryFacts.

Import Analyze Documented.

(** X1.  Whatever the table, the [packet_loss] entry of a summary is a
    percentage from 0 to 100; it is the int [0] or a positive float.  The
    float can be 100 itself: the sequence [0, 10^17] has two values present of
    the [10^17 + 1] expected, and the rounding of the division gives 1. *)
Theorem packet_loss_is_a_percentage
    (pandas : Reductions) (a : Analyzer) (v : stat) :
  Py.dict_get "packet_loss" (basic_stats pandas a) = Some v ->
  ((0 <= value_of v <= 100)%Q
   /\ (v = SInt 0 \/ exists q, v = SNum (Num q) /\ (0 < q)%Q))
  /\ (value_of (packet_loss_of (column "seq" far_example)) == 100)%Q.
Proof.
  intros Hv. split; [|vm_compute; reflexivity].
  assert (v = SInt 0 \/ exists q, v = SNum (Num q) /\ (0 < q <= 100)%Q) as Hc.
  { destruct (df a) as [t|] eqn:Ht.
    - rewrite (basic_stats_entries pandas a t Ht) in Hv. simpl in Hv.
      injection Hv as <-.
      destruct (has_column "seq" t); [apply packet_loss_of_cases | now left].
    - unfold basic_stats in Hv. rewrite Ht in Hv. discriminate. }
  destruct Hc as [->|(q & -> & Hq)].
  - split; [split; discriminate | now left].
  - split; [exact (conj (Qlt_le_weak _ _ (proj1 Hq)) (proj2 Hq))|].
    right. exists q. split; [reflexivity | exact (proj1 Hq)].
Qed.

Lemma packet_loss_is_a_percentage_witness :
  (0 <= value_of (packet_loss_of (column "seq" far_example)) <= 100)%Q.
Proof.
  assert (Py.dict_get "packet_loss" (basic_stats Exact.reductions (loaded far_example))
          = Some (packet_loss_of (column "seq" far_example))) as H
    by (vm_compute; reflexivity).
  exact (proj1 (proj1 (packet_loss_is_a_percentage Exact.reductions
                         (loaded far_example) _ H))).
Defined.

(** X2.  On a column of counters (whole numbers from 0, below [2^53]) the
    estimate is zero exactly when the number of sequence values present is at
    least [max - min + 1]: a repeated value makes up for a missing one. *)
Theorem packet_loss_zero_iff_count_fills_range (s : Series) (mx mn : Q) :
  counters (dropna s) -> maximum mx (dropna s) -> minimum mn (dropna s) ->
  (value_of (packet_loss_of s) == 0 <-> mx - mn + 1 <= count (dropna s))%Q.
Proof.
  intros Hc Hmx Hmn.
  destruct (packet_loss_of_counters s mx mn Hc Hmx Hmn) as (Hpos & Hfull & Hgap).
  destruct (Qlt_le_dec (count (dropna s)) (mx - mn + 1)) as [Hlt|Hle].
  - destruct (Hgap Hlt) as (p & -> & Hp0 & _). cbn [value_of].
    split; intros H; lra.
  - rewrite (Hfull Hle). split; [intros _; exact Hle | reflexivity].
Qed.

Lemma packet_loss_zero_iff_count_fills_range_witness :
  (value_of (packet_loss_of [Some 1; Some 1; None; Some 3]) == 0)%Q.
Proof.
  apply (packet_loss_zero_iff_count_fills_range [Some 1; Some 1; None; Some 3] 3 1)%Q.
  - repeat (constructor;
            [eexists; split; [reflexivity | split; [discriminate | reflexivity]]|]).
    constructor.
  - split; [exists 3%Q; split; [simpl; tauto | reflexivity]|].
    intros y Hy. simpl in Hy.
    repeat (destruct Hy as [<-|Hy]; [vm_compute; congruence|]). destruct Hy.
  - split; [exists 1%Q; split; [simpl; tauto | reflexivity]|].
    intros y Hy. simpl in Hy.
    repeat (destruct Hy as [<-|Hy]; [vm_compute; congruence|]). destruct Hy.
  - vm_compute. congruence.
Defined.

(** X3.  The estimate does not depend on the order of the rows: two columns
    with the same cells in any order give the same loss. *)
Theorem packet_loss_ignores_row_order (s1 s2 : Series) :
  Permutation s1 s2 ->
  (value_of (packet_loss_of s1) == value_of (packet_loss_of s2))%Q.
Proof.
  intros Hp. rewrite (packet_loss_of_permutation s1 s2 Hp). reflexivity.
Qed.

Lemma packet_loss_ignores_row_order_witness :
  (value_of (packet_loss_of [Some 4; None; Some 0; Some 1])
   == value_of (packet_loss_of [None; Some 0; Some 1; Some 4]))%Q.
Proof.
  apply packet_loss_ignores_row_order.
  apply (Permutation_trans (l' := [None; Some 4; Some 0; Some 1]%Q)).
  - apply perm_swap.
  - apply perm_skip. apply (Permutation_cons_append [Some 0; Some 1]%Q (Some 4%Q)).
Defined.

(** X5.  With a [timestamp] column the summary has a time span: NaN when no
    time stamp is present, otherwise a number of seconds that is never
    negative, and zero when a single time stamp is present. *)
Theorem time_span_is_never_negative
    (pandas : Reductions) (a : Analyzer) (t : Table) :
  df a = Some t -> has_column "timestamp" t = true ->
  exists d,
    Py.dict_get "time_span" (basic_stats pandas a) = Some (SSeconds d)
    /\ (dropna (column "timestamp" t) = [] -> d = NaN)
    /\ (dropna (column "timestamp" t) <> [] -> exists q, d = Num q /\ (0 <= q)%Q)
    /\ (forall x, dropna (column "timestamp" t) = [x] ->
          exists q, d = Num q /\ (q == 0)%Q).
Proof.
  intros Ht Hcol. rewrite (basic_stats_entries pandas a t Ht), Hcol. simpl.
  eexists. split; [reflexivity|]. unfold time_span_of.
  destruct (dropna (column "timestamp" t)) as [|x r].
  - split; [reflexivity|].
    split; [intros H; now contradiction H | intros y Hy; discriminate Hy].
  - split; [intros H; discriminate H|]. split.
    + intros _. eexists. split; [reflexivity|].
      destruct (extremes_bound x r x (or_introl eq_refl)). lra.
    + intros y [= -> ->]. eexists. split; [reflexivity|].
      unfold greatest, least. simpl. lra.
Qed.

Lemma time_span_is_never_negative_witness :
  exists d,
    Py.dict_get "time_span"
      (basic_stats Exact.reductions
         (loaded (mkTable ["timestamp"] [[Some (1700000000 # 1)]])))
    = Some (SSeconds d)
    /\ exists q, d = Num q /\ (q == 0)%Q.
Proof.
  destruct (time_span_is_never_negative Exact.reductions
              (loaded (mkTable ["timestamp"] [[Some (1700000000 # 1)]]))
              (mkTable ["timestamp"] [[Some (1700000000 # 1)]]) eq_refl eq_refl)
    as (d & Hget & _ & _ & Hone).
  exists d. split; [exact Hget|]. apply (Hone (1700000000 # 1)). reflexivity.
Defined.

(** X6.  [print_summary] needs a loaded table: with none it raises
    [KeyError] on the first key it reads of the empty summary; with one it
    returns, its first two lines the title and the number of rows, its last
    line the packet loss. *)
Theorem print_summary_needs_loaded_table (pandas : Reductions) (a : Analyzer) :
  (df a = None -> print_summary pandas a = inl (KeyError "total_samples"))
  /\ (forall t, df a = Some t ->
        exists lines v,
          print_summary pandas a
          = inr ([Title; Dataset (SInt (Z.of_nat (length (body t))))]
                 ++ lines ++ [PacketLoss v])).
Proof.
  split.
  - intros Hnone. unfold print_summary, basic_stats. rewrite Hnone. reflexivity.
  - intros t Ht. unfold print_summary. rewrite (basic_stats_entries pandas a t Ht).
    destruct (has_column "timestamp" t), (has_column "rssi" t),
      (has_column "lat_us" t);
      first [ eexists [_; _; _]; eexists; reflexivity
            | eexists [_; _]; eexists; reflexivity
            | eexists [_]; eexists; reflexivity
            | eexists []; eexists; reflexivity ].
Qed.

(** * Further properties of the collector *)

Section FrameFacts.

Import Collect.

(** Adding the keys of one record to the columns found so far. *)
Lemma add_keys_spec (ks : list string) :
  forall cols : list string,
    let cols' := fold_left (fun cols k => if existsb (String.eqb k) cols
                                          then cols else cols ++ [k]) ks cols in
    (forall k, In k cols' <-> In k cols \/ In k ks)
    /\ (NoDup cols -> NoDup cols')
    /\ (exists more, cols' = cols ++ more).
Proof.
  induction ks as [|k0 ks IH]; intros cols; simpl.
  - split; [intros k; tauto|]. split; [auto|]. exists []. now rewrite app_nil_r.
  - destruct (existsb (String.eqb k0) cols) eqn:E.
    + destruct (IH cols) as (Hin & Hnd & Hext). split; [|split; assumption].
      intros k. rewrite Hin. split; [tauto|]. intros [H|[<-|H]]; auto.
      left. apply existsb_exists in E. destruct E as (k' & Hk' & Heq).
      apply String.eqb_eq in Heq. now subst.
    + destruct (IH (cols ++ [k0])) as (Hin & Hnd & Hext). split; [|split].
      * intros k. rewrite Hin, in_app_iff. simpl. tauto.
      * intros Hc. apply Hnd. apply NoDup_app. split; [exact Hc|].
        split; [|repeat constructor; rewrite list_elem_of_In; simpl; tauto].
        intros x Hx Hx0. apply list_elem_of_In in Hx, Hx0.
        destruct Hx0 as [<-|[]].
        assert (existsb (String.eqb k0) cols = true) as Ht.
        { apply existsb_exists. exists k0. split; [exact Hx | apply String.eqb_refl]. }
        congruence.
      * destruct Hext as [more ->]. exists (k0 :: more). now rewrite <- app_assoc.
Qed.

(** The columns of a frame: every field name of every record, each once. *)
Lemma union_keys_spec (recs : list pyval) :
  (forall k, In k (union_keys recs) <-> exists r, In r recs /\ In k (record_keys r))
  /\ NoDup (union_keys recs).
Proof.
  unfold union_keys.
  assert (forall cols,
            let cols' := fold_left
                           (fun cols r =>
                              fold_left (fun cols k =>
                                           if existsb (String.eqb k) cols
                                           then cols else cols ++ [k])
                                        (record_keys r) cols) recs cols in
            (forall k, In k cols' <-> In k cols \/ exists r, In r recs /\ In k (record_keys r))
            /\ (NoDup cols -> NoDup cols')) as H.
  { induction recs as [|r recs IH]; intros cols; simpl.
    - split; [|auto]. intros k. split; [tauto|]. intros [H|(r & [] & _)]. exact H.
    - destruct (add_keys_spec (record_keys r) cols) as (Hin & Hnd & _).
      cbv zeta in *.
      match type of Hnd with _ -> NoDup ?t => set (cols1 := t) in * end.
      destruct (IH cols1) as (Hin' & Hnd').
      split; [|auto]. intros k. rewrite Hin', Hin. split.
      + intros [[H|H]|(r' & Hr' & Hk)]; [tauto | right; eauto | right; eauto].
      + intros [H|(r' & [<-|Hr'] & Hk)]; [tauto | tauto | right; eauto]. }
  destruct (H []) as (Hin & Hnd). split; [|apply Hnd; constructor].
  intros k. rewrite Hin. simpl. tauto.
Qed.

(** The place of a column. *)
Lemma column_index_lookup (name : string) (cols : list string) (j : nat) :
  column_index name cols = Some j -> cols !! j = Some name.
Proof.
  revert j. induction cols as [|n cols IH]; intros j H; [discriminate|].
  cbn [column_index] in H. destruct (String.eqb name n) eqn:E.
  - injection H as <-. apply String.eqb_eq in E. now subst.
  - destruct (column_index name cols) as [j'|]; [|discriminate].
    injection H as <-. simpl. now apply IH.
Qed.

Lemma column_index_exists (name : string) (cols : list string) :
  existsb (String.eqb name) cols = true -> exists j, column_index name cols = Some j.
Proof.
  induction cols as [|n cols IH]; [discriminate|].
  cbn [existsb column_index]. destruct (String.eqb name n); [eauto|].
  simpl. intros H. destruct (IH H) as [j ->]. eauto.
Qed.

Lemma column_index_none (name : string) (cols : list string) :
  existsb (String.eqb name) cols = false -> column_index name cols = None.
Proof.
  induction cols as [|n cols IH]; [reflexivity|].
  cbn [existsb column_index]. destruct (String.eqb name n); [discriminate|].
  simpl. intros H. now rewrite (IH H).
Qed.

Lemma set_column_columns (name : string) (cells : list (option pyval)) (df : DataFrame) :
  columns (set_column name cells df) = columns df.
Proof. unfold set_column. destruct (column_index name (columns df)); reflexivity. Qed.

Lemma set_column_length (name : string) (cells : list (option pyval)) (df : DataFrame) :
  length (rows (set_column name cells df)) = length (rows df).
Proof.
  unfold set_column. destruct (column_index name (columns df)); [|reflexivity].
  apply length_imap.
Qed.

Lemma set_column_empty (name : string) (cells : list (option pyval)) (df : DataFrame) :
  empty (set_column name cells df) = empty df.
Proof.
  unfold empty. rewrite set_column_columns.
  pose proof (set_column_length name cells df) as H.
  destruct (columns df); [reflexivity|].
  destruct (rows df), (rows (set_column name cells df)); try discriminate; reflexivity.
Qed.

(** The column of the time stamps of a frame holds the field of each record. *)
Lemma column_of_from_records (name : string) (buf : list pyval) :
  existsb (String.eqb name) (columns (from_records buf)) = true ->
  column_of name (from_records buf) = map (record_get name) buf.
Proof.
  intros H. destruct (column_index_exists _ _ H) as [j Hj].
  unfold column_of. rewrite Hj. apply column_index_lookup in Hj.
  unfold from_records in *. cbn [rows columns] in *.
  rewrite map_map. apply map_ext. intros r.
  rewrite list_lookup_fmap, Hj. reflexivity.
Qed.

End FrameFacts.

Import Collect Fixtures Session.

(** What [to_dataframe] gives: the world is left as it is. *)
Lemma to_dataframe_cases
    (to_datetime : list (option pyval) -> datetime_result)
    (c : Collector) (w : World) :
  to_dataframe to_datetime c w =
    (match default [] (store w !! data_buffer c) with
     | [] => Ok (mkDataFrame [] [])
     | r :: buf =>
         if existsb (String.eqb "timestamp") (columns (from_records (r :: buf))) then
           match to_datetime (map (record_get "timestamp") (r :: buf)) with
           | Stamps stamps => Ok (set_column "timestamp" stamps (from_records (r :: buf)))
           | Unreadable => Raise ValueError
           end
         else Ok (from_records (r :: buf))
     end, w).
Proof.
  unfold to_dataframe, bind, list_items, ret.
  destruct (default [] (store w !! data_buffer c)) as [|r buf]; [reflexivity|].
  destruct (existsb (String.eqb "timestamp") (columns (from_records (r :: buf)))) eqn:E;
    [|reflexivity].
  rewrite (column_of_from_records "timestamp" (r :: buf) E).
  destruct (to_datetime (map (record_get "timestamp") (r :: buf))); reflexivity.
Qed.

(** A frame [to_dataframe] returns is that of the records, but for the cells
    of the time stamps. *)
Lemma to_dataframe_returns
    (to_datetime : list (option pyval) -> datetime_result)
    (c : Collector) (w : World) (df : DataFrame) (w' : World) :
  to_dataframe to_datetime c w = (Ok df, w') ->
  w' = w
  /\ columns df = (match default [] (store w !! data_buffer c) with
                   | [] => []
                   | buf => columns (from_records buf)
                   end)
  /\ length (rows df) = length (default [] (store w !! data_buffer c))
  /\ empty df = empty (from_records (default [] (store w !! data_buffer c))).
Proof.
  rewrite to_dataframe_cases. intros H.
  destruct (default [] (store w !! data_buffer c)) as [|r buf].
  { injection H as <- <-. repeat split. }
  destruct (existsb _ _).
  - destruct (to_datetime _) as [stamps|]; [|discriminate].
    injection H as <- <-.
    rewrite set_column_columns, set_column_length, set_column_empty.
    repeat split. unfold from_records. cbn [rows]. apply length_map.
  - injection H as <- <-. repeat split. unfold from_records. cbn [rows]. apply length_map.
Qed.

(** X8.  [to_dataframe] leaves the world as it is.  When [pd.to_datetime]
    reads the time stamps of the buffer (or no record has one), it gives the
    table of the whole buffer: one row for each sample, in the order of the
    buffer; one column for each field name that some sample has, each name
    once; and in row [i], under a column [k] other than [timestamp], the field
    [k] of the [i]-th sample, or a missing cell when that sample has no such
    field; under [timestamp], the cell [pd.to_datetime] gave.  When
    [pd.to_datetime] refuses the time stamps, [to_dataframe] raises
    [ValueError]. *)
Theorem frame_has_row_per_sample_and_column_per_field
    (to_datetime : list (option pyval) -> datetime_result)
    (c : Collector) (w : World) :
  (exists df,
     to_dataframe to_datetime c w = (Ok df, w)
     /\ length (rows df) = length (default [] (store w !! data_buffer c))
     /\ NoDup (columns df)
     /\ (forall k, In k (columns df) <->
           exists r, In r (default [] (store w !! data_buffer c)) /\ In k (record_keys r))
     /\ (forall i j r k,
           default [] (store w !! data_buffer c) !! i = Some r ->
           columns df !! j = Some k ->
           exists row,
             rows df !! i = Some row
             /\ (k <> "timestamp" -> row !! j = Some (record_get k r))
             /\ (k = "timestamp" ->
                 forall stamps cell,
                   to_datetime (map (record_get "timestamp")
                                  (default [] (store w !! data_buffer c)))
                   = Stamps stamps ->
                   stamps !! i = Some cell -> row !! j = Some cell)))
  \/ (exists r,
        to_dataframe to_datetime c w = (Raise ValueError, w)
        /\ In r (default [] (store w !! data_buffer c))
        /\ In "timestamp" (record_keys r)
        /\ to_datetime (map (record_get "timestamp")
                          (default [] (store w !! data_buffer c))) = Unreadable).
Proof.
  rewrite to_dataframe_cases.
  destruct (default [] (store w !! data_buffer c)) as [|r0 buf0] eqn:Ebuf.
  { left. exists (mkDataFrame [] []). split; [reflexivity|]. cbn [rows columns length].
    split; [reflexivity|]. split; [constructor|].
    split; [intros k; split; [intros [] | intros (r & [] & _)]|].
    intros i j r k Hr. rewrite lookup_nil in Hr. discriminate. }
  set (buf := r0 :: buf0) in *.
  destruct (union_keys_spec buf) as [Hin Hnd].
  assert (forall i j r k,
            buf !! i = Some r -> columns (from_records buf) !! j = Some k ->
            rows (from_records buf) !! i = Some (map (fun k => record_get k r) (union_keys buf))
            /\ map (fun k => record_get k r) (union_keys buf) !! j
               = Some (record_get k r)) as Hcell.
  { intros i j r k Hr Hk. unfold from_records in *. cbn [rows columns] in *.
    rewrite !list_lookup_fmap, Hr, Hk. split; reflexivity. }
  destruct (existsb (String.eqb "timestamp") (columns (from_records buf))) eqn:Ets.
  2:{ left. exists (from_records buf). split; [reflexivity|].
      split; [unfold from_records; cbn [rows]; apply length_map|].
      split; [exact Hnd|]. split; [exact Hin|].
      intros i j r k Hr Hk. destruct (Hcell i j r k Hr Hk) as [Hrow Hc].
      eexists. split; [exact Hrow|]. split; [intros _; exact Hc|].
      intros -> stamps cell _ _. exfalso.
      assert (existsb (String.eqb "timestamp") (columns (from_records buf)) = true) as Ht.
      { apply existsb_exists. exists "timestamp". split; [|reflexivity].
        apply list_elem_of_In. eapply list_elem_of_lookup_2. exact Hk. }
      congruence. }
  destruct (column_index_exists _ _ Ets) as [j0 Hj0].
  pose proof (column_index_lookup _ _ _ Hj0) as Hname.
  destruct (to_datetime (map (record_get "timestamp") buf)) as [stamps|] eqn:Etd.
  2:{ right. apply existsb_exists in Ets. destruct Ets as (k & Hk & Heq).
      apply String.eqb_eq in Heq. subst k. apply Hin in Hk. destruct Hk as (r & Hr & Hkey).
      exists r. repeat split; assumption. }
  left. exists (set_column "timestamp" stamps (from_records buf)).
  split; [reflexivity|].
  rewrite set_column_columns, set_column_length.
  split; [unfold from_records; cbn [rows]; apply length_map|].
  split; [exact Hnd|]. split; [exact Hin|].
  intros i j r k Hr Hk. destruct (Hcell i j r k Hr Hk) as [Hrow Hc].
  unfold set_column. rewrite Hj0. cbn [rows].
  rewrite list_lookup_imap, Hrow. cbn [fmap option_fmap option_map].
  eexists. split; [reflexivity|]. split.
  - intros Hne. assert (j0 <> j) as Hj.
    { intros ->. rewrite Hname in Hk. injection Hk as Hk. now apply Hne. }
    destruct (stamps !! i); [rewrite list_lookup_insert_ne by exact Hj|]; exact Hc.
  - intros -> stamps' cell Hst Hcellv. injection Hst as <-.
    assert (j0 = j) as <-.
    { unfold from_records in *. cbn [columns] in *.
      eapply NoDup_lookup; eauto. }
    rewrite Hcellv. apply list_lookup_insert_eq.
    apply lookup_lt_is_Some. eauto.
Qed.

Lemma from_records_not_empty (buf : list pyval) (r : pyval) (k : string) :
  In r buf -> In k (record_keys r) -> empty (from_records buf) = false.
Proof.
  intros Hr Hk. unfold empty, from_records. simpl.
  destruct (union_keys_spec buf) as [Hin _].
  destruct (union_keys buf) as [|k0 ks] eqn:E.
  - exfalso. apply (Hin k). eauto.
  - destruct buf; [destruct Hr | reflexivity].
Qed.

(** [save_to_csv], by what [to_dataframe] gives. *)
Lemma save_to_csv_cases
    (to_datetime : list (option pyval) -> datetime_result)
    (c : Collector) (filepath : string) (w : World) :
  save_to_csv to_datetime c filepath w =
    match fst (to_dataframe to_datetime c w) with
    | Ok df =>
        if empty df then (Ok false, set_stdout (stdout w ++ [NoDataToSave]) w)
        else if decide (filepath ∈ locked w)
             then (Ok false, set_stdout (stdout w ++ [SaveFailed]) w)
             else (Ok true,
                   set_stdout (stdout w ++ [DataSaved filepath (length (rows df))])
                     (set_files (<[filepath := df]> (files w)) w))
    | Raise e =>
        if is_exception e then (Ok false, set_stdout (stdout w ++ [SaveFailed]) w)
        else (Raise e, w)
    | Running => (Running, w)
    end.
Proof.
  rewrite to_dataframe_cases. cbn [fst].
  unfold save_to_csv, try_except. unfold bind at 1. rewrite to_dataframe_cases.
  destruct (default [] (store w !! data_buffer c)) as [|r buf];
    [|destruct (existsb _ _); [destruct (to_datetime _)|]];
    try reflexivity;
    (match goal with |- context [empty ?df] => destruct (empty df) end;
     unfold bind, to_csv, print, ret; [reflexivity|];
     destruct (decide (filepath ∈ locked w)); reflexivity).
Qed.

(** X9.  When the buffer holds a sample with a field, the system accepts the
    path and [pd.to_datetime] reads the time stamps, so that [to_dataframe]
    returns a table, [save_to_csv] returns [True]: the file at the path now
    holds that table, a row for each sample of the buffer; the other files
    and the buffer are as they were, and the last message tells the path and
    the number of rows.  When [pd.to_datetime] refuses the time stamps,
    [to_dataframe] raises [ValueError] and [save_to_csv] returns [False],
    tells that the save failed, and writes no file, although the buffer holds
    samples and the path is free.  There is no third case. *)
Theorem save_writes_table_of_whole_buffer
    (to_datetime : list (option pyval) -> datetime_result)
    (c : Collector) (filepath : string) (w : World) (buf : list pyval)
    (r : pyval) (k : string) :
  store w !! data_buffer c = Some buf ->
  In r buf -> In k (record_keys r) ->
  filepath ∉ locked w ->
  (forall df,
     to_dataframe to_datetime c w = (Ok df, w) ->
     exists w',
       save_to_csv to_datetime c filepath w = (Ok true, w')
       /\ files w' !! filepath = Some df
       /\ (forall other, other <> filepath -> files w' !! other = files w !! other)
       /\ length (rows df) = length buf
       /\ store w' = store w
       /\ last (stdout w') = Some (DataSaved filepath (length buf)))
  /\ (to_dataframe to_datetime c w = (Raise ValueError, w) ->
      exists w',
        save_to_csv to_datetime c filepath w = (Ok false, w')
        /\ files w' = files w
        /\ store w' = store w
        /\ last (stdout w') = Some SaveFailed)
  /\ ((exists df, to_dataframe to_datetime c w = (Ok df, w))
      \/ (to_dataframe to_datetime c w = (Raise ValueError, w)
          /\ In "timestamp" (union_keys buf)
          /\ to_datetime (map (record_get "timestamp") buf) = Unreadable)).
Proof.
  intros Hbuf Hr Hk Hfree. split; [|split].
  - intros df Hdf.
    destruct (to_dataframe_returns _ _ _ _ _ Hdf) as (_ & _ & Hlen & Hempty).
    rewrite Hbuf in Hlen, Hempty. cbn [default from_option id] in Hlen, Hempty.
    rewrite (from_records_not_empty buf r k Hr Hk) in Hempty.
    rewrite save_to_csv_cases, Hdf. cbn [fst]. rewrite Hempty.
    destruct (decide (filepath ∈ locked w)) as [Hin|_]; [contradiction|].
    eexists. split; [reflexivity|]. simpl.
    split; [apply lookup_insert_eq|].
    split; [intros other Hne; now apply lookup_insert_ne|].
    split; [exact Hlen|]. split; [reflexivity|].
    rewrite Hlen. apply last_snoc.
  - intros He. rewrite save_to_csv_cases, He.
    cbn [fst is_exception is_keyboard_interrupt negb].
    eexists. split; [reflexivity|]. simpl. repeat split. apply last_snoc.
  - rewrite to_dataframe_cases, Hbuf. cbn [default from_option id].
    destruct buf as [|r0 buf0]; [left; eauto|].
    destruct (existsb (String.eqb "timestamp") (columns (from_records (r0 :: buf0)))) eqn:E;
      [|left; eauto].
    destruct (to_datetime _) as [stamps|]; [left; eauto|].
    right. split; [reflexivity|]. split; [|reflexivity].
    apply existsb_exists in E. destruct E as (k' & Hk' & Heq).
    apply String.eqb_eq in Heq. now subst k'.
Qed.

Lemma save_writes_table_of_whole_buffer_witness :
  (exists df w',
     to_dataframe Pandas.to_datetime (on_port steady_feed)
       (mkWorld 0 [] [] [[PDict [("error", PStr "pong_timeout"); ("timestamp", PIso 3)]]] ∅ ∅)
     = (Ok df, mkWorld 0 [] [] [[PDict [("error", PStr "pong_timeout");
                                        ("timestamp", PIso 3)]]] ∅ ∅)
     /\ save_to_csv Pandas.to_datetime (on_port steady_feed) "data/raw/session_001.csv"
          (mkWorld 0 [] [] [[PDict [("error", PStr "pong_timeout"); ("timestamp", PIso 3)]]] ∅ ∅)
        = (Ok true, w')
     /\ files w' !! "data/raw/session_001.csv" = Some df)
  /\ (exists w',
        save_to_csv Pandas.to_datetime (on_port steady_feed) "data/raw/session_001.csv"
          (mkWorld 0 [] [] [[PDict [("seq", PInt 0); ("timestamp", PIso 1000000)];
                             PDict [("seq", PInt 1); ("timestamp", PIso 1500000)]]] ∅ ∅)
        = (Ok false, w')
        /\ files w' = ∅
        /\ last (stdout w') = Some SaveFailed).
Proof.
  split.
  - destruct (save_writes_table_of_whole_buffer Pandas.to_datetime (on_port steady_feed)
                "data/raw/session_001.csv"
                (mkWorld 0 [] [] [[PDict [("error", PStr "pong_timeout");
                                          ("timestamp", PIso 3)]]] ∅ ∅)
                [PDict [("error", PStr "pong_timeout"); ("timestamp", PIso 3)]]
                (PDict [("error", PStr "pong_timeout"); ("timestamp", PIso 3)])
                "timestamp" eq_refl) as (Hsaved & _ & _).
    + now left.
    + simpl. tauto.
    + apply not_elem_of_empty.
    + destruct (Hsaved _ eq_refl) as (w' & Hrun & Hfile & _).
      eexists _, w'. split; [reflexivity|]. split; assumption.
  - destruct (save_writes_table_of_whole_buffer Pandas.to_datetime (on_port steady_feed)
                "data/raw/session_001.csv"
                (mkWorld 0 [] [] [[PDict [("seq", PInt 0); ("timestamp", PIso 1000000)];
                                   PDict [("seq", PInt 1); ("timestamp", PIso 1500000)]]] ∅ ∅)
                [PDict [("seq", PInt 0); ("timestamp", PIso 1000000)];
                 PDict [("seq", PInt 1); ("timestamp", PIso 1500000)]]
                (PDict [("seq", PInt 0); ("timestamp", PIso 1000000)])
                "timestamp" eq_refl) as (_ & Hfailed & _).
    + now left.
    + simpl. tauto.
    + apply not_elem_of_empty.
    + destruct (Hfailed eq_refl) as (w' & Hrun & Hfile & _ & Hlast).
      exists w'. split; [exact Hrun|]. split; assumption.
Defined.

(** X10.  [save_to_csv] never raises: it returns [True] when it has written
    the file, which then holds the table [to_dataframe] gives, and [False],
    with the files as they were, when the table is empty, when the system
    refuses the path, or when [to_dataframe] raises; the buffer is kept in
    every case. *)
Theorem save_reports_its_outcome
    (to_datetime : list (option pyval) -> datetime_result)
    (c : Collector) (filepath : string) (w : World) :
  exists b w',
    save_to_csv to_datetime c filepath w = (Ok b, w')
    /\ store w' = store w
    /\ (b = true ->
        (filepath ∉ locked w)
        /\ exists df,
             to_dataframe to_datetime c w = (Ok df, w)
             /\ files w' = <[filepath := df]> (files w))
    /\ (b = false ->
        files w' = files w
        /\ (last (stdout w') = Some NoDataToSave \/ last (stdout w') = Some SaveFailed)).
Proof.
  rewrite save_to_csv_cases.
  pose proof (to_dataframe_cases to_datetime c w) as Hcases.
  destruct (to_dataframe to_datetime c w) as [res w0] eqn:Edf.
  assert (w0 = w) as -> by (injection Hcases as _ H; exact H).
  cbn [fst]. destruct res as [df|e|].
  - destruct (empty df).
    + exists false. eexists. split; [reflexivity|]. simpl.
      split; [reflexivity|]. split; [discriminate|].
      intros _. split; [reflexivity|]. left. apply last_snoc.
    + destruct (decide (filepath ∈ locked w)) as [Hin|Hout]; simpl.
      * exists false. eexists. split; [reflexivity|]. simpl.
        split; [reflexivity|]. split; [discriminate|].
        intros _. split; [reflexivity|]. right. apply last_snoc.
      * exists true. eexists. split; [reflexivity|]. simpl.
        split; [reflexivity|]. split; [|discriminate]. intros _.
        split; [exact Hout|]. exists df. split; reflexivity.
  - assert (e = ValueError) as ->.
    { injection Hcases as Hres.
      destruct (default [] (store w !! data_buffer c)); [discriminate|].
      destruct (existsb _ _); [|discriminate].
      destruct (to_datetime _); [discriminate|]. now injection Hres. }
    exists false. eexists. split; [reflexivity|]. simpl.
    split; [reflexivity|]. split; [discriminate|].
    intros _. split; [reflexivity|]. right. apply last_snoc.
  - exfalso. injection Hcases as Hres.
    destruct (default [] (store w !! data_buffer c)); [discriminate|].
    destruct (existsb _ _); [|discriminate].
    destruct (to_datetime _); discriminate.
Qed.

Section TraceFacts.

Import Feed.

Variable json_loads : string -> loads_result.
Variable c : Collector.
Variable conn : Serial.

Lemma tens_after_app (lo : Z) (n m : nat) :
  tens_after lo (n + m) = tens_after lo n ++ tens_after (lo + Z.of_nat n) m.
Proof.
  revert lo. induction n as [|n IH]; intros lo.
  - simpl. now rewrite Z.add_0_r.
  - cbn [Nat.add tens_after]. rewrite IH, <- app_assoc.
    replace (lo + 1 + Z.of_nat n) with (lo + Z.of_nat (S n)) by lia. reflexivity.
Qed.

Lemma tens_after_In (m lo : Z) (n : nat) :
  In m (tens_after lo n) <-> lo < m <= lo + Z.of_nat n /\ m mod 10 = 0.
Proof.
  revert lo. induction n as [|n IH]; intros lo.
  - simpl. lia.
  - cbn [tens_after]. rewrite in_app_iff, IH.
    destruct ((lo + 1) mod 10 =? 0) eqn:E; simpl.
    + apply Z.eqb_eq in E. split.
      * intros [[<-|[]]|H]; lia.
      * intros [H1 H2]. destruct (Z.eq_dec m (lo + 1)); [left; left; lia | right; lia].
    + apply Z.eqb_neq in E. split.
      * intros [[]|H]; lia.
      * intros [H1 H2]. right. split; [|exact H2].
        destruct (Z.eq_dec m (lo + 1)); [subst; contradiction | lia].
Qed.

Lemma stamp_of_stamped (t : Z) (d : list (string * pyval)) :
  stamp (PDict (Py.dict_set "timestamp" (PIso t) d)) = Some t.
Proof. unfold stamp. simpl. now rewrite dict_get_set_eq. Qed.

(** One read, with what it prints and the stamp of what it buffers. *)
Lemma read_sample_trace (start_time sample_count : Z) (w : World) :
  exists new msgs,
    let r := read_sample json_loads c conn start_time sample_count w in
    appended (data_buffer c) new (store w) (store (snd r))
    /\ clock (snd r) = clock w + waited (incoming conn (length (read_log w)))
    /\ Forall (fun s => stamp s = Some (clock (snd r))) new
    /\ stdout (snd r) = stdout w ++ msgs
    /\ progress_counts msgs = tens_after sample_count (length new)
    /\ fst r <> Running
    /\ (forall n, fst r = Ok n -> n = sample_count + Z.of_nat (length new)).
Proof.
  rewrite read_sample_cases. cbv zeta.
  destruct (arrival _) as [text| |].
  2,3: exists [], []; simpl; rewrite app_nil_r;
       repeat split; [apply appended_nil | constructor | discriminate | discriminate].
  destruct (String.eqb text "").
  { exists [], []. simpl. rewrite app_nil_r.
    repeat split; [apply appended_nil | constructor | discriminate |].
    intros n [= <-]. lia. }
  destruct (String.eqb (Py.strip text) "").
  { exists [], []. simpl. rewrite app_nil_r.
    repeat split; [apply appended_nil | constructor | discriminate |].
    intros n [= <-]. lia. }
  destruct (json_loads _) as [v|e].
  2: { exists [], [JsonParseError e (Py.strip text)]. simpl.
       repeat split; [apply appended_nil | constructor | discriminate |].
       intros n [= <-]. lia. }
  destruct v.
  1-7: exists [], []; simpl; rewrite app_nil_r;
       repeat split; [apply appended_nil | constructor | discriminate | discriminate].
  eexists [_]. cbn [length tens_after].
  destruct ((sample_count + 1) mod 10 =? 0); eexists; simpl;
    (split; [reflexivity|]); (split; [reflexivity|]);
    (split; [repeat constructor; apply stamp_of_stamped|]).
  - split; [reflexivity|]. split; [reflexivity|]. split; [discriminate|].
    intros n [= <-]. lia.
  - split; [symmetry; apply app_nil_r|]. split; [reflexivity|]. split; [discriminate|].
    intros n [= <-]. lia.
Qed.

(** A run of the loop, however it ends: a progress message for every tenth
    sample of the run, and samples stamped in the order of their arrival. *)
Lemma collect_loop_trace (duration max_samples : option Z) (start_time : Z) (fuel : nat) :
  forall (sample_count : Z) (w : World),
  exists new msgs ts,
    let r := collect_loop json_loads fuel c conn duration max_samples
               start_time sample_count w in
    appended (data_buffer c) new (store w) (store (snd r))
    /\ stdout (snd r) = stdout w ++ msgs
    /\ progress_counts msgs = tens_after sample_count (length new)
    /\ map stamp new = map Some ts
    /\ ((forall j, 0 <= waited (incoming conn j)) ->
        clock w <= clock (snd r)
        /\ StronglySorted Z.le ts
        /\ Forall (fun t => clock w <= t <= clock (snd r)) ts).
Proof.
  induction fuel as [|fuel IH]; intros sample_count w.
  - exists [], [], []. simpl. rewrite app_nil_r.
    repeat split; [apply appended_nil | lia | constructor | constructor].
  - rewrite collect_loop_turn.
    destruct (Py.truthy_num duration && (default 0 duration <=? clock w - start_time)).
    { eexists [], [_], []. simpl.
      repeat split; [apply appended_nil | lia | constructor | constructor]. }
    destruct (samples_reached max_samples sample_count).
    { eexists [], [_], []. simpl.
      repeat split; [apply appended_nil | lia | constructor | constructor]. }
    destruct (read_sample_trace start_time sample_count w)
      as (new1 & msgs1 & Happ & Hclk & Hst & Hout & Hprog & Hrun & Hcount).
    cbv zeta in *.
    assert (exists ts1, map stamp new1 = map Some ts1
                        /\ Forall (fun t => t = clock (snd (read_sample json_loads c conn
                                                     start_time sample_count w))) ts1)
      as (ts1 & Hts1 & Hall1).
    { clear -Hst. induction Hst as [|s l Hs _ (ts & Hts & Hall)].
      - exists []. split; constructor.
      - eexists (_ :: ts). simpl. rewrite Hs, Hts. split; [reflexivity|].
        constructor; [reflexivity | exact Hall]. }
    destruct (read_sample json_loads c conn start_time sample_count w) as [[n|e|] w1];
      simpl in *.
    + specialize (Hcount n eq_refl). subst n.
      destruct (IH (sample_count + Z.of_nat (length new1)) w1)
        as (new2 & msgs2 & ts2 & Happ2 & Hout2 & Hprog2 & Hts2 & Hmono2).
      cbv zeta in *. exists (new1 ++ new2), (msgs1 ++ msgs2), (ts1 ++ ts2).
      split; [eapply appended_trans; eassumption|].
      split; [rewrite Hout2, Hout, <- app_assoc; reflexivity|].
      split.
      { unfold progress_counts in *. rewrite omap_app, length_app, tens_after_app.
        now rewrite Hprog, Hprog2. }
      split; [rewrite !map_app; congruence|].
      intros Hw. destruct (Hmono2 Hw) as (Hc2 & Hs2 & Hb2).
      pose proof (Hw (length (read_log w))) as Hw0.
      split; [lia|]. split.
      * apply StronglySorted_app_2.
        -- intros x1 x2 Hx1 Hx2. rewrite Forall_forall in Hall1, Hb2.
           rewrite (Hall1 x1 Hx1). apply (Hb2 x2 Hx2).
        -- clear -Hall1. induction Hall1 as [|t l Ht Hl IHl]; constructor; auto.
           subst t. eapply Forall_impl; [exact Hl|]. intros t' ->. simpl. lia.
        -- exact Hs2.
      * apply Forall_app. split.
        -- eapply Forall_impl; [exact Hall1|]. intros t ->. simpl. lia.
        -- eapply Forall_impl; [exact Hb2|]. intros t Ht. simpl in *. lia.
    + exists new1, msgs1, ts1. repeat split; try assumption.
      * pose proof (H (length (read_log w))). lia.
      * clear -Hall1. induction Hall1 as [|t l Ht Hl IHl]; constructor; auto.
        subst t. eapply Forall_impl; [exact Hl|]. intros t' ->. simpl. lia.
      * pose proof (H (length (read_log w))) as Hw0.
        eapply Forall_impl; [exact Hall1|]. intros t ->. simpl. lia.
    + contradiction.
Qed.

End TraceFacts.

Section RunTrace.

Import Feed.

Variable json_loads : string -> loads_result.
Variable c : Collector.
Variable conn : Serial.
Hypothesis connected : serial_conn c = Some conn.
Hypothesis opened : is_open conn = true.

Lemma announced_stdout (duration max_samples : option Z) (w : World) :
  exists msgs, stdout (announced duration max_samples w) = stdout w ++ msgs
               /\ progress_counts msgs = [].
Proof.
  unfold announced, bind, when, print, ret.
  destruct (Py.truthy_num duration), (Py.truthy_num max_samples); simpl;
    rewrite <- ?app_assoc; eexists; (split; [reflexivity|]); reflexivity.
Qed.

(** A call of [collect_data] on an open port, however it ends. *)
Lemma collect_data_trace (fuel : nat) (duration max_samples : option Z)
    (w : World) (old : list pyval) :
  store w !! data_buffer c = Some old ->
  exists new ts,
    let r := collect_data json_loads fuel c duration max_samples w in
    store (snd r) !! data_buffer c = Some (old ++ new)
    /\ progress_counts (stdout (snd r))
       = progress_counts (stdout w) ++ tens_after 0 (length new)
    /\ map stamp new = map Some ts
    /\ ((forall j, 0 <= waited (incoming conn j)) ->
        clock w <= clock (snd r)
        /\ StronglySorted Z.le ts
        /\ Forall (fun t => clock w <= t <= clock (snd r)) ts).
Proof.
  intros Hold. rewrite (collect_data_connected json_loads c conn connected opened).
  destruct (announced_same duration max_samples w) as (Hclk & _ & Hst).
  destruct (announced_stdout duration max_samples w) as (msgs0 & Hout0 & Hp0).
  destruct (collect_loop_trace json_loads c conn duration max_samples (clock w) fuel 0
              (announced duration max_samples w))
    as (new & msgs & ts & Happ & Hout & Hprog & Hts & Hmono).
  cbv zeta in *. rewrite Hst in Happ. rewrite Hclk in Hmono.
  destruct (appended_lookup _ _ _ _ _ Happ Hold) as (Hb & Hlen & _).
  assert (data_buffer c < length (store w))%nat as Hlt
    by (apply lookup_lt_is_Some; eauto).
  exists new, ts.
  destruct (collect_loop _ _ _ _ _ _ _ _ _) as [[[]|e|] w3]; simpl in *.
  - split; [rewrite lookup_app_l by lia; exact Hb|].
    split; [|split; [exact Hts | exact Hmono]].
    unfold progress_counts in *. rewrite Hout, Hout0, !omap_app, Hp0, Hprog.
    simpl. now rewrite !app_nil_r.
  - destruct (is_keyboard_interrupt e); simpl.
    + split; [rewrite lookup_app_l by lia; exact Hb|].
      split; [|split; [exact Hts | exact Hmono]].
      unfold progress_counts in *. rewrite Hout, Hout0, !omap_app, Hp0, Hprog.
      simpl. now rewrite !app_nil_r.
    + split; [exact Hb|]. split; [|split; [exact Hts | exact Hmono]].
      unfold progress_counts in *. rewrite Hout, Hout0, !omap_app, Hp0, Hprog.
      simpl. now rewrite !app_nil_r.
  - split; [exact Hb|]. split; [|split; [exact Hts | exact Hmono]].
    unfold progress_counts in *. rewrite Hout, Hout0, !omap_app, Hp0, Hprog.
    simpl. now rewrite !app_nil_r.
Qed.

End RunTrace.

(** X11.  On a port whose reads take no negative time, the samples a call
    of [collect_data] appends to the buffer each carry a time stamp of the
    local clock, taken between the start and the end of the call, and they
    stand in the buffer in the order of their stamps: arrival order is
    chronological order.  This holds however the call ends. *)
Theorem samples_are_stamped_in_arrival_order
    (json_loads : string -> loads_result) (c : Collector) (conn : Serial) (fuel : nat)
    (duration max_samples : option Z) (w w' : World) (res : Result nat)
    (old : list pyval) :
  serial_conn c = Some conn -> is_open conn = true ->
  store w !! data_buffer c = Some old ->
  (forall j, 0 <= waited (incoming conn j)) ->
  collect_data json_loads fuel c duration max_samples w = (res, w') ->
  exists new ts,
    store w' !! data_buffer c = Some (old ++ new)
    /\ map stamp new = map Some ts
    /\ StronglySorted Z.le ts
    /\ Forall (fun t => clock w <= t <= clock w') ts.
Proof.
  intros Hconn Hopen Hold Hwait Hrun.
  destruct (collect_data_trace json_loads c conn Hconn Hopen fuel duration max_samples
              w old Hold) as (new & ts & Hb & _ & Hts & Hmono).
  cbv zeta in *. rewrite Hrun in *. simpl in *.
  destruct (Hmono Hwait) as (_ & Hsorted & Hbounds).
  exists new, ts. repeat split; assumption.
Qed.

Lemma samples_are_stamped_in_arrival_order_witness :
  exists new ts,
    store (snd (collect_data Json.loads 4 (on_port steady_feed) None (Some 3) fresh)) !! 0%nat
    = Some ([] ++ new)
    /\ map stamp new = map Some ts
    /\ StronglySorted Z.le ts.
Proof.
  destruct (samples_are_stamped_in_arrival_order Json.loads (on_port steady_feed)
              (mkSerial true steady_feed) 4 None (Some 3) fresh
              (snd (collect_data Json.loads 4 (on_port steady_feed) None (Some 3) fresh))
              (fst (collect_data Json.loads 4 (on_port steady_feed) None (Some 3) fresh))
              [] eq_refl eq_refl eq_refl)
    as (new & ts & Hb & Hts & Hsorted & _).
  - intros j. simpl. lia.
  - apply surjective_pairing.
  - exists new, ts. repeat split; assumption.
Defined.

(** X12.  [collect_data] tells the progress once for every tenth sample of
    the call, counted from the start of the call and not from the size of the
    buffer: the counts of the progress messages it adds to the output are the
    multiples of ten up to the number of samples it appended, in order. *)
Theorem progress_is_told_every_tenth_sample
    (json_loads : string -> loads_result) (c : Collector) (conn : Serial) (fuel : nat)
    (duration max_samples : option Z) (w w' : World) (res : Result nat)
    (old : list pyval) :
  serial_conn c = Some conn -> is_open conn = true ->
  store w !! data_buffer c = Some old ->
  collect_data json_loads fuel c duration max_samples w = (res, w') ->
  exists new told,
    store w' !! data_buffer c = Some (old ++ new)
    /\ progress_counts (stdout w') = progress_counts (stdout w) ++ told
    /\ told = tens_after 0 (length new)
    /\ (forall m, In m told <-> 0 < m <= Z.of_nat (length new) /\ m mod 10 = 0).
Proof.
  intros Hconn Hopen Hold Hrun.
  destruct (collect_data_trace json_loads c conn Hconn Hopen fuel duration max_samples
              w old Hold) as (new & ts & Hb & Hprog & _).
  cbv zeta in *. rewrite Hrun in *. simpl in *.
  exists new, (tens_after 0 (length new)).
  split; [exact Hb|]. split; [exact Hprog|]. split; [reflexivity|].
  intros m. rewrite tens_after_In. lia.
Qed.

Lemma progress_is_told_every_tenth_sample_witness :
  exists new told,
    store (snd (collect_data Json.loads 30 (on_port steady_feed) None (Some 25) fresh))
      !! 0%nat = Some ([] ++ new)
    /\ progress_counts
         (stdout (snd (collect_data Json.loads 30 (on_port steady_feed) None (Some 25) fresh)))
       = progress_counts (stdout fresh) ++ told
    /\ told = tens_after 0 (length new).
Proof.
  destruct (progress_is_told_every_tenth_sample Json.loads (on_port steady_feed)
              (mkSerial true steady_feed) 30 None (Some 25) fresh
              (snd (collect_data Json.loads 30 (on_port steady_feed) None (Some 25) fresh))
              (fst (collect_data Json.loads 30 (on_port steady_feed) None (Some 25) fresh))
              [] eq_refl eq_refl eq_refl)
    as (new & told & Hb & Hprog & Htold & _).
  - apply surjective_pairing.
  - exists new, told. repeat split; assumption.
Defined.

Section AbnormalEnds.

Import Feed.

Variable json_loads : string -> loads_result.
Variable c : Collector.
Variable conn : Serial.
Hypothesis connected : serial_conn c = Some conn.
Hypothesis opened : is_open conn = true.

Lemma samples_in_succ (feed : nat -> ReadEvent) (i k : nat) :
  (samples_in json_loads feed i k <= samples_in json_loads feed i (S k))%nat.
Proof.
  revert i. induction k as [|k IH]; intros i.
  - simpl. lia.
  - specialize (IH (S i)). cbn [samples_in] in *. lia.
Qed.

(** The first [k] reads of a run that no limit stops and that deliver text
    the decoder returns on. *)
Lemma collect_loop_prefix (duration max_samples : option Z) (start_time : Z) (k : nat) :
  forall (sample_count : Z) (w : World),
    (forall j, (j < k)%nat ->
       benign json_loads (incoming conn (length (read_log w) + j)) = true) ->
    (Py.truthy_num duration = true ->
     forall j, (j < k)%nat ->
       clock w - start_time + waited_in (incoming conn) (length (read_log w)) j
       < default 0 duration) ->
    (Py.truthy_num max_samples = true ->
     sample_count + Z.of_nat (samples_in json_loads (incoming conn) (length (read_log w)) k)
     <= default 0 max_samples) ->
    (Py.truthy_num max_samples = true -> (0 < k)%nat ->
     sample_count + Z.of_nat (samples_in json_loads (incoming conn)
                                (length (read_log w)) (k - 1))
     < default 0 max_samples) ->
    exists new w1,
      (forall fuel,
         collect_loop json_loads (k + fuel) c conn duration max_samples
           start_time sample_count w
         = collect_loop json_loads fuel c conn duration max_samples
             start_time (sample_count + Z.of_nat (length new)) w1)
      /\ appended (data_buffer c) new (store w) (store w1)
      /\ length new = samples_in json_loads (incoming conn) (length (read_log w)) k
      /\ length (read_log w1) = (length (read_log w) + k)%nat
      /\ clock w1 = clock w + waited_in (incoming conn) (length (read_log w)) k.
Proof.
  induction k as [|k IH]; intros sample_count w Hfeed Hd Hs Hs'.
  - exists [], w. simpl. rewrite Z.add_0_r, Nat.add_0_r.
    repeat split; [apply appended_nil | lia].
  - assert (benign json_loads (incoming conn (length (read_log w))) = true) as Hb.
    { specialize (Hfeed 0%nat). rewrite Nat.add_0_r in Hfeed. apply Hfeed. lia. }
    destruct (read_sample_benign json_loads c conn start_time sample_count w Hb)
      as (new1 & w1 & Hrun & Hlen & Happ & Hlog & Hclock).
    assert (length (read_log w1) = S (length (read_log w))) as Hidx
      by (rewrite Hlog, length_app; simpl; lia).
    assert (length new1
            = samples_in json_loads (incoming conn) (length (read_log w)) 1) as Hlen1
      by (rewrite Hlen; simpl; lia).
    destruct (IH (sample_count + Z.of_nat (length new1)) w1)
      as (new2 & w2 & Hloop & Happ2 & Hlen2 & Hlog2 & Hclock2).
    + intros j Hj. rewrite Hidx.
      replace (S (length (read_log w)) + j)%nat
        with (length (read_log w) + S j)%nat by lia.
      apply Hfeed. lia.
    + intros Ht j Hj. rewrite Hidx, Hclock.
      specialize (Hd Ht (S j) ltac:(lia)). simpl in Hd. lia.
    + intros Ht. specialize (Hs Ht). rewrite Hidx, Hlen.
      cbn [samples_in] in Hs. destruct (sample_read _ _); simpl in *; lia.
    + intros Ht Hk. specialize (Hs' Ht ltac:(lia)). rewrite Hidx, Hlen.
      destruct k as [|k']; [lia|].
      replace (S (S k') - 1)%nat with (S k') in Hs' by lia.
      replace (S k' - 1)%nat with k' by lia.
      cbn [samples_in] in Hs'. destruct (sample_read _ _); simpl in *; lia.
    + exists (new1 ++ new2), w2.
      split; [|split; [eapply appended_trans; eassumption|split; [|split]]].
      * intros fuel. cbn [Nat.add]. rewrite collect_loop_turn.
        assert (Py.truthy_num duration
                && (default 0 duration <=? clock w - start_time) = false) as ->.
        { destruct (Py.truthy_num duration) eqn:Ed; [|reflexivity]. simpl.
          specialize (Hd eq_refl 0%nat ltac:(lia)). simpl in Hd. lia. }
        assert (samples_reached max_samples sample_count = false) as ->.
        { unfold samples_reached.
          destruct (Py.truthy_num max_samples) eqn:Em; [|reflexivity]. simpl.
          specialize (Hs' eq_refl ltac:(lia)). lia. }
        rewrite Hrun, Hloop. rewrite length_app, Nat2Z.inj_add, Z.add_assoc. reflexivity.
      * rewrite length_app, Hlen2, Hidx, Hlen. cbn [samples_in].
        destruct (sample_read _ _); reflexivity.
      * rewrite Hlog2, Hidx. lia.
      * rewrite Hclock2, Hclock, Hidx. cbn [waited_in]. lia.
Qed.

End AbnormalEnds.

Section AbnormalEndsOfRun.

Import Feed.

Variable json_loads : string -> loads_result.
Variable c : Collector.
Variable conn : Serial.
Hypothesis connected : serial_conn c = Some conn.
Hypothesis opened : is_open conn = true.

(** The run up to its read number [k], which no limit forestalls. *)
Lemma collect_data_up_to_read (duration max_samples : option Z) (k : nat)
    (w : World) (old : list pyval) :
  store w !! data_buffer c = Some old ->
  (forall j, (j < k)%nat ->
     benign json_loads (incoming conn (length (read_log w) + j)) = true) ->
  (Py.truthy_num duration = true ->
   forall j, (j <= k)%nat ->
     waited_in (incoming conn) (length (read_log w)) j < default 0 duration) ->
  (Py.truthy_num max_samples = true ->
   Z.of_nat (samples_in json_loads (incoming conn) (length (read_log w)) k)
   < default 0 max_samples) ->
  exists new w1,
    (forall fuel,
       collect_loop json_loads (k + S fuel) c conn duration max_samples (clock w) 0
         (announced duration max_samples w)
       = match read_sample json_loads c conn (clock w) (Z.of_nat (length new)) w1 with
         | (Ok n, w2) =>
             collect_loop json_loads fuel c conn duration max_samples (clock w) n w2
         | (Raise e, w2) => (Raise e, w2)
         | (Running, w2) => (Running, w2)
         end)
    /\ store w1 !! data_buffer c = Some (old ++ new)
    /\ length (store w1) = length (store w)
    /\ length new = samples_in json_loads (incoming conn) (length (read_log w)) k
    /\ length (read_log w1) = (length (read_log w) + k)%nat.
Proof.
  intros Hold Hfeed Hd Hs.
  destruct (announced_same duration max_samples w) as (Hclk & Hlog & Hst).
  destruct (collect_loop_prefix json_loads c conn duration max_samples (clock w) k 0
              (announced duration max_samples w))
    as (new & w1 & Hloop & Happ & Hlen & Hlog1 & Hclk1).
  - rewrite Hlog. exact Hfeed.
  - intros Ht j Hj. rewrite Hlog, Hclk. specialize (Hd Ht j ltac:(lia)). lia.
  - intros Ht. rewrite Hlog. specialize (Hs Ht). lia.
  - intros Ht Hk. rewrite Hlog. specialize (Hs Ht).
    pose proof (samples_in_succ json_loads (incoming conn) (length (read_log w)) (k - 1)).
    replace (S (k - 1)) with k in * by lia. lia.
  - rewrite Hst in Happ. rewrite Hlog in Hlen, Hlog1, Hclk1. rewrite Hclk in Hclk1.
    destruct (appended_lookup _ _ _ _ _ Happ Hold) as (Hb & Hlen1 & _).
    exists new, w1. split; [|repeat split; assumption].
    intros fuel. rewrite Hloop, Z.add_0_l, collect_loop_turn.
    assert (Py.truthy_num duration
            && (default 0 duration <=? clock w1 - clock w) = false) as ->.
    { destruct (Py.truthy_num duration) eqn:Ed; [|reflexivity]. simpl.
      specialize (Hd eq_refl k ltac:(lia)). lia. }
    assert (samples_reached max_samples (Z.of_nat (length new)) = false) as ->.
    { unfold samples_reached.
      destruct (Py.truthy_num max_samples) eqn:Em; [|reflexivity]. simpl.
      specialize (Hs eq_refl). lia. }
    reflexivity.
Qed.

(** The files and the paths the system refuses are no concern of a read,
    of the loop, or of [collect_data]. *)
Lemma read_sample_keeps_files (start_time sample_count : Z) (w : World) :
  files (snd (read_sample json_loads c conn start_time sample_count w)) = files w
  /\ locked (snd (read_sample json_loads c conn start_time sample_count w)) = locked w.
Proof.
  rewrite read_sample_cases. cbv zeta.
  destruct (arrival _) as [text| |]; try (split; reflexivity).
  destruct (String.eqb text ""); [split; reflexivity|].
  destruct (String.eqb (Py.strip text) ""); [split; reflexivity|].
  destruct (json_loads _) as [v|e]; [|split; reflexivity].
  destruct v; try (split; reflexivity).
  destruct ((sample_count + 1) mod 10 =? 0); split; reflexivity.
Qed.

Lemma collect_loop_keeps_files (duration max_samples : option Z) (start_time : Z)
    (fuel : nat) :
  forall (sample_count : Z) (w : World),
    files (snd (collect_loop json_loads fuel c conn duration max_samples
                  start_time sample_count w)) = files w
    /\ locked (snd (collect_loop json_loads fuel c conn duration max_samples
                      start_time sample_count w)) = locked w.
Proof.
  induction fuel as [|fuel IH]; intros sample_count w; [split; reflexivity|].
  rewrite collect_loop_turn.
  destruct (Py.truthy_num duration && _); [split; reflexivity|].
  destruct (samples_reached max_samples sample_count); [split; reflexivity|].
  pose proof (read_sample_keeps_files start_time sample_count w) as [Hf Hl].
  destruct (read_sample json_loads c conn start_time sample_count w) as [[n|e|] w1];
    simpl in *; [|split; assumption|split; assumption].
  destruct (IH n w1) as [Hf' Hl']. split; congruence.
Qed.

Lemma collect_data_keeps_files (fuel : nat) (duration max_samples : option Z) (w : World) :
  files (snd (collect_data json_loads fuel c duration max_samples w)) = files w
  /\ locked (snd (collect_data json_loads fuel c duration max_samples w)) = locked w.
Proof.
  rewrite (collect_data_connected json_loads c conn connected opened).
  pose proof (collect_loop_keeps_files duration max_samples (clock w) fuel 0
                (announced duration max_samples w)) as [Hf Hl].
  assert (files (announced duration max_samples w) = files w
          /\ locked (announced duration max_samples w) = locked w) as [Hf0 Hl0].
  { unfold announced, bind, when, print, ret.
    destruct (Py.truthy_num duration), (Py.truthy_num max_samples); split; reflexivity. }
  destruct (collect_loop _ _ _ _ _ _ _ _ _) as [[[]|e|] w3]; simpl in *.
  - split; congruence.
  - destruct (is_keyboard_interrupt e); simpl; split; congruence.
  - split; congruence.
Qed.

(** A run that the interrupt of the operator ends at its read number [k]. *)
Lemma run_ended_by_interrupt (duration max_samples : option Z) (k : nat)
    (w : World) (old : list pyval) :
  store w !! data_buffer c = Some old ->
  (forall j, (j < k)%nat ->
     benign json_loads (incoming conn (length (read_log w) + j)) = true) ->
  (Py.truthy_num duration = true ->
   forall j, (j <= k)%nat ->
     waited_in (incoming conn) (length (read_log w)) j < default 0 duration) ->
  (Py.truthy_num max_samples = true ->
   Z.of_nat (samples_in json_loads (incoming conn) (length (read_log w)) k)
   < default 0 max_samples) ->
  arrival (incoming conn (length (read_log w) + k)) = Interrupt ->
  exists w' new,
    (forall fuel, (k < fuel)%nat ->
       collect_data json_loads fuel c duration max_samples w
       = (Ok (length (store w)), w'))
    /\ store w' !! data_buffer c = Some (old ++ new)
    /\ store w' !! length (store w) = Some (old ++ new)
    /\ length new = samples_in json_loads (incoming conn) (length (read_log w)) k
    /\ In StoppedByUser (stdout w').
Proof.
  intros Hold Hfeed Hd Hs Hint.
  destruct (collect_data_up_to_read duration max_samples k w old
              Hold Hfeed Hd Hs) as (new & w1 & Hloop & Hb & Hlen1 & Hlen & Hlog1).
  set (w2 := after_read (waited (incoming conn (length (read_log w1)))) w1).
  assert (read_sample json_loads c conn (clock w) (Z.of_nat (length new)) w1
          = (Raise KeyboardInterrupt, w2)) as Hread.
  { rewrite read_sample_cases. cbv zeta. rewrite Hlog1, Hint. subst w2.
    rewrite Hlog1. reflexivity. }
  assert (data_buffer c < length (store w1))%nat as Hlt
    by (apply lookup_lt_is_Some; eauto).
  exists (completed c (clock w) (set_stdout (stdout w2 ++ [StoppedByUser]) w2)), new.
  split; [|split; [|split; [|split]]].
  - intros fuel Hfuel.
    rewrite (collect_data_connected json_loads c conn connected opened).
    replace fuel with (k + S (fuel - k - 1))%nat by lia.
    rewrite Hloop, Hread. simpl. now rewrite Hlen1.
  - simpl. rewrite lookup_app_l by lia. exact Hb.
  - simpl. rewrite Hb, <- Hlen1. simpl. apply list_lookup_middle. reflexivity.
  - exact Hlen.
  - simpl. apply in_or_app. left. apply in_or_app. right. now left.
Qed.

(** A run that an exception of its read number [k] ends. *)
Lemma run_ended_by_exception (duration max_samples : option Z) (k : nat)
    (w : World) (old : list pyval) (e : exn) :
  store w !! data_buffer c = Some old ->
  (forall j, (j < k)%nat ->
     benign json_loads (incoming conn (length (read_log w) + j)) = true) ->
  (Py.truthy_num duration = true ->
   forall j, (j <= k)%nat ->
     waited_in (incoming conn) (length (read_log w)) j < default 0 duration) ->
  (Py.truthy_num max_samples = true ->
   Z.of_nat (samples_in json_loads (incoming conn) (length (read_log w)) k)
   < default 0 max_samples) ->
  (arrival (incoming conn (length (read_log w) + k)) = Lost /\ e = SerialException)
  \/ (exists text, arrival (incoming conn (length (read_log w) + k)) = Data text
                   /\ harmless json_loads text = false /\ e = TypeError) ->
  exists w' new,
    (forall fuel, (k < fuel)%nat ->
       collect_data json_loads fuel c duration max_samples w = (Raise e, w'))
    /\ store w' !! data_buffer c = Some (old ++ new)
    /\ length (store w') = length (store w)
    /\ length new = samples_in json_loads (incoming conn) (length (read_log w)) k
    /\ is_exception e = true.
Proof.
  intros Hold Hfeed Hd Hs Hev.
  destruct (collect_data_up_to_read duration max_samples k w old
              Hold Hfeed Hd Hs) as (new & w1 & Hloop & Hb & Hlen1 & Hlen & Hlog1).
  set (w2 := after_read (waited (incoming conn (length (read_log w1)))) w1).
  assert (read_sample json_loads c conn (clock w) (Z.of_nat (length new)) w1
          = (Raise e, w2) /\ is_keyboard_interrupt e = false) as [Hread Hke].
  { rewrite read_sample_cases. cbv zeta. rewrite Hlog1. subst w2. rewrite Hlog1.
    destruct Hev as [[-> ->]|(text & -> & Hharm & ->)]; [split; reflexivity|].
    unfold harmless in Hharm.
    destruct (String.eqb text "") eqn:Et.
    { apply String.eqb_eq in Et. subst text. discriminate Hharm. }
    destruct (String.eqb (Py.strip text) ""); [discriminate Hharm|].
    simpl in Hharm. destruct (json_loads (Py.strip text)) as [v|msg];
      [|discriminate Hharm].
    destruct v; try discriminate Hharm; split; reflexivity. }
  exists w2, new. split; [|repeat split; try assumption].
  - intros fuel Hfuel.
    rewrite (collect_data_connected json_loads c conn connected opened).
    replace fuel with (k + S (fuel - k - 1))%nat by lia.
    rewrite Hloop, Hread, Hke. reflexivity.
  - unfold is_exception. now rewrite Hke.
Qed.

End AbnormalEndsOfRun.

(** X13.  An interrupt of the operator ends the run without loss: when the
    reads before it delivered text the decoder returns on and no limit was
    reached, [collect_data] returns (it does not raise), tells that the user
    stopped the collection, and both the buffer and the list it returns hold
    every sample that arrived before the interrupt. *)
Theorem interrupt_returns_samples_collected_so_far
    (json_loads : string -> loads_result) (c : Collector) (conn : Serial)
    (duration max_samples : option Z) (k : nat) (w : World) (old : list pyval) :
  serial_conn c = Some conn -> is_open conn = true ->
  store w !! data_buffer c = Some old ->
  (forall j, (j < k)%nat ->
     Feed.benign json_loads (incoming conn (length (read_log w) + j)) = true) ->
  (Py.truthy_num duration = true ->
   forall j, (j <= k)%nat ->
     Feed.waited_in (incoming conn) (length (read_log w)) j < default 0 duration) ->
  (Py.truthy_num max_samples = true ->
   Z.of_nat (Feed.samples_in json_loads (incoming conn) (length (read_log w)) k)
   < default 0 max_samples) ->
  arrival (incoming conn (length (read_log w) + k)) = Interrupt ->
  exists r w' new,
    (forall fuel, (k < fuel)%nat ->
       collect_data json_loads fuel c duration max_samples w = (Ok r, w'))
    /\ store w' !! data_buffer c = Some (old ++ new)
    /\ store w' !! r = Some (old ++ new)
    /\ length new = Feed.samples_in json_loads (incoming conn) (length (read_log w)) k
    /\ In StoppedByUser (stdout w').
Proof.
  intros Hconn Hopen Hold Hfeed Hd Hs Hint.
  destruct (run_ended_by_interrupt json_loads c conn Hconn Hopen duration max_samples
              k w old Hold Hfeed Hd Hs Hint)
    as (w' & new & Hrun & Hb & Hr & Hlen & Hmsg).
  exists (length (store w)), w', new. repeat split; assumption.
Qed.

Lemma interrupt_returns_samples_collected_so_far_witness :
  exists r w' new,
    collect_data Json.loads 3
      (on_port (fun i => match i with
                         | 2%nat => mkRead 1 Interrupt
                         | _ => mkRead 1 (Data measurement_line)
                         end)) (Some 60) None fresh = (Ok r, w')
    /\ store w' !! r = Some ([] ++ new)
    /\ length new = 2%nat.
Proof.
  destruct (interrupt_returns_samples_collected_so_far Json.loads
              (on_port (fun i => match i with
                                 | 2%nat => mkRead 1 Interrupt
                                 | _ => mkRead 1 (Data measurement_line)
                                 end))
              (mkSerial true (fun i => match i with
                                       | 2%nat => mkRead 1 Interrupt
                                       | _ => mkRead 1 (Data measurement_line)
                                       end))
              (Some 60) None 2 fresh [] eq_refl eq_refl eq_refl)
    as (r & w' & new & Hrun & _ & Hr & Hlen & _).
  - intros [|[|j]] Hj; [reflexivity | reflexivity | lia].
  - intros _ [|[|[|j]]] Hj; [vm_compute; reflexivity .. | lia].
  - discriminate.
  - reflexivity.
  - exists r, w', new. split; [apply Hrun; lia|]. split; [exact Hr|].
    rewrite Hlen. vm_compute. reflexivity.
Defined.

(** X14.  When the device is lost, or a line holds a JSON text that is no
    object, [collect_data] raises ([SerialException], [TypeError]) and
    returns no list; the samples that arrived before are still in the buffer
    of the collector, and no new list object was made. *)
Theorem exception_leaves_samples_in_buffer
    (json_loads : string -> loads_result) (c : Collector) (conn : Serial)
    (duration max_samples : option Z) (k : nat) (w : World) (old : list pyval)
    (e : exn) :
  serial_conn c = Some conn -> is_open conn = true ->
  store w !! data_buffer c = Some old ->
  (forall j, (j < k)%nat ->
     Feed.benign json_loads (incoming conn (length (read_log w) + j)) = true) ->
  (Py.truthy_num duration = true ->
   forall j, (j <= k)%nat ->
     Feed.waited_in (incoming conn) (length (read_log w)) j < default 0 duration) ->
  (Py.truthy_num max_samples = true ->
   Z.of_nat (Feed.samples_in json_loads (incoming conn) (length (read_log w)) k)
   < default 0 max_samples) ->
  (arrival (incoming conn (length (read_log w) + k)) = Lost /\ e = SerialException)
  \/ (exists text, arrival (incoming conn (length (read_log w) + k)) = Data text
                   /\ Feed.harmless json_loads text = false /\ e = TypeError) ->
  exists w' new,
    (forall fuel, (k < fuel)%nat ->
       collect_data json_loads fuel c duration max_samples w = (Raise e, w'))
    /\ store w' !! data_buffer c = Some (old ++ new)
    /\ length (store w') = length (store w)
    /\ length new = Feed.samples_in json_loads (incoming conn) (length (read_log w)) k.
Proof.
  intros Hconn Hopen Hold Hfeed Hd Hs Hev.
  destruct (run_ended_by_exception json_loads c conn Hconn Hopen duration max_samples
              k w old e Hold Hfeed Hd Hs Hev)
    as (w' & new & Hrun & Hb & Hlen1 & Hlen & _).
  exists w', new. repeat split; assumption.
Qed.

Lemma exception_leaves_samples_in_buffer_witness :
  exists w' new,
    collect_data Json.loads 3
      (on_port (fun i => match i with
                         | 2%nat => mkRead 1 Lost
                         | _ => mkRead 1 (Data measurement_line)
                         end)) None (Some 100) fresh = (Raise SerialException, w')
    /\ store w' !! 0%nat = Some ([] ++ new)
    /\ length new = 2%nat.
Proof.
  destruct (exception_leaves_samples_in_buffer Json.loads
              (on_port (fun i => match i with
                                 | 2%nat => mkRead 1 Lost
                                 | _ => mkRead 1 (Data measurement_line)
                                 end))
              (mkSerial true (fun i => match i with
                                       | 2%nat => mkRead 1 Lost
                                       | _ => mkRead 1 (Data measurement_line)
                                       end))
              None (Some 100) 2 fresh [] SerialException eq_refl eq_refl eq_refl)
    as (w' & new & Hrun & Hb & _ & Hlen).
  - intros [|[|j]] Hj; [reflexivity | reflexivity | lia].
  - discriminate.
  - intros _. vm_compute. reflexivity.
  - left. split; reflexivity.
  - exists w', new. split; [apply Hrun; lia|]. split; [exact Hb|].
    rewrite Hlen. vm_compute. reflexivity.
Defined.

(** X15.  Without an open port [collect_data] raises [RuntimeError] at once:
    nothing is read, printed or buffered.  That is the case of a collector
    that was never connected and of one that was disconnected; [disconnect]
    closes an open port once, tells so once, and keeps the buffer. *)
Theorem closed_port_refuses_collection
    (json_loads : string -> loads_result) (fuel : nat) (c : Collector)
    (duration max_samples : option Z) (w : World) :
  (serial_conn c = None ->
   collect_data json_loads fuel c duration max_samples w
   = (Raise (RuntimeError "Serial connection not established"), w))
  /\ exists c' w',
       disconnect c w = (Ok c', w')
       /\ data_buffer c' = data_buffer c
       /\ store w' = store w
       /\ (stdout w' = stdout w
           \/ stdout w' = stdout w ++ [ConnectionClosed]
              /\ exists conn, serial_conn c = Some conn /\ is_open conn = true)
       /\ collect_data json_loads fuel c' duration max_samples w'
          = (Raise (RuntimeError "Serial connection not established"), w')
       /\ disconnect c' w' = (Ok c', w').
Proof.
  split.
  - intros Hnone. unfold collect_data. now rewrite Hnone.
  - unfold disconnect, collect_data.
    destruct c as [p b t [[[|] feed]|] buf]; simpl.
    + eexists _, _. unfold bind, print, ret. simpl.
      split; [reflexivity|]. simpl. split; [reflexivity|]. split; [reflexivity|].
      split; [right; split; [reflexivity | eauto]|]. split; reflexivity.
    + eexists _, _. unfold ret. split; [reflexivity|]. simpl.
      split; [reflexivity|]. split; [reflexivity|]. split; [now left|].
      split; reflexivity.
    + eexists _, _. unfold ret. split; [reflexivity|]. simpl.
      split; [reflexivity|]. split; [reflexivity|]. split; [now left|].
      split; reflexivity.
Qed.

(** * The command of the collector *)

Section MainFacts.

Import Cli.

Variable json_loads : string -> loads_result.
Variable to_datetime : list (option pyval) -> datetime_result.
Variable strftime : Z -> string.
Variable second : Z.
Variable series_range : list (option pyval) -> exn + (pyval * pyval).

Lemma output_path_returns (args : Args) (w : World) :
  exists path,
    output_path strftime args w = (Ok path, w)
    /\ (forall o, arg_output args = Some o -> o <> "" -> path = o).
Proof.
  unfold output_path, bind, datetime_now, ret.
  destruct (arg_output args) as [o|].
  - destruct (String.eqb o "") eqn:E; simpl.
    + eexists. split; [reflexivity|]. intros o' [= <-] Hne.
      apply String.eqb_eq in E. contradiction.
    + eexists. split; [reflexivity|]. now intros o' [= <-] _.
  - eexists. split; [reflexivity|]. discriminate.
Qed.

(** The collector [main] makes and connects, and the world it then runs in. *)
Lemma main_connected (fuel : nat) (args : Args) (feed : nat -> ReadEvent) (w : World) :
  exists path c1 w1,
    (forall o, arg_output args = Some o -> o <> "" -> path = o)
    /\ c1 = mkCollector (arg_port args) (arg_baudrate args) second
              (Some (mkSerial true feed)) (length (store w))
    /\ store w1 = store w ++ [[]]
    /\ read_log w1 = read_log w /\ clock w1 = clock w
    /\ files w1 = files w /\ locked w1 = locked w
    /\ stdout w1 = stdout w ++ [ConnectedTo (arg_port args) (arg_baudrate args)]
    /\ main json_loads to_datetime strftime second series_range fuel args (Some feed) w
       = finally
           (try_with
              (data <- collect_data json_loads fuel c1
                         (arg_duration args) (arg_samples args) ;;
               items <- list_items data ;;
               match items with
               | [] => ret (0, [NoValidData])
               | _ =>
                   save_to_csv to_datetime c1 path ;;;
                   df <- to_dataframe to_datetime c1 ;;
                   match summary series_range df with
                   | (out, None) => ret (0, out)
                   | (out, Some e) =>
                       if is_exception e then ret (1, out ++ [CollectionFailed e])
                       else raise e
                   end
               end)%py
              (fun e => ret (1, [CollectionFailed e])))
           (disconnect c1) w1.
Proof.
  destruct (output_path_returns args w) as (path & Hpath & Hgiven).
  exists path,
    (mkCollector (arg_port args) (arg_baudrate args) second
       (Some (mkSerial true feed)) (length (store w))),
    (set_stdout (stdout (set_store (store w ++ [[]]) w)
                 ++ [ConnectedTo (arg_port args) (arg_baudrate args)])
       (set_store (store w ++ [[]]) w)).
  split; [exact Hgiven|]. split; [reflexivity|].
  unfold main. unfold bind at 1. rewrite Hpath.
  unfold bind at 1. unfold init. unfold bind at 1. unfold list_new at 1. unfold ret at 1.
  unfold bind at 1. unfold connect. unfold bind at 1. unfold print at 1. unfold ret at 1.
  cbn [negb data_buffer port baudrate timeout].
  repeat split.
Qed.

(** [main] when the run raises at its read number [k]. *)
Lemma main_when_run_raises (fuel : nat) (args : Args) (feed : nat -> ReadEvent)
    (k : nat) (w : World) (e : exn) :
  (k < fuel)%nat ->
  (forall j, (j < k)%nat ->
     Feed.benign json_loads (feed (length (read_log w) + j)%nat) = true) ->
  (Py.truthy_num (arg_duration args) = true ->
   forall j, (j <= k)%nat ->
     Feed.waited_in feed (length (read_log w)) j < default 0 (arg_duration args)) ->
  (Py.truthy_num (arg_samples args) = true ->
   Z.of_nat (Feed.samples_in json_loads feed (length (read_log w)) k)
   < default 0 (arg_samples args)) ->
  (arrival (feed (length (read_log w) + k)%nat) = Lost /\ e = SerialException)
  \/ (exists text, arrival (feed (length (read_log w) + k)%nat) = Data text
                   /\ Feed.harmless json_loads text = false /\ e = TypeError) ->
  exists w' new,
    main json_loads to_datetime strftime second series_range fuel args (Some feed) w
    = (Ok (1, [CollectionFailed e]), w')
    /\ files w' = files w
    /\ store w' !! length (store w) = Some new
    /\ length new = Feed.samples_in json_loads feed (length (read_log w)) k
    /\ last (stdout w') = Some ConnectionClosed.
Proof.
  intros Hfuel Hfeed Hd Hs Hev.
  destruct (main_connected fuel args feed w)
    as (path & c1 & w1 & _ & Hc1 & Hst1 & Hlog1 & _ & Hf1 & _ & _ & Hmain).
  assert (serial_conn c1 = Some (mkSerial true feed)) as Hconn by (subst c1; reflexivity).
  assert (store w1 !! data_buffer c1 = Some []) as Hold.
  { subst c1. simpl. rewrite Hst1. apply list_lookup_middle. reflexivity. }
  destruct (run_ended_by_exception json_loads c1 (mkSerial true feed) Hconn eq_refl
              (arg_duration args) (arg_samples args) k w1 [] e Hold)
    as (w2 & new & Hrun & Hb & Hlen2 & Hlen & Hexc).
  - rewrite Hlog1. exact Hfeed.
  - rewrite Hlog1. exact Hd.
  - rewrite Hlog1. exact Hs.
  - rewrite Hlog1. exact Hev.
  - pose proof (collect_data_keeps_files json_loads c1 (mkSerial true feed) Hconn eq_refl
                  fuel (arg_duration args) (arg_samples args) w1) as [Hf2 _].
    rewrite (Hrun fuel Hfuel) in Hf2. simpl in Hf2.
    rewrite Hmain. unfold finally, try_with. unfold bind at 1.
    rewrite (Hrun fuel Hfuel), Hexc. unfold ret at 1.
    subst c1. unfold disconnect. simpl. unfold bind, print, ret. simpl.
    eexists _, new. split; [reflexivity|]. simpl.
    split; [congruence|]. split; [exact Hb|]. split; [|apply last_snoc].
    rewrite Hlen, Hlog1. reflexivity.
Qed.

End MainFacts.

Section CompletedRun.

Import Feed.

Variable json_loads : string -> loads_result.
Variable c : Collector.
Variable conn : Serial.
Hypothesis connected : serial_conn c = Some conn.
Hypothesis opened : is_open conn = true.

Lemma dict_get_key {V : Type} (k : string) (v : V) (d : list (string * V)) :
  Py.dict_get k d = Some v -> In k (Py.dict_keys d).
Proof.
  induction d as [|[k0 v0] d IH]; [discriminate|].
  cbn [Py.dict_get Py.dict_keys map fst].
  destruct (String.eqb k k0) eqn:E.
  - apply String.eqb_eq in E. now left.
  - intros H. right. now apply IH.
Qed.

Lemma stamp_has_key (s : pyval) (t : Z) :
  stamp s = Some t -> In "timestamp" (record_keys s).
Proof.
  unfold stamp, record_get, record_keys. destruct s; try discriminate.
  destruct (Py.dict_get "timestamp" d) as [v|] eqn:E; [|discriminate].
  intros _. eapply dict_get_key. exact E.
Qed.

(** A run that the sample limit ends. *)
Lemma run_ended_by_sample_limit (duration : option Z) (N : Z) (k : nat)
    (w : World) (old : list pyval) :
  store w !! data_buffer c = Some old ->
  Py.truthy_num duration = false -> 0 < N ->
  (forall j, (j < k)%nat ->
     benign json_loads (incoming conn (length (read_log w) + j)) = true) ->
  N <= Z.of_nat (samples_in json_loads (incoming conn) (length (read_log w)) k) ->
  exists w' new,
    (forall fuel, (k < fuel)%nat ->
       collect_data json_loads fuel c duration (Some N) w = (Ok (length (store w)), w'))
    /\ store w' !! data_buffer c = Some (old ++ new)
    /\ store w' !! length (store w) = Some (old ++ new)
    /\ Z.of_nat (length new) = N
    /\ Forall (fun s => In "timestamp" (record_keys s)) new.
Proof.
  intros Hold Hd HN Hfeed Hcount.
  destruct (announced_same duration (Some N) w) as (Hclk & Hlog & Hst).
  destruct (collect_loop_by_samples json_loads c conn duration N (clock w) k
              Hd HN 0 (announced duration (Some N) w))
    as (new & w3 & Hloop & Happ & Hlen & _).
  - lia.
  - rewrite Hlog. exact Hfeed.
  - rewrite Hlog. lia.
  - rewrite Hst in Happ.
    destruct (appended_lookup _ _ _ _ _ Happ Hold) as (Hb & Hlen3 & _).
    assert (data_buffer c < length (store w3))%nat as Hlt
      by (apply lookup_lt_is_Some; eauto).
    assert (forall fuel, (k < fuel)%nat ->
              collect_data json_loads fuel c duration (Some N) w
              = (Ok (length (store w)), completed c (clock w) w3)) as Hrun.
    { intros fuel Hfuel.
      rewrite (collect_data_connected json_loads c conn connected opened).
      rewrite (Hloop fuel Hfuel), Hlen3. reflexivity. }
    exists (completed c (clock w) w3), new.
    split; [exact Hrun|]. simpl.
    split; [rewrite lookup_app_l by lia; exact Hb|].
    split; [rewrite Hb, <- Hlen3; simpl; apply list_lookup_middle; reflexivity|].
    split; [lia|].
    destruct (collect_data_trace json_loads c conn connected opened (S k) duration
                (Some N) w old Hold) as (new' & ts & Hb' & _ & Hts & _).
    cbv zeta in Hb'. rewrite (Hrun (S k) ltac:(lia)) in Hb'. simpl in Hb'.
    rewrite lookup_app_l in Hb' by lia. rewrite Hb in Hb'.
    injection Hb' as Heq. apply app_inv_head in Heq. subst new'.
    clear -Hts. revert ts Hts. induction new as [|s new IH]; intros ts Hts;
      [constructor|].
    destruct ts as [|t ts]; [discriminate|]. simpl in Hts.
    injection Hts as Hs Hrest. constructor; [eapply stamp_has_key; eassumption|].
    eapply IH. eassumption.
Qed.

End CompletedRun.

(** X16.  When the port cannot be opened, [main] exits with the code 1: it
    tells that the connection failed, reads nothing and writes no file. *)
Theorem main_exits_1_when_port_cannot_be_opened
    (json_loads : string -> loads_result)
    (to_datetime : list (option pyval) -> datetime_result)
    (strftime : Z -> string) (second : Z)
    (series_range : list (option pyval) -> exn + (pyval * pyval))
    (fuel : nat) (args : Cli.Args) (w : World) :
  exists w',
    Cli.main json_loads to_datetime strftime second series_range fuel args None w
    = (Ok (1, []), w')
    /\ stdout w' = stdout w ++ [ConnectFailed (Cli.arg_port args)]
    /\ files w' = files w
    /\ read_log w' = read_log w.
Proof.
  destruct (output_path_returns strftime args w) as (path & Hpath & _).
  unfold Cli.main. unfold bind at 1. rewrite Hpath.
  eexists. split; [reflexivity|]. repeat split.
Qed.

(** X17.  When the collection raises (the device is lost, or a line holds a
    JSON text that is no object), [main] tells that the collection failed,
    closes the port and exits with the code 1 without saving: the samples
    that had arrived are in the buffer, and no file is written. *)
Theorem main_saves_nothing_when_collection_raises
    (json_loads : string -> loads_result)
    (to_datetime : list (option pyval) -> datetime_result)
    (strftime : Z -> string) (second : Z)
    (series_range : list (option pyval) -> exn + (pyval * pyval))
    (fuel : nat) (args : Cli.Args) (feed : nat -> ReadEvent)
    (k : nat) (w : World) (e : exn) :
  (k < fuel)%nat ->
  (forall j, (j < k)%nat ->
     Feed.benign json_loads (feed (length (read_log w) + j)%nat) = true) ->
  (Py.truthy_num (Cli.arg_duration args) = true ->
   forall j, (j <= k)%nat ->
     Feed.waited_in feed (length (read_log w)) j < default 0 (Cli.arg_duration args)) ->
  (Py.truthy_num (Cli.arg_samples args) = true ->
   Z.of_nat (Feed.samples_in json_loads feed (length (read_log w)) k)
   < default 0 (Cli.arg_samples args)) ->
  (arrival (feed (length (read_log w) + k)%nat) = Lost /\ e = SerialException)
  \/ (exists text, arrival (feed (length (read_log w) + k)%nat) = Data text
                   /\ Feed.harmless json_loads text = false /\ e = TypeError) ->
  exists w' new,
    Cli.main json_loads to_datetime strftime second series_range fuel args (Some feed) w
    = (Ok (1, [Cli.CollectionFailed e]), w')
    /\ files w' = files w
    /\ store w' !! length (store w) = Some new
    /\ length new = Feed.samples_in json_loads feed (length (read_log w)) k
    /\ last (stdout w') = Some ConnectionClosed.
Proof.
  intros Hfuel Hfeed Hd Hs Hev.
  destruct (main_when_run_raises json_loads to_datetime strftime second series_range fuel args feed
              k w e Hfuel Hfeed Hd Hs Hev) as (w' & new & H).
  exists w', new. exact H.
Qed.

Lemma main_saves_nothing_when_collection_raises_witness :
  exists w' new,
    Cli.main Json.loads Pandas.to_datetime (fun _ => "20240101_120000") 1000 (fun _ => inl TypeError) 5
      (Cli.mkArgs "COM3" 115200 None None None)
      (Some (fun i => match i with
                      | 2%nat => mkRead 1 Lost
                      | _ => mkRead 1 (Data measurement_line)
                      end)) boot
    = (Ok (1, [Cli.CollectionFailed SerialException]), w')
    /\ files w' = files boot
    /\ store w' !! 0%nat = Some new
    /\ length new = 2%nat.
Proof.
  destruct (main_saves_nothing_when_collection_raises Json.loads Pandas.to_datetime
              (fun _ => "20240101_120000") 1000 (fun _ => inl TypeError) 5
              (Cli.mkArgs "COM3" 115200 None None None)
              (fun i => match i with
                        | 2%nat => mkRead 1 Lost
                        | _ => mkRead 1 (Data measurement_line)
                        end) 2 boot SerialException)
    as (w' & new & Hrun & Hfiles & Hb & Hlen & _).
  - lia.
  - intros [|[|j]] Hj; [reflexivity | reflexivity | lia].
  - discriminate.
  - discriminate.
  - left. split; reflexivity.
  - exists w', new. split; [exact Hrun|]. split; [exact Hfiles|]. split; [exact Hb|].
    rewrite Hlen. vm_compute. reflexivity.
Defined.

Lemma list_case_cons {A B : Type} (l : list A) (a b : B) :
  l <> [] -> match l with [] => a | _ :: _ => b end = b.
Proof. destruct l; [contradiction | reflexivity]. Qed.

(** What [to_dataframe] gives of a buffer of stamped samples. *)
Lemma to_dataframe_of_stamped
    (to_datetime : list (option pyval) -> datetime_result)
    (c : Collector) (w : World) (new : list pyval) :
  store w !! data_buffer c = Some new -> new <> [] ->
  Forall (fun s => In "timestamp" (record_keys s)) new ->
  to_dataframe to_datetime c w =
    (match to_datetime (map (record_get "timestamp") new) with
     | Stamps stamps => Ok (set_column "timestamp" stamps (from_records new))
     | Unreadable => Raise ValueError
     end, w)
  /\ empty (from_records new) = false.
Proof.
  intros Hb Hne Hkeys. rewrite to_dataframe_cases, Hb. cbn [default from_option id].
  destruct new as [|s0 new0]; [contradiction|].
  assert (In "timestamp" (record_keys s0)) as Hk by now inversion Hkeys.
  assert (existsb (String.eqb "timestamp") (columns (from_records (s0 :: new0))) = true)
    as ->.
  { apply existsb_exists. exists "timestamp". split; [|reflexivity].
    apply (proj1 (union_keys_spec (s0 :: new0))). exists s0. split; [now left | exact Hk]. }
  split; [reflexivity|].
  apply (from_records_not_empty (s0 :: new0) s0 "timestamp"); [now left | exact Hk].
Qed.

(** X18.  When a run is ended by its sample limit [N], [main] saves to the
    path it was given.  If [pd.to_datetime] reads the time stamps of the [N]
    samples: when the system accepts the path, the file holds their table, a
    row for each; when it refuses, no file is written; in both cases [main]
    goes on to the summary, and its exit code is that of the summary alone:
    the code 0 does not tell that the file was written.  If [pd.to_datetime]
    refuses the time stamps, no file is written, the call of [to_dataframe]
    that [main] makes itself raises, and [main] tells that the collection
    failed and ends with the exit code 1, before any summary.  The port is
    closed in every case. *)
Theorem main_saves_samples_of_completed_run
    (json_loads : string -> loads_result)
    (to_datetime : list (option pyval) -> datetime_result)
    (strftime : Z -> string) (second : Z)
    (series_range : list (option pyval) -> exn + (pyval * pyval))
    (fuel : nat) (args : Cli.Args) (feed : nat -> ReadEvent)
    (o : string) (N : Z) (k : nat) (w : World) :
  Cli.arg_output args = Some o -> o <> "" ->
  Cli.arg_samples args = Some N -> 0 < N ->
  Py.truthy_num (Cli.arg_duration args) = false ->
  (k < fuel)%nat ->
  (forall j, (j < k)%nat ->
     Feed.benign json_loads (feed (length (read_log w) + j)%nat) = true) ->
  N <= Z.of_nat (Feed.samples_in json_loads feed (length (read_log w)) k) ->
  exists w' new,
    Z.of_nat (length new) = N
    /\ store w' !! length (store w) = Some new
    /\ Cli.main json_loads to_datetime strftime second series_range fuel args (Some feed) w
       = (match to_datetime (map (record_get "timestamp") new) with
          | Stamps stamps =>
              match Cli.summary series_range
                      (set_column "timestamp" stamps (from_records new)) with
              | (out, None) => Ok (0, out)
              | (out, Some e) =>
                  if is_exception e then Ok (1, out ++ [Cli.CollectionFailed e])
                  else Raise e
              end
          | Unreadable => Ok (1, [Cli.CollectionFailed ValueError])
          end, w')
    /\ (forall stamps,
          to_datetime (map (record_get "timestamp") new) = Stamps stamps ->
          o ∉ locked w ->
          files w' !! o = Some (set_column "timestamp" stamps (from_records new))
          /\ Z.of_nat (length (rows (set_column "timestamp" stamps (from_records new)))) = N)
    /\ (o ∈ locked w -> files w' = files w)
    /\ (to_datetime (map (record_get "timestamp") new) = Unreadable -> files w' = files w)
    /\ last (stdout w') = Some ConnectionClosed.
Proof.
  intros Hout Hne Hms HN Hd Hfuel Hfeed Hcount.
  destruct (main_connected json_loads to_datetime strftime second series_range
              fuel args feed w)
    as (path & c1 & w1 & Hpath & Hc1 & Hst1 & Hlog1 & _ & Hf1 & Hl1 & _ & Hmain).
  rewrite (Hpath o Hout Hne), Hms in Hmain. clear Hpath path.
  assert (serial_conn c1 = Some (mkSerial true feed)) as Hconn by (subst c1; reflexivity).
  assert (data_buffer c1 = length (store w)) as Hbuf by (subst c1; reflexivity).
  assert (store w1 !! data_buffer c1 = Some []) as Hold.
  { rewrite Hbuf, Hst1. apply list_lookup_middle. reflexivity. }
  destruct (run_ended_by_sample_limit json_loads c1 (mkSerial true feed) Hconn eq_refl
              (Cli.arg_duration args) N k w1 [] Hold Hd HN)
    as (w2 & new & Hrun & Hb & Hr & Hlen & Hkeys).
  { rewrite Hlog1. exact Hfeed. }
  { rewrite Hlog1. exact Hcount. }
  pose proof (collect_data_keeps_files json_loads c1 (mkSerial true feed) Hconn eq_refl
                fuel (Cli.arg_duration args) (Some N) w1) as [Hf2 Hl2].
  rewrite (Hrun fuel Hfuel) in Hf2, Hl2. simpl in Hf2, Hl2, Hb, Hr.
  assert (new <> []) as Hnew by (intros ->; simpl in Hlen; lia).
  assert (forall w0, store w0 = store w2 ->
            to_dataframe to_datetime c1 w0
            = (match to_datetime (map (record_get "timestamp") new) with
               | Stamps stamps => Ok (set_column "timestamp" stamps (from_records new))
               | Unreadable => Raise ValueError
               end, w0)) as Hframe.
  { intros w0 Hs0. apply to_dataframe_of_stamped; [rewrite Hs0; exact Hb | exact Hnew
                                                   | exact Hkeys]. }
  assert (forall stamps,
            length (rows (set_column "timestamp" stamps (from_records new))) = length new)
    as Hrows.
  { intros stamps. rewrite set_column_length. unfold from_records. cbn [rows].
    apply length_map. }
  pose proof (save_to_csv_cases to_datetime c1 o w2) as Hsave.
  rewrite (Hframe w2 eq_refl) in Hsave. cbn [fst] in Hsave.
  assert (forall w0, fst (disconnect c1 w0) = Ok
            (mkCollector (port c1) (baudrate c1) (timeout c1)
               (Some (mkSerial false feed)) (data_buffer c1))
          /\ store (snd (disconnect c1 w0)) = store w0
          /\ files (snd (disconnect c1 w0)) = files w0
          /\ last (stdout (snd (disconnect c1 w0))) = Some ConnectionClosed)
    as Hdisw.
  { intros w0. subst c1. unfold disconnect, bind, print, ret. simpl.
    repeat split. apply last_snoc. }
  assert (empty (from_records new) = false) as Hfull.
  { destruct new as [|s0 new0]; [contradiction|].
    apply (from_records_not_empty (s0 :: new0) s0 "timestamp"); [now left|].
    now inversion Hkeys. }
  set (w3 := snd (save_to_csv to_datetime c1 o w2)).
  assert (store w3 = store w2) as Hs3.
  { subst w3. rewrite Hsave. destruct (to_datetime _) as [stamps|].
    - rewrite set_column_empty, Hfull.
      destruct (decide (o ∈ locked w2)); reflexivity.
    - reflexivity. }
  destruct (Hdisw w3) as (Hdis & Hs4 & Hf4 & Hlast).
  exists (snd (disconnect c1 w3)), new.
  split; [exact Hlen|]. split; [rewrite Hs4, Hs3, <- Hbuf; exact Hb|].
  split.
  - rewrite Hmain. unfold Cli.finally, Cli.try_with. unfold bind at 1.
    rewrite (Hrun fuel Hfuel). unfold bind at 1. unfold list_items at 1.
    rewrite Hr. cbn [default from_option id].
    rewrite list_case_cons by exact Hnew.
    unfold bind at 1.
    destruct (save_to_csv to_datetime c1 o w2) as [res3 w3'] eqn:Esave.
    subst w3. cbn [snd] in *.
    assert (exists b, res3 = Ok b) as [b ->].
    { clear Esave. destruct (to_datetime _).
      - rewrite set_column_empty, Hfull in Hsave.
        destruct (decide _); injection Hsave as -> _; eauto.
      - cbn [is_exception is_keyboard_interrupt negb] in Hsave.
        injection Hsave as -> _. eauto. }
    unfold bind at 1. rewrite (Hframe w3' Hs3).
    destruct (to_datetime (map (record_get "timestamp") new)) as [stamps|].
    + destruct (Cli.summary series_range _) as [out [e|]].
      * destruct (is_exception e) eqn:Ee; unfold ret, raise; cbn [fst snd];
          rewrite ?Ee; destruct (disconnect c1 w3') as [res4 w4];
          simpl in Hdis; subst res4; reflexivity.
      * unfold ret. cbn [fst snd]. destruct (disconnect c1 w3') as [res4 w4].
        simpl in Hdis. subst res4. reflexivity.
    + cbn [is_exception is_keyboard_interrupt negb]. unfold ret.
      destruct (disconnect c1 w3') as [res4 w4].
      simpl in Hdis. subst res4. reflexivity.
  - split; [|split; [|split; [|exact Hlast]]]; subst w3; rewrite Hf4, Hsave.
    + intros stamps -> Hfree. rewrite set_column_empty, Hfull.
      destruct (decide (o ∈ locked w2)) as [Hin|_].
      { exfalso. apply Hfree. now rewrite <- Hl1, <- Hl2. }
      cbn [snd files set_stdout set_files].
      split; [apply lookup_insert_eq|]. rewrite Hrows. exact Hlen.
    + intros Hlocked. destruct (to_datetime _) as [stamps|];
        [|cbn [snd files set_stdout is_exception is_keyboard_interrupt negb]; congruence].
      rewrite set_column_empty, Hfull.
      destruct (decide (o ∈ locked w2)) as [_|Hfree]; [cbn [snd files set_stdout]; congruence|].
      exfalso. apply Hfree. now rewrite Hl2, Hl1.
    + intros ->. cbn [snd files set_stdout is_exception is_keyboard_interrupt negb].
      congruence.
Qed.

Lemma main_saves_samples_of_completed_run_witness :
  exists w' new stamps,
    Z.of_nat (length new) = 2
    /\ Pandas.to_datetime (map (record_get "timestamp") new) = Stamps stamps
    /\ files w' !! "out.csv" = Some (set_column "timestamp" stamps (from_records new))
    /\ Z.of_nat (length (rows (set_column "timestamp" stamps (from_records new)))) = 2.
Proof.
  destruct (main_saves_samples_of_completed_run Json.loads Pandas.to_datetime
              (fun _ => "20240101_120000") 1000 (fun _ => inr (PNone, PNone)) 3
              (Cli.mkArgs "COM3" 115200 None (Some 2) (Some "out.csv"))
              steady_feed "out.csv" 2 2 boot eq_refl)
    as (w' & new & Hlen & Hst & Hrun & Hfile & _).
  - discriminate.
  - reflexivity.
  - lia.
  - reflexivity.
  - lia.
  - intros j _. reflexivity.
  - vm_compute. discriminate.
  - assert (w' = snd (Cli.main Json.loads Pandas.to_datetime
                        (fun _ => "20240101_120000") 1000
                        (fun _ => inr (PNone, PNone)) 3
                        (Cli.mkArgs "COM3" 115200 None (Some 2) (Some "out.csv"))
                        (Some steady_feed) boot)) as Hw by (rewrite Hrun; reflexivity).
    vm_compute in Hw. rewrite Hw in Hst. vm_compute in Hst. injection Hst as Hnew.
    assert (exists stamps, Pandas.to_datetime (map (record_get "timestamp") new)
                           = Stamps stamps) as [stamps Hstamps].
    { rewrite <- Hnew. vm_compute. eauto. }
    destruct (Hfile stamps Hstamps (not_elem_of_empty _)) as [Hf Hrows].
    exists w', new, stamps. repeat split; assumption.
Defined.

(** X19.  When the operator interrupts a run in which no sample has
    arrived, [main] tells that no valid data was collected, writes no file,
    closes the port and ends with the exit code 0. *)
Theorem main_exits_0_without_samples
    (json_loads : string -> loads_result)
    (to_datetime : list (option pyval) -> datetime_result)
    (strftime : Z -> string) (second : Z)
    (series_range : list (option pyval) -> exn + (pyval * pyval))
    (fuel : nat) (args : Cli.Args) (feed : nat -> ReadEvent) (k : nat) (w : World) :
  (k < fuel)%nat ->
  (forall j, (j < k)%nat ->
     Feed.benign json_loads (feed (length (read_log w) + j)%nat) = true) ->
  Feed.samples_in json_loads feed (length (read_log w)) k = 0%nat ->
  (Py.truthy_num (Cli.arg_duration args) = true ->
   forall j, (j <= k)%nat ->
     Feed.waited_in feed (length (read_log w)) j < default 0 (Cli.arg_duration args)) ->
  (Py.truthy_num (Cli.arg_samples args) = true -> 0 < default 0 (Cli.arg_samples args)) ->
  arrival (feed (length (read_log w) + k)%nat) = Interrupt ->
  exists w',
    Cli.main json_loads to_datetime strftime second series_range fuel args (Some feed) w
    = (Ok (0, [Cli.NoValidData]), w')
    /\ files w' = files w
    /\ In StoppedByUser (stdout w')
    /\ last (stdout w') = Some ConnectionClosed.
Proof.
  intros Hfuel Hfeed Hzero Hd Hs Hint.
  destruct (main_connected json_loads to_datetime strftime second series_range fuel args feed w)
    as (path & c1 & w1 & _ & Hc1 & Hst1 & Hlog1 & _ & Hf1 & _ & _ & Hmain).
  assert (serial_conn c1 = Some (mkSerial true feed)) as Hconn by (subst c1; reflexivity).
  assert (store w1 !! data_buffer c1 = Some []) as Hold.
  { subst c1. simpl. rewrite Hst1. apply list_lookup_middle. reflexivity. }
  destruct (run_ended_by_interrupt json_loads c1 (mkSerial true feed) Hconn eq_refl
              (Cli.arg_duration args) (Cli.arg_samples args) k w1 [] Hold)
    as (w2 & new & Hrun & Hb & Hr & Hlen & Hmsg).
  - rewrite Hlog1. exact Hfeed.
  - rewrite Hlog1. exact Hd.
  - cbn [incoming]. rewrite Hlog1, Hzero. exact Hs.
  - rewrite Hlog1. exact Hint.
  - cbn [incoming] in Hlen. rewrite Hlog1, Hzero in Hlen. destruct new; [|discriminate].
    pose proof (collect_data_keeps_files json_loads c1 (mkSerial true feed) Hconn eq_refl
                  fuel (Cli.arg_duration args) (Cli.arg_samples args) w1) as [Hf2 _].
    rewrite (Hrun fuel Hfuel) in Hf2. simpl in Hf2, Hr.
    rewrite Hmain. unfold Cli.finally, Cli.try_with. unfold bind at 1.
    rewrite (Hrun fuel Hfuel). unfold bind, list_items. rewrite Hr.
    cbn [default from_option id]. unfold ret.
    subst c1. unfold disconnect, bind, print, ret. simpl.
    eexists. split; [reflexivity|]. simpl.
    split; [congruence|]. split; [|apply last_snoc].
    apply in_or_app. now left.
Qed.

Lemma main_exits_0_without_samples_witness :
  exists w',
    Cli.main Json.loads Pandas.to_datetime (fun _ => "20240101_120000") 1000 (fun _ => inl TypeError) 3
      (Cli.mkArgs "COM3" 115200 (Some 60) None None)
      (Some (fun i => match i with
                      | 0%nat => mkRead 1 (Data truncated_line)
                      | _ => mkRead 1 Interrupt
                      end)) boot
    = (Ok (0, [Cli.NoValidData]), w')
    /\ files w' = files boot.
Proof.
  destruct (main_exits_0_without_samples Json.loads Pandas.to_datetime
              (fun _ => "20240101_120000") 1000 (fun _ => inl TypeError) 3
              (Cli.mkArgs "COM3" 115200 (Some 60) None None)
              (fun i => match i with
                        | 0%nat => mkRead 1 (Data truncated_line)
                        | _ => mkRead 1 Interrupt
                        end) 1 boot)
    as (w' & Hrun & Hfiles & _).
  - lia.
  - intros [|j] Hj; [reflexivity | lia].
  - reflexivity.
  - intros _ [|[|j]] Hj; [vm_compute; reflexivity .. | lia].
  - discriminate.
  - reflexivity.
  - exists w'. split; assumption.
Defined.

(** * The generator of synthetic samples *)

Section DemoFacts.

Import Demo Analyze Documented.
Local Open Scope Q_scope.

Lemma int_of_between (lo hi : Z) (x : Q) :
  inject_Z lo <= x <= inject_Z hi -> (lo <= int_of x <= hi)%Z.
Proof.
  intros [Hlo Hhi]. unfold int_of. destruct (Qle_bool 0 x).
  - pose proof (Qfloor_resp_le _ _ Hlo) as H1. pose proof (Qfloor_resp_le _ _ Hhi) as H2.
    rewrite Qfloor_Z in H1, H2. lia.
  - pose proof (Qceiling_resp_le _ _ Hlo) as H1.
    pose proof (Qceiling_resp_le _ _ Hhi) as H2.
    rewrite Qceiling_Z in H1, H2. lia.
Qed.

Lemma clamp_between (x : Q) :
  -80 # 1 <= py_max (-80 # 1) (py_min (-30 # 1) x) <= -30 # 1.
Proof.
  unfold py_max, py_min.
  destruct (x ?= -30 # 1) eqn:E1.
  - change (-30 # 1 ?= -80 # 1) with Gt. cbv iota. split; [discriminate | apply Qle_refl].
  - apply Qlt_alt in E1. destruct (x ?= -80 # 1) eqn:E2.
    + split; [apply Qle_refl | discriminate].
    + split; [apply Qle_refl | discriminate].
    + apply Qgt_alt in E2. split; lra.
  - change (-30 # 1 ?= -80 # 1) with Gt. cbv iota. split; [discriminate | apply Qle_refl].
Qed.

Lemma generate_sample_cases (g : Generator) (d : Draw) :
  (chance d < 2 # 100
   /\ generate_sample g d = (PDict [("error", PStr "pong_timeout")], g))
  \/ (2 # 100 <= chance d
      /\ exists rssi latency,
           generate_sample g d
           = (PDict [("seq", PInt (seq g)); ("rssi", PInt rssi); ("lat_us", PInt latency)],
              mkGenerator (base_rssi g) (base_latency g) (seq g + 1))
           /\ (-80 <= rssi <= -30)%Z /\ (1000 <= latency)%Z).
Proof.
  unfold generate_sample. destruct (chance d ?= 2 # 100) eqn:Ec.
  - right. apply Qeq_alt in Ec. split; [lra|]. eexists _, _. split; [reflexivity|].
    split; [apply (int_of_between (-80) (-30)), clamp_between | lia].
  - left. apply Qlt_alt in Ec. split; [exact Ec | reflexivity].
  - right. apply Qgt_alt in Ec. split; [lra|]. eexists _, _. split; [reflexivity|].
    split; [apply (int_of_between (-80) (-30)), clamp_between | lia].
Qed.

(** The sequence column of simulated data: the numbers from that of the
    generator on, one for each measurement, without a gap. *)
Lemma simulate_from_sequence (draws : list Draw) :
  forall (g : Generator) (i samples : nat) (now delay : Z),
    let r := simulate_from g draws i samples now delay in
    length (fst (fst r)) = length draws
    /\ (seq g <= seq (snd r))%Z
    /\ dropna (map seq_cell (fst (fst r)))
       = map inject_Z (seqZ (seq g) (seq (snd r) - seq g))
    /\ Forall (fun s => exists t, Session.stamp s = Some t) (fst (fst r)).
Proof.
  induction draws as [|d draws IH]; intros g i samples now delay.
  - simpl. rewrite Z.sub_diag. repeat split; [lia | constructor].
  - cbn [simulate_from].
    destruct (generate_sample_cases g d)
      as [[_ ->]|(_ & rssi & latency & -> & _)].
    + specialize (IH g (S i) samples (now + delay)%Z delay).
      destruct (simulate_from g draws (S i) samples (now + delay)%Z delay)
        as [[data told] g''].
      cbv zeta in *. cbn [fst snd] in *. destruct IH as (Hlen & Hle & Hseq & Hst).
      split; [simpl; now rewrite Hlen|]. split; [exact Hle|].
      split; [exact Hseq|]. constructor; [eexists; reflexivity | exact Hst].
    + specialize (IH (mkGenerator (base_rssi g) (base_latency g) (seq g + 1)) (S i)
                    samples (now + delay)%Z delay).
      destruct (simulate_from _ draws (S i) samples (now + delay)%Z delay)
        as [[data told] g''].
      cbv zeta in *. cbn [fst snd seq] in *. destruct IH as (Hlen & Hle & Hseq & Hst).
      split; [simpl; now rewrite Hlen|]. split; [lia|].
      split; [|constructor; [eexists; reflexivity | exact Hst]].
      rewrite (seqZ_cons (seq g)) by lia.
      cbn [map dropna]. change (seq_cell _) with (Some (inject_Z (seq g))).
      cbn [dropna map]. f_equal. rewrite Hseq. do 2 f_equal; lia.
Qed.

Lemma length_dropna (s : Series) : (length (dropna s) <= length s)%nat.
Proof.
  induction s as [|[x|] s IH]; simpl; lia.
Qed.

(** The loss estimated from a column of consecutive counters is zero. *)
Lemma consecutive_sequence_has_no_loss (s : Series) (a n : Z) :
  (0 <= a)%Z -> (a + n <= 2 ^ 53)%Z ->
  dropna s = map inject_Z (seqZ a n) -> packet_loss_of s = SInt 0.
Proof.
  intros Ha Htop Hs. destruct (Z_le_gt_dec n 0) as [Hn|Hn].
  { rewrite seqZ_nil in Hs by lia. now apply packet_loss_of_empty. }
  assert (counters (dropna s)) as Hc.
  { rewrite Hs. apply List.Forall_forall. intros y Hy.
    apply in_map_iff in Hy. destruct Hy as (z & <- & Hz).
    apply list_elem_of_In, elem_of_seqZ in Hz.
    exists z. split; [reflexivity | lia]. }
  assert (maximum (inject_Z (a + n - 1)) (dropna s)) as Hmx.
  { rewrite Hs. split.
    - exists (inject_Z (a + n - 1)). split; [|reflexivity].
      apply in_map, list_elem_of_In, elem_of_seqZ. lia.
    - intros y Hy. apply in_map_iff in Hy. destruct Hy as (z & <- & Hz).
      apply list_elem_of_In, elem_of_seqZ in Hz. rewrite <- Zle_Qle. lia. }
  assert (minimum (inject_Z a) (dropna s)) as Hmn.
  { rewrite Hs. split.
    - exists (inject_Z a). split; [|reflexivity].
      apply in_map, list_elem_of_In, elem_of_seqZ. lia.
    - intros y Hy. apply in_map_iff in Hy. destruct Hy as (z & <- & Hz).
      apply list_elem_of_In, elem_of_seqZ in Hz. rewrite <- Zle_Qle. lia. }
  destruct (packet_loss_of_counters s _ _ Hc Hmx Hmn) as (_ & Hfull & _).
  apply Hfull.
  assert (count (dropna s) == inject_Z n) as ->.
  { unfold count. rewrite Hs, length_map, length_seqZ, Z2Nat.id by lia. reflexivity. }
  unfold Z.sub. rewrite !inject_Z_plus, inject_Z_opp. change (inject_Z 1) with 1. lra.
Qed.

End DemoFacts.

Import Demo.

(** X20.  Every synthetic sample is either the error record, with the sole
    field [error] and the sequence number of the generator left as it is
    (when the uniform draw is below 0.02), or a measurement with the sequence
    number of the generator, which then grows by one, an [rssi] from -80 to
    -30 and a latency of at least 1000, whatever the noise drawn. *)
Theorem synthetic_sample_is_error_or_bounded_measurement (g : Generator) (d : Draw) :
  ((chance d < 2 # 100)%Q
   /\ fst (generate_sample g d) = PDict [("error", PStr "pong_timeout")]
   /\ snd (generate_sample g d) = g)
  \/ ((2 # 100 <= chance d)%Q
      /\ record_get "error" (fst (generate_sample g d)) = None
      /\ record_get "seq" (fst (generate_sample g d)) = Some (PInt (seq g))
      /\ seq (snd (generate_sample g d)) = seq g + 1
      /\ exists rssi latency,
           record_get "rssi" (fst (generate_sample g d)) = Some (PInt rssi)
           /\ record_get "lat_us" (fst (generate_sample g d)) = Some (PInt latency)
           /\ -80 <= rssi <= -30 /\ 1000 <= latency).
Proof.
  destruct (generate_sample_cases g d)
    as [[Hc ->]|(Hc & rssi & latency & -> & Hr & Hl)].
  - left. repeat split. exact Hc.
  - right. split; [exact Hc|]. split; [reflexivity|]. split; [reflexivity|].
    split; [reflexivity|]. exists rssi, latency. repeat split; try reflexivity; lia.
Qed.

(** X21.  [simulate_collection] gives as many records as it was asked for,
    each with a time stamp.  The sequence numbers of its measurements follow
    one another without a gap, since an error record takes no number.  When
    they are counters that the floats hold, that is, when the generator starts
    from a number that is not negative and that, with one more for each record
    asked for, is at most [2^53] (the generator of the demo starts from 0),
    the packet loss the analyzer estimates from the data is zero, however
    many error records there are. *)
Theorem synthetic_data_shows_no_packet_loss
    (g : Generator) (draws : list Draw) (now delay : Z) :
  0 <= seq g -> seq g + Z.of_nat (length draws) <= 2 ^ 53 ->
  length (fst (fst (simulate_collection g draws now delay))) = length draws
  /\ Forall (fun s => exists t, stamp s = Some t)
       (fst (fst (simulate_collection g draws now delay)))
  /\ Analyze.dropna (map seq_cell (fst (fst (simulate_collection g draws now delay))))
     = map inject_Z (seqZ (seq g)
                       (seq (snd (simulate_collection g draws now delay)) - seq g))
  /\ Analyze.packet_loss_of
       (map seq_cell (fst (fst (simulate_collection g draws now delay))))
     = Analyze.SInt 0.
Proof.
  intros Hfrom Htop. unfold simulate_collection.
  pose proof (simulate_from_sequence draws g 0 (length draws) now delay) as H.
  destruct (simulate_from g draws 0 (length draws) now delay) as [[data told] g'].
  cbv zeta in H. cbn [fst snd] in *. destruct H as (Hlen & Hle & Hseq & Hst).
  split; [exact Hlen|]. split; [exact Hst|]. split; [exact Hseq|].
  pose proof (length_dropna (map seq_cell data)) as Hd.
  rewrite Hseq, !length_map, length_seqZ, Hlen in Hd.
  eapply consecutive_sequence_has_no_loss; [exact Hfrom | | exact Hseq]. lia.
Qed.

Lemma synthetic_data_shows_no_packet_loss_witness :
  Analyze.packet_loss_of
    (map seq_cell
       (fst (fst (simulate_collection (mkGenerator (-50) 5000 0)
                    [mkDraw 0 0 (1 # 2); mkDraw 0 0 0; mkDraw 0 0 (1 # 2)] 0 100))))
  = Analyze.SInt 0.
Proof.
  apply (synthetic_data_shows_no_packet_loss (mkGenerator (-50) 5000 0)
           [mkDraw 0 0 (1 # 2); mkDraw 0 0 0; mkDraw 0 0 (1 # 2)]%Q 0 100).
  - discriminate.
  - discriminate.
Defined.

(** Beyond [2^53] the sequence numbers are not all floats, and an error
    record makes the column one of floats: of the numbers [2^53 + 1],
    [2^53 + 2] and [2^53 + 3] the first is read as [2^53] and the last as
    [2^53 + 4], so that five values are expected where three are present. *)
Lemma synthetic_loss_beyond_the_floats :
  (value_of
     (Analyze.packet_loss_of
        (map seq_cell
           (fst (fst (simulate_collection (mkGenerator (-50) 5000 (2 ^ 53 + 1))
                        [mkDraw 0 0 (1 # 2); mkDraw 0 0 (1 # 2); mkDraw 0 0 (1 # 2);
                         mkDraw 0 0 0] 0 100)))))
   == 40)%Q.
Proof. vm_compute. reflexivity. Qed.

(** ** The test on the device *)

Section DurationEnd.

Import Feed.

Variable json_loads : string -> loads_result.
Variable c : Collector.
Variable conn : Serial.
Hypothesis connected : serial_conn c = Some conn.
Hypothesis opened : is_open conn = true.

(** A run that its duration limit ends. *)
Lemma run_ended_by_duration_limit (D T : Z) (k : nat) (w : World) (old : list pyval) :
  store w !! data_buffer c = Some old ->
  0 < D -> 0 <= T ->
  (forall j, (j < k)%nat ->
     benign json_loads (incoming conn (length (read_log w) + j)) = true
     /\ waited (incoming conn (length (read_log w) + j)) <= T) ->
  D <= waited_in (incoming conn) (length (read_log w)) k ->
  exists w' new,
    (forall fuel, (k < fuel)%nat ->
       collect_data json_loads fuel c (Some D) None w = (Ok (length (store w)), w'))
    /\ store w' !! data_buffer c = Some (old ++ new)
    /\ store w' !! length (store w) = Some (old ++ new)
    /\ Forall (fun s => In "timestamp" (record_keys s)) new
    /\ D <= clock w' - clock w < D + T
    /\ files w' = files w /\ locked w' = locked w.
Proof.
  intros Hold HD HT Hfeed Hsum.
  destruct (announced_same (Some D) None w) as (Hclk & Hlog & Hst).
  destruct (collect_loop_by_duration json_loads c conn D T None (clock w) k HD eq_refl 0
              (announced (Some D) None w)) as (w3 & Hloop & Hbound & _).
  { rewrite Hclk. lia. }
  { rewrite Hlog. exact Hfeed. }
  { rewrite Hlog, Hclk. lia. }
  destruct (completed_same c (clock w) w3) as (Hclk3 & _ & _ & _).
  assert (forall fuel, (k < fuel)%nat ->
            collect_data json_loads fuel c (Some D) None w
            = (Ok (length (store w3)), completed c (clock w) w3)) as Hrun.
  { intros fuel Hfuel. rewrite (collect_data_connected json_loads c conn connected opened).
    rewrite (Hloop fuel Hfuel). reflexivity. }
  destruct (collect_data_returns_copy json_loads (S k) c (Some D) None w
              (completed c (clock w) w3) (length (store w3)) old Hold (Hrun (S k) (Nat.lt_succ_diag_r k)))
    as (new & Hb & Hr & Hlen & _ & _ & _ & Hfiles).
  destruct (collect_data_trace json_loads c conn connected opened (S k) (Some D) None w old Hold)
    as (new' & ts & Htrace).
  cbv zeta in Htrace. rewrite (Hrun (S k) (Nat.lt_succ_diag_r k)) in Htrace.
  cbn [snd] in Htrace. destruct Htrace as (Hb' & _ & Hstamp & _).
  assert (new' = new) as -> by (rewrite Hb in Hb'; injection Hb' as Hb'; eapply app_inv_head; eauto).
  pose proof (collect_data_keeps_files json_loads c conn connected opened (S k) (Some D) None w)
    as [_ Hlocked].
  rewrite (Hrun (S k) (Nat.lt_succ_diag_r k)) in Hlocked. cbn [snd] in Hlocked.
  exists (completed c (clock w) w3), new.
  split; [intros fuel Hfuel; rewrite (Hrun fuel Hfuel), Hlen; reflexivity|].
  split; [exact Hb|]. split; [rewrite <- Hlen; exact Hr|].
  split.
  { apply List.Forall_forall. intros s Hs.
    apply (In_nth_error) in Hs. destruct Hs as [i Hi].
    assert (nth_error (map stamp new) i = Some (stamp s)) as Hm
      by (rewrite nth_error_map, Hi; reflexivity).
    rewrite Hstamp, nth_error_map in Hm.
    destruct (nth_error ts i) as [t|]; [|discriminate].
    injection Hm as Hm. eapply stamp_has_key. symmetry. exact Hm. }
  split; [rewrite Hclk3; exact Hbound|]. split; assumption.
Qed.

End DurationEnd.

Section HardwareFacts.

Import Cli Hardware.

Variable json_loads : string -> loads_result.
Variable to_datetime : list (option pyval) -> datetime_result.
Variable strftime : Z -> string.
Variable second : Z.

(** [test_real_hardware] once the port is open. *)
Lemma hardware_connected (fuel : nat) (port : string) (D : Z)
    (feed : nat -> ReadEvent) (w : World) :
  exists c1 w1,
    c1 = mkCollector port 115200 second (Some (mkSerial true feed)) (length (store w))
    /\ store w1 = store w ++ [[]]
    /\ read_log w1 = read_log w /\ clock w1 = clock w
    /\ files w1 = files w /\ locked w1 = locked w
    /\ test_real_hardware json_loads to_datetime strftime second fuel port D (Some feed) w
       = finally
           (try_with
              (data <- collect_data json_loads fuel c1 (Some D) None ;;
               items <- list_items data ;;
               match items with
               | [] =>
                   ret (false, [TestingHardware port; CollectingFromDevice; NoDataReceived])
               | _ =>
                   now <- datetime_now ;;
                   save_to_csv to_datetime c1
                     ("data/raw/hardware_test_" +:+ strftime now +:+ ".csv") ;;;
                   ret (true, [TestingHardware port; CollectingFromDevice;
                               HardwareComplete (length items)])
               end)%py
              (fun e =>
                 ret (false, [TestingHardware port; CollectingFromDevice;
                              HardwareFailed e])))
           (disconnect c1) w1.
Proof.
  exists (mkCollector port 115200 second (Some (mkSerial true feed)) (length (store w))),
    (set_stdout (stdout (set_store (store w ++ [[]]) w) ++ [ConnectedTo port 115200])
       (set_store (store w ++ [[]]) w)).
  split; [reflexivity|].
  unfold test_real_hardware.
  unfold bind at 1. unfold init. unfold bind at 1. unfold list_new at 1. unfold ret at 1.
  unfold bind at 1. unfold connect. unfold bind at 1. unfold print at 1. unfold ret at 1.
  cbn [negb data_buffer Collect.port baudrate timeout].
  repeat split.
Qed.

End HardwareFacts.

Import Hardware.

(** X22.  When its duration limit ends the run, [test_real_hardware] returns
    [True] exactly when the buffer holds a sample, and then tells that the
    samples were saved, whether they were or not: the result of
    [save_to_csv] is not looked at.  The file holds the table of the samples
    when the system accepts the path and [pd.to_datetime] reads their time
    stamps; no file is written when the system refuses the path, nor when
    [pd.to_datetime] refuses the time stamps; the port is closed in every
    case. *)
Theorem hardware_test_tells_of_samples_not_of_file
    (json_loads : string -> loads_result)
    (to_datetime : list (option pyval) -> datetime_result)
    (strftime : Z -> string) (second : Z)
    (fuel : nat) (port : string) (D : Z) (feed : nat -> ReadEvent) (k : nat) (w : World) :
  0 < D -> 0 <= second -> (k < fuel)%nat ->
  (forall j, (j < k)%nat ->
     Feed.benign json_loads (feed (length (read_log w) + j)%nat) = true
     /\ waited (feed (length (read_log w) + j)%nat) <= second) ->
  D <= Feed.waited_in feed (length (read_log w)) k ->
  exists b notes samples w',
    test_real_hardware json_loads to_datetime strftime second fuel port D (Some feed) w
    = (Ok (b, notes), w')
    /\ store w' !! length (store w) = Some samples
    /\ (b = true <-> samples <> [])
    /\ (b = true -> last notes = Some (HardwareComplete (length samples)))
    /\ (b = false -> last notes = Some NoDataReceived /\ files w' = files w)
    /\ (forall stamps,
          samples <> [] ->
          to_datetime (map (record_get "timestamp") samples) = Stamps stamps ->
          ("data/raw/hardware_test_" +:+ strftime (clock w') +:+ ".csv") ∉ locked w ->
          files w' !! ("data/raw/hardware_test_" +:+ strftime (clock w') +:+ ".csv")
          = Some (set_column "timestamp" stamps (from_records samples)))
    /\ (("data/raw/hardware_test_" +:+ strftime (clock w') +:+ ".csv") ∈ locked w ->
        files w' = files w)
    /\ (to_datetime (map (record_get "timestamp") samples) = Unreadable ->
        files w' = files w)
    /\ last (stdout w') = Some ConnectionClosed.
Proof.
  intros HD HT Hfuel Hfeed Hsum.
  destruct (hardware_connected json_loads to_datetime strftime second fuel port D feed w)
    as (c1 & w1 & Hc1 & Hst1 & Hlog1 & _ & Hf1 & Hl1 & Htest).
  assert (serial_conn c1 = Some (mkSerial true feed)) as Hconn by (subst c1; reflexivity).
  assert (data_buffer c1 = length (store w)) as Hbuf by (subst c1; reflexivity).
  assert (store w1 !! data_buffer c1 = Some []) as Hold.
  { rewrite Hbuf, Hst1. apply list_lookup_middle. reflexivity. }
  destruct (run_ended_by_duration_limit json_loads c1 (mkSerial true feed) Hconn eq_refl
              D second k w1 [] Hold HD HT)
    as (w2 & new & Hrun & Hb & Hr & Hkeys & _ & Hf2 & Hl2).
  { rewrite Hlog1. exact Hfeed. }
  { rewrite Hlog1. exact Hsum. }
  simpl in Hb, Hr.
  set (path := "data/raw/hardware_test_" +:+ strftime (clock w2) +:+ ".csv").
  assert (forall w0, fst (disconnect c1 w0) = Ok
            (mkCollector (Collect.port c1) (baudrate c1) (timeout c1)
               (Some (mkSerial false feed)) (data_buffer c1))
          /\ store (snd (disconnect c1 w0)) = store w0
          /\ files (snd (disconnect c1 w0)) = files w0
          /\ clock (snd (disconnect c1 w0)) = clock w0
          /\ last (stdout (snd (disconnect c1 w0))) = Some ConnectionClosed)
    as Hdisw.
  { intros w0. subst c1. unfold disconnect, bind, print, ret. simpl.
    repeat split. apply last_snoc. }
  destruct new as [|s0 new0].
  - destruct (Hdisw w2) as (Hdis & Hs4 & Hf4 & Hc4 & Hlast).
    exists false, [TestingHardware port; CollectingFromDevice; NoDataReceived], [],
      (snd (disconnect c1 w2)).
    split.
    { rewrite Htest. unfold Cli.finally, Cli.try_with. unfold bind at 1.
      rewrite (Hrun fuel Hfuel). unfold bind, list_items. rewrite Hst1 in Hr.
      rewrite Hst1, Hr. cbn [default from_option id]. unfold ret.
      destruct (disconnect c1 w2) as [res4 w4]. simpl in Hdis. subst res4. reflexivity. }
    split; [rewrite Hs4, <- Hbuf; exact Hb|].
    split; [split; [discriminate | intros H; now contradiction H]|].
    split; [discriminate|].
    split; [intros _; split; [reflexivity | rewrite Hf4; congruence]|].
    split; [intros stamps H; now contradiction H|].
    split; [intros _; rewrite Hf4; congruence|].
    split; [intros _; rewrite Hf4; congruence | exact Hlast].
  - set (new := s0 :: new0) in *.
    destruct (to_dataframe_of_stamped to_datetime c1 w2 new Hb ltac:(discriminate) Hkeys)
      as [Hframe Hfull].
    pose proof (save_to_csv_cases to_datetime c1 path w2) as Hsave.
    rewrite Hframe in Hsave. cbn [fst] in Hsave.
    assert (store (snd (save_to_csv to_datetime c1 path w2)) = store w2
            /\ clock (snd (save_to_csv to_datetime c1 path w2)) = clock w2
            /\ (forall stamps,
                  to_datetime (map (record_get "timestamp") new) = Stamps stamps ->
                  path ∉ locked w2 ->
                  files (snd (save_to_csv to_datetime c1 path w2)) !! path
                  = Some (set_column "timestamp" stamps (from_records new)))
            /\ (path ∈ locked w2 -> files (snd (save_to_csv to_datetime c1 path w2)) = files w2)
            /\ (to_datetime (map (record_get "timestamp") new) = Unreadable ->
                files (snd (save_to_csv to_datetime c1 path w2)) = files w2)
            /\ exists b, fst (save_to_csv to_datetime c1 path w2) = Ok b)
      as (Hs3 & Hc3 & Hw3 & Hn3 & Hu3 & b & Hb3).
    { rewrite Hsave. destruct (to_datetime (map (record_get "timestamp") new)) as [stamps|].
      - rewrite set_column_empty, Hfull.
        destruct (decide (path ∈ locked w2)) as [Hin|Hnin]; simpl.
        + split; [reflexivity|]. split; [reflexivity|].
          split; [intros st _ H; contradiction|]. split; [reflexivity|].
          split; [discriminate | eauto].
        + split; [reflexivity|]. split; [reflexivity|].
          split; [intros st [= <-] _; apply lookup_insert_eq|].
          split; [intros H; contradiction|]. split; [discriminate | eauto].
      - cbn [is_exception is_keyboard_interrupt negb]. simpl.
        split; [reflexivity|]. split; [reflexivity|].
        split; [discriminate|]. split; [reflexivity|]. split; [reflexivity | eauto]. }
    destruct (Hdisw (snd (save_to_csv to_datetime c1 path w2)))
      as (Hdis & Hs4 & Hf4 & Hc4 & Hlast).
    assert (clock (snd (disconnect c1 (snd (save_to_csv to_datetime c1 path w2)))) = clock w2)
      as Hclock by (rewrite Hc4, Hc3; reflexivity).
    exists true, [TestingHardware port; CollectingFromDevice;
                  HardwareComplete (length new)], new,
      (snd (disconnect c1 (snd (save_to_csv to_datetime c1 path w2)))).
    rewrite Hclock. fold path.
    split.
    { rewrite Htest. unfold Cli.finally, Cli.try_with. unfold bind at 1.
      rewrite (Hrun fuel Hfuel). unfold bind, list_items, datetime_now. rewrite Hst1 in Hr.
      rewrite Hst1, Hr. cbn [default from_option id].
      rewrite list_case_cons by discriminate. fold path.
      clear Hsave.
      destruct (save_to_csv to_datetime c1 path w2) as [res3 w3] eqn:Esave.
      simpl in Hb3, Hdis.
      rewrite Hb3. unfold ret. cbn [fst snd] in *.
      destruct (disconnect c1 w3) as [res4 w4]. simpl in Hdis. subst res4. reflexivity. }
    split; [rewrite Hs4, Hs3, <- Hbuf; exact Hb|].
    split; [split; [discriminate | reflexivity]|].
    split; [reflexivity|].
    split; [discriminate|].
    split; [intros stamps _ Hst Hfree; rewrite Hf4; apply Hw3;
            [exact Hst | now rewrite Hl2, Hl1]|].
    split; [intros Hlocked; rewrite Hf4, Hn3; [congruence|]; now rewrite Hl2, Hl1|].
    split; [|exact Hlast].
    intros Hun. rewrite Hf4, (Hu3 Hun). congruence.
Qed.

Lemma hardware_test_tells_of_samples_not_of_file_witness :
  exists notes samples w',
    test_real_hardware Json.loads Pandas.to_datetime (fun _ => "t") 1 4 "COM3" 3
      (Some steady_feed)
      (mkWorld 0 [] [] [] ∅ {["data/raw/hardware_test_t.csv"]})
    = (Ok (true, notes), w')
    /\ store w' !! 0%nat = Some samples
    /\ samples <> []
    /\ last notes = Some (HardwareComplete (length samples))
    /\ files w' = ∅.
Proof.
  destruct (hardware_test_tells_of_samples_not_of_file Json.loads Pandas.to_datetime
              (fun _ => "t") 1 4 "COM3" 3 steady_feed 3
              (mkWorld 0 [] [] [] ∅ {["data/raw/hardware_test_t.csv"]}))
    as (b & notes & samples & w' & Hrun & Hst & Hiff & Htrue & _ & _ & Hlocked & _).
  - lia.
  - lia.
  - lia.
  - intros j _. split; [reflexivity | vm_compute; discriminate].
  - vm_compute. discriminate.
  - assert (b = true) as ->.
    { vm_compute in Hrun. injection Hrun as Hb _ _. symmetry. exact Hb. }
    exists notes, samples, w'.
    split; [exact Hrun|]. split; [exact Hst|].
    split; [apply Hiff; reflexivity|]. split; [apply Htrue; reflexivity|].
    apply Hlocked. cbn [locked]. apply elem_of_singleton_2. reflexivity.
Defined.

(** ** The quick test of the serial output *)

Section QuickFacts.

Import QuickTest Feed.

Variable feed : nat -> ReadEvent.
Variable duration start_time : Z.

(** One turn of the loop. *)
Lemma monitor_turn (fuel : nat) (t : Tally) (w : World) :
  monitor (S fuel) (mkSerial true feed) duration start_time t w =
    if clock w - start_time <? duration then
      let w1 := after_read (waited (feed (length (read_log w)))) w in
      match arrival (feed (length (read_log w))) with
      | Data raw =>
          if String.eqb (Py.strip raw) "" then
            monitor fuel (mkSerial true feed) duration start_time t w1
          else
            monitor fuel (mkSerial true feed) duration start_time
              (mkTally (line_count t + 1)
                 (if json_like (Py.strip raw) then json_count t + 1 else json_count t)
                 (said t ++ [Echo (clock w1 - start_time) (Py.strip raw)])) w1
      | Interrupt => (Ok (t, None), w1)
      | Lost => (Ok (t, Some SerialException), w1)
      end
    else (Ok (t, None), w).
Proof.
  cbn [monitor]. unfold bind at 1. unfold time_time at 1.
  destruct (clock w - start_time <? duration); [|reflexivity].
  unfold readline, after_read. cbn [incoming]. cbv zeta.
  destruct (arrival (feed (length (read_log w)))) as [raw| |]; try reflexivity.
  destruct (String.eqb (Py.strip raw) ""); reflexivity.
Qed.

Lemma heard_cons (i n : nat) :
  heard feed i (S n)
  = match arrival (feed i) with
    | Data text =>
        if String.eqb (Py.strip text) "" then heard feed (S i) n
        else Py.strip text :: heard feed (S i) n
    | _ => heard feed (S i) n
    end.
Proof.
  unfold heard. change (List.seq i (S n)) with (i :: List.seq (S i) n). cbn [omap list_omap].
  destruct (arrival (feed i)) as [text| |]; try reflexivity.
  destruct (String.eqb (Py.strip text) ""); reflexivity.
Qed.

(** What the loop does, however it ends: it reads only while the time is
    not over, it touches neither the output of the collector nor the objects
    nor the files, and its tally counts the lines heard. *)
Lemma monitor_effect (fuel : nat) :
  forall (t : Tally) (w : World),
  exists ts,
    let r := monitor fuel (mkSerial true feed) duration start_time t w in
    read_log (snd r) = read_log w ++ ts
    /\ Forall (fun x => x - start_time < duration) ts
    /\ clock (snd r) = clock w + waited_in feed (length (read_log w)) (length ts)
    /\ stdout (snd r) = stdout w /\ store (snd r) = store w /\ files (snd r) = files w
    /\ forall t' cause, fst r = Ok (t', cause) ->
         exists es,
           said t' = said t ++ map (fun p => Echo (fst p) (snd p)) es
           /\ map snd es = heard feed (length (read_log w)) (length ts)
           /\ line_count t' = line_count t + Z.of_nat (length es)
           /\ json_count t'
              = json_count t + Z.of_nat (length (List.filter json_like (map snd es)))
           /\ (cause = None \/ cause = Some SerialException).
Proof.
  induction fuel as [|fuel IH]; intros t w.
  - exists []. cbn [monitor running fst snd]. rewrite app_nil_r.
    repeat split; try constructor; try (simpl; lia). intros t' cause H. discriminate.
  - rewrite monitor_turn.
    destruct (clock w - start_time <? duration) eqn:Etime.
    2:{ exists []. cbn [fst snd]. rewrite app_nil_r.
        repeat split; try constructor; try (simpl; lia).
        intros t' cause H. injection H as <- <-. exists [].
        cbn [map length List.filter]. rewrite app_nil_r.
        repeat split; try lia. now left. }
    apply Z.ltb_lt in Etime. cbv zeta.
    set (w1 := after_read (waited (feed (length (read_log w)))) w).
    assert (length (read_log w1) = S (length (read_log w))) as Hidx
      by (subst w1; simpl; rewrite length_app; simpl; lia).
    assert (read_log w1 = read_log w ++ [clock w]) as Hlog1 by reflexivity.
    assert (clock w1 = clock w + waited (feed (length (read_log w)))) as Hclk1 by reflexivity.
    destruct (arrival (feed (length (read_log w)))) as [raw| |] eqn:Earr.
    + destruct (String.eqb (Py.strip raw) "") eqn:Eblank.
      * destruct (IH t w1) as (ts & Hts). cbv zeta in Hts.
        destruct Hts as (Hlog & Hbefore & Hclk & Hout & Hst & Hf & Hres).
        exists (clock w :: ts). cbv zeta.
        split; [rewrite Hlog, Hlog1, <- app_assoc; reflexivity|].
        split; [constructor; assumption|].
        split; [rewrite Hclk, Hclk1, Hidx; simpl; lia|].
        split; [exact Hout|]. split; [exact Hst|]. split; [exact Hf|].
        intros t' cause H. destruct (Hres t' cause H) as (es & H1 & H2 & H3 & H4 & H5).
        exists es. split; [exact H1|]. split; [|auto].
        cbn [length]. rewrite heard_cons, Earr, Eblank, <- Hidx. exact H2.
      * match goal with
        | |- context [monitor fuel _ _ _ ?t1 w1] => destruct (IH t1 w1) as (ts & Hts)
        end.
        cbv zeta in Hts.
        destruct Hts as (Hlog & Hbefore & Hclk & Hout & Hst & Hf & Hres).
        exists (clock w :: ts). cbv zeta.
        split; [rewrite Hlog, Hlog1, <- app_assoc; reflexivity|].
        split; [constructor; assumption|].
        split; [rewrite Hclk, Hclk1, Hidx; simpl; lia|].
        split; [exact Hout|]. split; [exact Hst|]. split; [exact Hf|].
        intros t' cause H. destruct (Hres t' cause H) as (es & H1 & H2 & H3 & H4 & H5).
        cbn [said line_count json_count] in H1, H3, H4.
        exists ((clock w1 - start_time, Py.strip raw) :: es).
        split; [rewrite H1, <- app_assoc; reflexivity|].
        split; [cbn [length map snd]; rewrite heard_cons, Earr, Eblank, <- Hidx, H2;
                reflexivity|].
        split; [cbn [length]; lia|]. split; [|exact H5].
        cbn [map snd List.filter].
        destruct (json_like (Py.strip raw)); cbn [length]; lia.
    + exists [clock w]. cbn [fst snd].
      split; [exact Hlog1|]. split; [repeat constructor; assumption|].
      split; [rewrite Hclk1; simpl; lia|].
      split; [reflexivity|]. split; [reflexivity|]. split; [reflexivity|].
      intros t' cause H. injection H as <- <-. exists [].
      cbn [map length List.filter]. rewrite app_nil_r, heard_cons, Earr.
      repeat split; try lia. now left.
    + exists [clock w]. cbn [fst snd].
      split; [exact Hlog1|]. split; [repeat constructor; assumption|].
      split; [rewrite Hclk1; simpl; lia|].
      split; [reflexivity|]. split; [reflexivity|]. split; [reflexivity|].
      intros t' cause H. injection H as <- <-. exists [].
      cbn [map length List.filter]. rewrite app_nil_r, heard_cons, Earr.
      repeat split; try lia. now right.
Qed.

(** The loop returns once the reads have blocked for the whole duration: it
    is left before the first read at which the time is over. *)
Lemma monitor_by_duration (k : nat) :
  forall (t : Tally) (w : World),
    (forall j, (j < k)%nat ->
       exists text, arrival (feed (length (read_log w) + j)) = Data text) ->
    duration - (clock w - start_time) <= waited_in feed (length (read_log w)) k ->
    exists n t' w',
      (n <= k)%nat
      /\ length (read_log w') = (length (read_log w) + n)%nat
      /\ duration - (clock w - start_time) <= waited_in feed (length (read_log w)) n
      /\ (forall j, (j < n)%nat ->
            clock w - start_time + waited_in feed (length (read_log w)) j < duration)
      /\ forall fuel, (k < fuel)%nat ->
           monitor fuel (mkSerial true feed) duration start_time t w = (Ok (t', None), w').
Proof.
  induction k as [|k IH]; intros t w Hfeed Hsum.
  - simpl in Hsum. exists 0%nat, t, w.
    split; [lia|]. split; [lia|]. split; [simpl; lia|]. split; [intros j Hj; lia|].
    intros [|fuel] Hfuel; [lia|].
    rewrite monitor_turn.
    destruct (clock w - start_time <? duration) eqn:E; [|reflexivity].
    apply Z.ltb_lt in E. lia.
  - destruct (Z_lt_ge_dec (clock w - start_time) duration) as [Hlt|Hge].
    2:{ exists 0%nat, t, w.
        split; [lia|]. split; [lia|]. split; [simpl; lia|]. split; [intros j Hj; lia|].
        intros [|fuel] Hfuel; [lia|]. rewrite monitor_turn.
        destruct (clock w - start_time <? duration) eqn:E; [|reflexivity].
        apply Z.ltb_lt in E. lia. }
    destruct (Hfeed 0%nat ltac:(lia)) as [raw Hraw]. rewrite Nat.add_0_r in Hraw.
    set (w1 := after_read (waited (feed (length (read_log w)))) w).
    assert (length (read_log w1) = S (length (read_log w))) as Hidx
      by (subst w1; simpl; rewrite length_app; simpl; lia).
    assert (clock w1 = clock w + waited (feed (length (read_log w)))) as Hclk1 by reflexivity.
    assert (forall t1, exists n t' w',
              (n <= S k)%nat
              /\ length (read_log w') = (length (read_log w) + n)%nat
              /\ duration - (clock w - start_time) <= waited_in feed (length (read_log w)) n
              /\ (forall j, (j < n)%nat ->
                    clock w - start_time + waited_in feed (length (read_log w)) j < duration)
              /\ forall fuel, (k < fuel)%nat ->
                   monitor fuel (mkSerial true feed) duration start_time t1 w1
                   = (Ok (t', None), w')) as Hnext.
    { intros t1. destruct (IH t1 w1) as (n & t' & w' & Hn & Hlen & Hover & Hbefore & Hrun).
      - intros j Hj. rewrite Hidx.
        replace (S (length (read_log w)) + j)%nat with (length (read_log w) + S j)%nat by lia.
        apply Hfeed. lia.
      - rewrite Hidx, Hclk1. simpl in Hsum. lia.
      - exists (S n), t', w'. rewrite Hidx, Hclk1 in *.
        split; [lia|]. split; [lia|]. split; [simpl; lia|]. split; [|exact Hrun].
        intros [|j] Hj; [simpl; lia|]. pose proof (Hbefore j ltac:(lia)). simpl. lia. }
    destruct (String.eqb (Py.strip raw) "") eqn:Eblank.
    + destruct (Hnext t) as (n & t' & w' & Hn & Hlen & Hover & Hbefore & Hrun).
      exists n, t', w'. repeat (split; [assumption|]).
      intros [|fuel] Hfuel; [lia|]. rewrite monitor_turn.
      apply Z.ltb_lt in Hlt. rewrite Hlt. cbv zeta. rewrite Hraw, Eblank.
      apply Hrun. lia.
    + destruct (Hnext (mkTally (line_count t + 1)
                         (if json_like (Py.strip raw) then json_count t + 1 else json_count t)
                         (said t ++ [Echo (clock w1 - start_time) (Py.strip raw)])))
        as (n & t' & w' & Hn & Hlen & Hover & Hbefore & Hrun).
      exists n, t', w'. repeat (split; [assumption|]).
      intros [|fuel] Hfuel; [lia|]. rewrite monitor_turn.
      apply Z.ltb_lt in Hlt. rewrite Hlt. cbv zeta. rewrite Hraw, Eblank.
      apply Hrun. lia.
Qed.

(** The loop is left at the read number [k] when that read delivers no
    text, and the time is not over before. *)
Lemma monitor_until (k : nat) :
  forall (t : Tally) (w : World),
    (forall j, (j < k)%nat ->
       exists text, arrival (feed (length (read_log w) + j)) = Data text) ->
    (forall j, (j <= k)%nat ->
       clock w - start_time + waited_in feed (length (read_log w)) j < duration) ->
    (forall text, arrival (feed (length (read_log w) + k)) <> Data text) ->
    exists t' w',
      length (read_log w') = S (length (read_log w) + k)
      /\ forall fuel, (k < fuel)%nat ->
        monitor fuel (mkSerial true feed) duration start_time t w
        = (Ok (t', match arrival (feed (length (read_log w) + k)) with
                   | Lost => Some SerialException
                   | _ => None
                   end), w').
Proof.
  induction k as [|k IH]; intros t w Hfeed Htime Hend.
  - rewrite Nat.add_0_r in *.
    exists t, (after_read (waited (feed (length (read_log w)))) w).
    split; [simpl; rewrite length_app; simpl; lia|].
    intros [|fuel] Hfuel; [lia|]. rewrite monitor_turn.
    pose proof (Htime 0%nat ltac:(lia)) as H0. simpl in H0.
    destruct (clock w - start_time <? duration) eqn:E; [|apply Z.ltb_ge in E; lia].
    cbv zeta. destruct (arrival (feed (length (read_log w)))) as [raw| |]; try reflexivity.
    now contradiction (Hend raw).
  - destruct (Hfeed 0%nat ltac:(lia)) as [raw Hraw]. rewrite Nat.add_0_r in Hraw.
    set (w1 := after_read (waited (feed (length (read_log w)))) w).
    assert (length (read_log w1) = S (length (read_log w))) as Hidx
      by (subst w1; simpl; rewrite length_app; simpl; lia).
    assert (clock w1 = clock w + waited (feed (length (read_log w)))) as Hclk1 by reflexivity.
    assert (S (length (read_log w)) + k = length (read_log w) + S k)%nat as Hshift by lia.
    assert (forall t1, exists t' w',
              length (read_log w') = S (length (read_log w) + S k)
              /\ forall fuel, (k < fuel)%nat ->
                monitor fuel (mkSerial true feed) duration start_time t1 w1
                = (Ok (t', match arrival (feed (length (read_log w) + S k)) with
                           | Lost => Some SerialException
                           | _ => None
                           end), w')) as Hnext.
    { intros t1. destruct (IH t1 w1) as (t' & w' & Hlen & Hrun).
      - intros j Hj. rewrite Hidx.
        replace (S (length (read_log w)) + j)%nat with (length (read_log w) + S j)%nat by lia.
        apply Hfeed. lia.
      - intros j Hj. rewrite Hidx, Hclk1.
        pose proof (Htime (S j) ltac:(lia)) as H. simpl in H. lia.
      - rewrite Hidx, Hshift. exact Hend.
      - rewrite Hidx, Hshift in *. exists t', w'. split; [lia | exact Hrun]. }
    pose proof (Htime 0%nat ltac:(lia)) as H0. simpl in H0.
    assert ((clock w - start_time <? duration) = true) as Hlt by (apply Z.ltb_lt; lia).
    destruct (String.eqb (Py.strip raw) "") eqn:Eblank.
    + destruct (Hnext t) as (t' & w' & Hlen & Hrun). exists t', w'.
      split; [exact Hlen|].
      intros [|fuel] Hfuel; [lia|]. rewrite monitor_turn.
      rewrite Hlt. cbv zeta. rewrite Hraw, Eblank.
      apply Hrun. lia.
    + destruct (Hnext (mkTally (line_count t + 1)
                         (if json_like (Py.strip raw) then json_count t + 1 else json_count t)
                         (said t ++ [Echo (clock w1 - start_time) (Py.strip raw)])))
        as (t' & w' & Hlen & Hrun).
      exists t', w'. split; [exact Hlen|].
      intros [|fuel] Hfuel; [lia|]. rewrite monitor_turn.
      rewrite Hlt. cbv zeta. rewrite Hraw, Eblank.
      apply Hrun. lia.
Qed.

End QuickFacts.

Section QuickTestFacts.

Import QuickTest Feed.

Variable second : Z.

(** [test_esp8266_output] once the port is open. *)
Lemma quick_test_started (fuel : nat) (port : string) (duration : Z)
    (feed : nat -> ReadEvent) (w : World) :
  test_esp8266_output second fuel port duration (Some feed) w =
    match monitor fuel (mkSerial true feed) duration (clock w + 2 * second)
            (mkTally 0 0 [TestingPort port; WillMonitor duration; Rule])
            (set_clock (clock w + 2 * second) w) with
    | (Ok (t, None), w1) =>
        (Ok (true,
             said t
             ++ [Rule; TestResults; TotalLines (line_count t); JsonLikeLines (json_count t)]
             ++ (if 0 <? json_count t then [AppearsWorking; TryCollector port]
                 else [NoJsonDetected; CheckFirmware]),
             Some (mkSerial false feed)), w1)
    | (Ok (t, Some e), w1) =>
        if is_serial_exception e then
          (Ok (false, said t ++ [SerialFailed; PortsOnWindows; PortsOnLinux],
               Some (mkSerial true feed)), w1)
        else if is_exception e then
          (Ok (false, said t ++ [TestFailed e], Some (mkSerial true feed)), w1)
        else (Raise e, w1)
    | (Raise e, w1) => (Raise e, w1)
    | (Running, w1) => (Running, w1)
    end.
Proof.
  unfold test_esp8266_output. unfold bind at 1. unfold sleep at 1.
  unfold bind at 1. unfold time_time at 1. cbn [clock set_clock].
  unfold bind at 1.
  destruct (monitor _ _ _ _ _ _) as [[[t [e|]]|e|] w1]; try reflexivity.
  destruct (is_serial_exception e); [reflexivity|].
  destruct (is_exception e); reflexivity.
Qed.

(** The world the quick test leaves is the one its loop leaves. *)
Lemma quick_test_world (fuel : nat) (port : string) (duration : Z)
    (feed : nat -> ReadEvent) (w : World) :
  snd (test_esp8266_output second fuel port duration (Some feed) w)
  = snd (monitor fuel (mkSerial true feed) duration (clock w + 2 * second)
           (mkTally 0 0 [TestingPort port; WillMonitor duration; Rule])
           (set_clock (clock w + 2 * second) w)).
Proof.
  rewrite quick_test_started.
  destruct (monitor _ _ _ _ _ _) as [[[t [e|]]|e|] w1]; try reflexivity.
  destruct (is_serial_exception e); [reflexivity|].
  destruct (is_exception e); reflexivity.
Qed.

Lemma some_json_like (lines : list string) :
  (0 <? Z.of_nat (length (List.filter json_like lines))) = existsb json_like lines.
Proof.
  induction lines as [|l lines IH]; [reflexivity|].
  cbn [List.filter existsb]. destruct (json_like l); [|exact IH].
  cbn [length orb]. apply Z.ltb_lt. lia.
Qed.

Lemma heard_snoc (feed : nat -> ReadEvent) (i n : nat) :
  (forall text, arrival (feed (i + n)%nat) <> Data text) ->
  heard feed i (S n) = heard feed i n.
Proof.
  intros Hend. unfold heard. rewrite seq_S, omap_app. cbn [omap list_omap].
  destruct (arrival (feed (i + n)%nat)) as [text| |]; try apply app_nil_r.
  now contradiction (Hend text).
Qed.

End QuickTestFacts.

Import QuickTest.

(** X23.  The quick test reads the port only while less than [duration] has
    passed since the two seconds of settling, however it ends, and it touches
    no file.  A duration of zero (or less) therefore means no read at all: the
    test returns [True] at once with a report of zero lines, where the
    collector takes a duration of zero for no limit. *)
Theorem quick_test_reads_only_before_deadline
    (second : Z) (fuel : nat) (port : string) (duration : Z)
    (feed : nat -> ReadEvent) (w : World) :
  exists ts,
    read_log (snd (test_esp8266_output second fuel port duration (Some feed) w))
    = read_log w ++ ts
    /\ Forall (fun x => x - (clock w + 2 * second) < duration) ts
    /\ files (snd (test_esp8266_output second fuel port duration (Some feed) w)) = files w
    /\ (duration <= 0 ->
        ts = []
        /\ (fuel <> 0%nat ->
            fst (test_esp8266_output second fuel port duration (Some feed) w)
            = Ok (true,
                  [TestingPort port; WillMonitor duration; Rule;
                   Rule; TestResults; TotalLines 0; JsonLikeLines 0;
                   NoJsonDetected; CheckFirmware],
                  Some (mkSerial false feed)))).
Proof.
  destruct (monitor_effect feed duration (clock w + 2 * second) fuel
              (mkTally 0 0 [TestingPort port; WillMonitor duration; Rule])
              (set_clock (clock w + 2 * second) w))
    as (ts & Hts).
  cbv zeta in Hts. destruct Hts as (Hlog & Hbefore & _ & _ & _ & Hf & _).
  exists ts. rewrite quick_test_world.
  split; [exact Hlog|]. split; [exact Hbefore|]. split; [exact Hf|].
  intros Hzero.
  assert (forall fuel', monitor (S fuel') (mkSerial true feed) duration (clock w + 2 * second)
            (mkTally 0 0 [TestingPort port; WillMonitor duration; Rule])
            (set_clock (clock w + 2 * second) w)
          = (Ok (mkTally 0 0 [TestingPort port; WillMonitor duration; Rule], None),
             set_clock (clock w + 2 * second) w)) as Hstop.
  { intros fuel'. rewrite monitor_turn. cbn [clock set_clock].
    destruct (clock w + 2 * second - (clock w + 2 * second) <? duration) eqn:E;
      [apply Z.ltb_lt in E; lia | reflexivity]. }
  split.
  - destruct fuel as [|fuel'].
    + cbn [monitor running snd read_log set_clock] in Hlog.
      apply (app_inv_head (read_log w)). rewrite app_nil_r. symmetry. exact Hlog.
    + rewrite Hstop in Hlog. cbn [snd read_log set_clock] in Hlog.
      apply (app_inv_head (read_log w)). rewrite app_nil_r. symmetry. exact Hlog.
  - intros Hfuel. destruct fuel as [|fuel']; [congruence|].
    rewrite quick_test_started, Hstop. reflexivity.
Qed.

(** X24.  When every read delivers text and the reads block for the whole
    duration, the quick test returns [True] with the port closed, and its
    report is that of the lines heard before the first read at which the time
    was over: each line with something left once stripped is echoed and
    counted, the lines that begin with an opening and end with a closing
    brace are counted as JSON, and the verdict is that the device works
    exactly when there is such a line.  The result is [True] also when there
    is none. *)
Theorem quick_test_reports_lines_heard
    (second : Z) (fuel : nat) (port : string) (duration : Z)
    (feed : nat -> ReadEvent) (k : nat) (w : World) :
  (k < fuel)%nat ->
  (forall j, (j < k)%nat ->
     exists text, arrival (feed (length (read_log w) + j)%nat) = Data text) ->
  duration <= Feed.waited_in feed (length (read_log w)) k ->
  exists n es w',
    (n <= k)%nat
    /\ duration <= Feed.waited_in feed (length (read_log w)) n
    /\ (forall j, (j < n)%nat -> Feed.waited_in feed (length (read_log w)) j < duration)
    /\ length (read_log w') = (length (read_log w) + n)%nat
    /\ map snd es = heard feed (length (read_log w)) n
    /\ test_esp8266_output second fuel port duration (Some feed) w
       = (Ok (true,
              [TestingPort port; WillMonitor duration; Rule]
              ++ map (fun p => Echo (fst p) (snd p)) es
              ++ [Rule; TestResults;
                  TotalLines (Z.of_nat (length es));
                  JsonLikeLines (Z.of_nat (length (List.filter json_like (map snd es))))]
              ++ (if existsb json_like (map snd es)
                  then [AppearsWorking; TryCollector port]
                  else [NoJsonDetected; CheckFirmware]),
              Some (mkSerial false feed)), w').
Proof.
  intros Hfuel Hfeed Hsum.
  set (t0 := mkTally 0 0 [TestingPort port; WillMonitor duration; Rule]).
  set (w0 := set_clock (clock w + 2 * second) w).
  destruct (monitor_by_duration feed duration (clock w + 2 * second) k t0 w0)
    as (n & t' & w' & Hn & Hlen & Hover & Hbefore & Hrun).
  { exact Hfeed. }
  { subst w0. cbn [clock set_clock read_log]. lia. }
  destruct (monitor_effect feed duration (clock w + 2 * second) fuel t0 w0) as (ts & Hts).
  cbv zeta in Hts. rewrite (Hrun fuel Hfuel) in Hts. cbn [fst snd] in Hts.
  destruct Hts as (Hlog & _ & _ & _ & _ & _ & Hres).
  destruct (Hres t' None eq_refl) as (es & Hsaid & Hheard & Hlines & Hjson & _).
  assert (length ts = n) as Hts.
  { rewrite Hlog, length_app in Hlen. lia. }
  subst w0 t0. cbn [clock set_clock read_log said line_count json_count] in *.
  exists n, es, w'.
  split; [exact Hn|]. split; [lia|].
  split; [intros j Hj; pose proof (Hbefore j Hj); lia|].
  split; [exact Hlen|]. split; [rewrite Hheard, Hts; reflexivity|].
  rewrite quick_test_started, (Hrun fuel Hfuel).
  rewrite Hsaid, Hlines, Hjson, !Z.add_0_l, some_json_like.
  repeat rewrite <- app_assoc. reflexivity.
Qed.

Lemma quick_test_reports_lines_heard_witness :
  exists es w',
    map snd es = [measurement_line; measurement_line; measurement_line]
    /\ test_esp8266_output 1 4 "COM3" 3 (Some steady_feed) boot
       = (Ok (true,
              [TestingPort "COM3"; WillMonitor 3; Rule]
              ++ map (fun p => Echo (fst p) (snd p)) es
              ++ [Rule; TestResults; TotalLines 3; JsonLikeLines 3;
                  AppearsWorking; TryCollector "COM3"],
              Some (mkSerial false steady_feed)), w').
Proof.
  destruct (quick_test_reports_lines_heard 1 4 "COM3" 3 steady_feed 3 boot)
    as (n & es & w' & Hn & Hover & _ & _ & Hheard & Hrun).
  - lia.
  - intros j _. eexists. reflexivity.
  - vm_compute. discriminate.
  - assert (n = 3%nat) as ->.
    { destruct n as [|[|[|[|n]]]]; try lia; vm_compute in Hover; now contradiction Hover. }
    exists es, w'. split; [rewrite Hheard; vm_compute; reflexivity|].
    rewrite Hrun. destruct es as [|e1 [|e2 [|e3 [|e4 es]]]]; try discriminate.
    rewrite Hheard. vm_compute. reflexivity.
Defined.

(** X25.  When a read delivers no text before the time is over, the quick
    test ends there.  On an interrupt of the operator it gives its report and
    returns [True] with the port closed.  On the loss of the device it
    returns [False], gives no report of the lines it has heard, and leaves
    the port open: [close] is never reached.  In both cases [main], whose
    duration is thirty seconds, ends with the exit code 0. *)
Theorem quick_test_leaves_port_open_when_device_is_lost
    (second : Z) (fuel : nat) (port : string) (duration : Z)
    (feed : nat -> ReadEvent) (k : nat) (w : World) :
  (k < fuel)%nat ->
  (forall j, (j < k)%nat ->
     exists text, arrival (feed (length (read_log w) + j)%nat) = Data text) ->
  (forall j, (j <= k)%nat -> Feed.waited_in feed (length (read_log w)) j < duration) ->
  (forall text, arrival (feed (length (read_log w) + k)%nat) <> Data text) ->
  exists es b out ser w',
    test_esp8266_output second fuel port duration (Some feed) w = (Ok (b, out, ser), w')
    /\ map snd es = heard feed (length (read_log w)) k
    /\ length (read_log w') = S (length (read_log w) + k)
    /\ (arrival (feed (length (read_log w) + k)%nat) = Interrupt ->
        b = true /\ ser = Some (mkSerial false feed)
        /\ out = [TestingPort port; WillMonitor duration; Rule]
                 ++ map (fun p => Echo (fst p) (snd p)) es
                 ++ [Rule; TestResults;
                     TotalLines (Z.of_nat (length es));
                     JsonLikeLines (Z.of_nat (length (List.filter json_like (map snd es))))]
                 ++ (if existsb json_like (map snd es)
                     then [AppearsWorking; TryCollector port]
                     else [NoJsonDetected; CheckFirmware]))
    /\ (arrival (feed (length (read_log w) + k)%nat) = Lost ->
        b = false /\ ser = Some (mkSerial true feed)
        /\ out = [TestingPort port; WillMonitor duration; Rule]
                 ++ map (fun p => Echo (fst p) (snd p)) es
                 ++ [SerialFailed; PortsOnWindows; PortsOnLinux])
    /\ (duration = 30 * second ->
        forall script,
          QuickTest.main second fuel [script; port] (Some feed) w = (Ok (0, out), w')).
Proof.
  intros Hfuel Hfeed Htime Hend.
  set (t0 := mkTally 0 0 [TestingPort port; WillMonitor duration; Rule]).
  set (w0 := set_clock (clock w + 2 * second) w).
  destruct (monitor_until feed duration (clock w + 2 * second) k t0 w0)
    as (t' & w' & Hlen & Hrun).
  { exact Hfeed. }
  { intros j Hj. subst w0. cbn [clock set_clock read_log]. pose proof (Htime j Hj). lia. }
  { exact Hend. }
  destruct (monitor_effect feed duration (clock w + 2 * second) fuel t0 w0) as (ts & Hts).
  cbv zeta in Hts. rewrite (Hrun fuel Hfuel) in Hts. cbn [fst snd] in Hts.
  destruct Hts as (Hlog & _ & _ & _ & _ & _ & Hres).
  destruct (Hres _ _ eq_refl) as (es & Hsaid & Hheard & Hlines & Hjson & _).
  assert (length ts = S k) as Hts.
  { rewrite Hlog, length_app in Hlen. subst w0. cbn [read_log set_clock] in Hlen. lia. }
  subst w0 t0. cbn [clock set_clock read_log said line_count json_count] in *.
  rewrite Hts, (heard_snoc feed _ k Hend) in Hheard.
  assert (exists b out ser,
            test_esp8266_output second fuel port duration (Some feed) w
            = (Ok (b, out, ser), w')
            /\ (arrival (feed (length (read_log w) + k)%nat) = Interrupt ->
                b = true /\ ser = Some (mkSerial false feed)
                /\ out = [TestingPort port; WillMonitor duration; Rule]
                         ++ map (fun p => Echo (fst p) (snd p)) es
                         ++ [Rule; TestResults;
                             TotalLines (Z.of_nat (length es));
                             JsonLikeLines
                               (Z.of_nat (length (List.filter json_like (map snd es))))]
                         ++ (if existsb json_like (map snd es)
                             then [AppearsWorking; TryCollector port]
                             else [NoJsonDetected; CheckFirmware]))
            /\ (arrival (feed (length (read_log w) + k)%nat) = Lost ->
                b = false /\ ser = Some (mkSerial true feed)
                /\ out = [TestingPort port; WillMonitor duration; Rule]
                         ++ map (fun p => Echo (fst p) (snd p)) es
                         ++ [SerialFailed; PortsOnWindows; PortsOnLinux]))
    as (b & out & ser & Htest & Hint & Hlost).
  { rewrite quick_test_started, (Hrun fuel Hfuel).
    destruct (arrival (feed (length (read_log w) + k)%nat)) as [text| |] eqn:Earr.
    - now contradiction (Hend text).
    - eexists _, _, _. split; [reflexivity|]. split; [|discriminate].
      intros _. split; [reflexivity|]. split; [reflexivity|].
      rewrite Hsaid, Hlines, Hjson, !Z.add_0_l, some_json_like.
      repeat rewrite <- app_assoc. reflexivity.
    - cbn [is_serial_exception]. eexists _, _, _. split; [reflexivity|].
      split; [discriminate|].
      intros _. split; [reflexivity|]. split; [reflexivity|].
      rewrite Hsaid. repeat rewrite <- app_assoc. reflexivity. }
  exists es, b, out, ser, w'.
  split; [exact Htest|]. split; [exact Hheard|]. split; [exact Hlen|].
  split; [exact Hint|]. split; [exact Hlost|].
  intros -> script. unfold QuickTest.main, bind. rewrite Htest. reflexivity.
Qed.

Lemma quick_test_leaves_port_open_when_device_is_lost_witness :
  exists es out w',
    test_esp8266_output 1 5 "COM3" 30
      (Some (fun j => if (j <? 2)%nat then mkRead 1 (Data measurement_line)
                      else mkRead 1 Lost)) boot
    = (Ok (false, out,
           Some (mkSerial true
                   (fun j => if (j <? 2)%nat then mkRead 1 (Data measurement_line)
                             else mkRead 1 Lost))), w')
    /\ out = [TestingPort "COM3"; WillMonitor 30; Rule]
             ++ map (fun p => Echo (fst p) (snd p)) es
             ++ [SerialFailed; PortsOnWindows; PortsOnLinux]
    /\ map snd es = [measurement_line; measurement_line]
    /\ QuickTest.main 1 5 ["quick_test.py"; "COM3"]
         (Some (fun j => if (j <? 2)%nat then mkRead 1 (Data measurement_line)
                         else mkRead 1 Lost)) boot
       = (Ok (0, out), w').
Proof.
  destruct (quick_test_leaves_port_open_when_device_is_lost 1 5 "COM3" 30
              (fun j => if (j <? 2)%nat then mkRead 1 (Data measurement_line)
                        else mkRead 1 Lost) 2 boot)
    as (es & b & out & ser & w' & Htest & Hheard & _ & _ & Hlost & Hmain).
  - lia.
  - intros [|[|j]] Hj; [eexists; reflexivity | eexists; reflexivity | lia].
  - intros [|[|[|j]]] Hj; [reflexivity | reflexivity | reflexivity | lia].
  - intros text. vm_compute. discriminate.
  - destruct (Hlost eq_refl) as (-> & -> & Hout).
    exists es, out, w'. split; [exact Htest|]. split; [exact Hout|].
    split; [rewrite Hheard; vm_compute; reflexivity|].
    apply Hmain. reflexivity.
Defined.
